(** * buscapi: stage executor, pipeline flow, report-job queue, raw-result store

    A shallow embedding of the orchestration core of the repository:
    - [tasks/ip_tasks.py]       ([IPTaskManager.execute_task]),
    - [tasks/pdf_worker.py]     ([enqueue_pdf_job], [_run_pdf_job], [get_job_meta]),
    - [database/persist_dados.py] ([BuscapiDB.insert_search_result_raw]),
    - [flows/ip_flow.py]        ([PropriedadeIntelectualFlow]).

    Python values are an inductive type, dicts are insertion-ordered
    association lists, module-level dicts keyed by job id are [gmap]s,
    exceptions are an explicit outcome, and mutable state is threaded
    through a small state-and-exception monad in which the state written
    before an exception survives it, as in Python. *)

From stdpp Require Import base strings list gmap pretty.

Set Warnings "-register-all".

Open Scope string_scope.

(** ** Python values, exceptions, dictionaries *)

Module Py.

Inductive pyval : Type :=
| PNone
| PBool (b : bool)
| PInt (z : Z)
| PStr (s : string)
| PList (l : list pyval)
| PDict (d : list (string * pyval))
| PObj (repr : string).   (* an object json cannot serialise (Path, set, ...) *)

Abbreviation pydict := (list (string * pyval)).

Record exn := Exn { exn_class : string; exn_msg : string }.

(** [str(e)] *)
Definition exn_str (e : exn) : string := exn_msg e.

Inductive res (A : Type) : Type :=
| Ok (a : A)
| Raise (e : exn).
Arguments Ok {A} a.
Arguments Raise {A} e.

Definition is_ok {A} (r : res A) : bool :=
  match r with Ok _ => true | Raise _ => false end.

(** One fallible computation after another. *)
Definition and_then {A B} (r : res A) (k : A → res B) : res B :=
  match r with
  | Ok a => k a
  | Raise e => Raise e
  end.

(** [d.get(k)] on a dict: the first binding of the key. *)
Fixpoint dict_get (k : string) (d : pydict) : option pyval :=
  match d with
  | [] => None
  | (k', v) :: d' => if String.eqb k k' then Some v else dict_get k d'
  end.

(** [d[k] = v]: an existing key keeps its position, a new key goes last. *)
Fixpoint dict_set (k : string) (v : pyval) (d : pydict) : pydict :=
  match d with
  | [] => [(k, v)]
  | (k', v') :: d' =>
      if String.eqb k k' then (k, v) :: d' else (k', v') :: dict_set k v d'
  end.

(** [d.update(u)] *)
Definition dict_update (u d : pydict) : pydict :=
  fold_left (fun acc kv => dict_set (fst kv) (snd kv) acc) u d.

Definition dict_get_default (k : string) (dflt : pyval) (d : pydict) : pyval :=
  default dflt (dict_get k d).

Definition has_key (k : string) (d : pydict) : bool :=
  match dict_get k d with Some _ => true | None => false end.

(** Truth value of an object in a condition. *)
Definition truthy (v : pyval) : bool :=
  match v with
  | PNone => false
  | PBool b => b
  | PInt z => negb (Z.eqb z 0)
  | PStr s => negb (String.eqb s "")
  | PList l => match l with [] => false | _ => true end
  | PDict d => match d with [] => false | _ => true end
  | PObj _ => true
  end.

(** Truth value of an [Optional[str]] field. *)
Definition truthy_str (o : option string) : bool :=
  match o with
  | Some s => negb (String.eqb s "")
  | None => false
  end.

(** Truth value of an [Optional[int]] field. *)
Definition truthy_int (o : option Z) : bool :=
  match o with
  | Some z => negb (Z.eqb z 0)
  | None => false
  end.


Definition of_opt_int (o : option Z) : pyval :=
  match o with Some z => PInt z | None => PNone end.

Definition of_opt_str (o : option string) : pyval :=
  match o with Some s => PStr s | None => PNone end.

Definition type_name (v : pyval) : string :=
  match v with
  | PNone => "NoneType"
  | PBool _ => "bool"
  | PInt _ => "int"
  | PStr _ => "str"
  | PList _ => "list"
  | PDict _ => "dict"
  | PObj _ => "object"
  end.

(** [len(v)]: defined on strings, lists and dicts, [TypeError] otherwise. *)
Definition py_len (v : pyval) : res Z :=
  match v with
  | PStr s => Ok (Z.of_nat (String.length s))
  | PList l => Ok (Z.of_nat (length l))
  | PDict d => Ok (Z.of_nat (length d))
  | _ => Raise (Exn "TypeError"
                  ("object of type '" +:+ type_name v +:+ "' has no len()"))
  end.

(** [v.get(k, dflt)]: only dicts have the attribute. *)
Definition py_get (v : pyval) (k : string) (dflt : pyval) : res pyval :=
  match v with
  | PDict d => Ok (dict_get_default k dflt d)
  | _ => Raise (Exn "AttributeError"
                  ("'" +:+ type_name v +:+ "' object has no attribute 'get'"))
  end.

(** What the interpreter's libraries do with text: the [json] module,
    [str()] of a value and [str.lower].  The functions of the repository
    are written over any implementation of this interface.  When
    [json.loads] does not decode a text it raises [json_loads_error] of
    it: a [JSONDecodeError] for a malformed text, a [ValueError] for an
    integer of too many digits, a [RecursionError] for too deep a
    nesting. *)
Class Codec := {
  json_loads : string → option pyval;          (* None: json.loads raises *)
  json_loads_error : string → exn;             (* the exception it raises then *)
  json_dumps : pyval → option string;          (* ensure_ascii=False; None: TypeError *)
  json_dumps_ascii : pyval → option string;    (* json.dumps with its defaults *)
  json_dumps_sorted : pyval → option string;   (* sort_keys=True, ensure_ascii=False *)
  json_dump_default : pyval → string;          (* indent=2, default=str *)
  py_str : pyval → string;
  str_lower : string → string;
}.

(** A state-and-exception monad over a world [W]: a computation returns a
    value or raises, and in both cases hands back the world it left. *)
Definition M (W A : Type) : Type := W → res A * W.

Definition ret {W A} (a : A) : M W A := fun w => (Ok a, w).
Definition raise {W A} (e : exn) : M W A := fun w => (Raise e, w).
Definition bind {W A B} (m : M W A) (k : A → M W B) : M W B :=
  fun w => match m w with
           | (Ok a, w') => k a w'
           | (Raise e, w') => (Raise e, w')
           end.
(** [try: m  except Exception as e: h e] *)
Definition try_ {W A} (m : M W A) (h : exn → M W A) : M W A :=
  fun w => match m w with
           | (Ok a, w') => (Ok a, w')
           | (Raise e, w') => h e w'
           end.
(** [try: m  finally: f] *)
Definition finally {W A} (m : M W A) (f : M W unit) : M W A :=
  fun w => match m w with
           | (r, w') => match f w' with
                        | (Ok _, w'') => (r, w'')
                        | (Raise e, w'') => (Raise e, w'')
                        end
           end.
Definition modify {W} (f : W → W) : M W unit := fun w => (Ok tt, f w).
Definition gets {W A} (f : W → A) : M W A := fun w => (Ok (f w), w).
Definition lift {W A} (r : res A) : M W A := fun w => (r, w).
Definition when {W} (b : bool) (m : M W unit) : M W unit :=
  if b then m else ret tt.

End Py.

Import Py.

Declare Scope py_scope.
Delimit Scope py_scope with py.
Notation "'let!' x ':=' m 'in' k" := (Py.bind m (fun x => k))
  (at level 10, x name, m at level 100, k at level 200) : py_scope.
Notation "'do!' m 'in' k" := (Py.bind m (fun _ => k))
  (at level 10, m at level 100, k at level 200) : py_scope.

Local Open Scope py_scope.

(** ** pathlib on a POSIX host: joining two path texts

    [str(Path(a) / b)] as [PurePosixPath] computes it: the texts are split
    at ["/"], empty components and ["."] are dropped, and a [b] that
    starts with a slash replaces [a]. *)

Module PosixPath.

Definition is_sep (c : Ascii.ascii) : bool := Nat.eqb (Ascii.nat_of_ascii c) 47.

(** [s.split('/')], with [cur] the characters of the component being read. *)
Fixpoint split_sep (s cur : string) : list string :=
  match s with
  | EmptyString => [cur]
  | String c s' =>
      if is_sep c then cur :: split_sep s' ""
      else split_sep s' (cur +:+ String c "")
  end.

(** The parts a path keeps: empty components and ["."] are dropped,
    [".."] is kept. *)
Definition components (s : string) : list string :=
  List.filter (fun x => negb (String.eqb x "") && negb (String.eqb x "."))
    (split_sep s "").

(** [len(s) - len(s.lstrip('/'))] *)
Fixpoint leading_seps (s : string) : nat :=
  match s with
  | String c s' => if is_sep c then S (leading_seps s') else 0
  | EmptyString => 0
  end.

(** The root of a path text: none without a leading slash, ["//"] for
    exactly two leading slashes, ["/"] otherwise. *)
Definition root (s : string) : string :=
  match leading_seps s with
  | 0 => ""
  | 2 => "//"
  | _ => "/"
  end.

Fixpoint has_sep (s : string) : bool :=
  match s with
  | EmptyString => false
  | String c s' => is_sep c || has_sep s'
  end.

(** [str(Path(a) / b)]: a [b] with a root replaces [a]; the empty path is
    written ["."]. *)
Definition join (a b : string) : string :=
  let '(r, parts) :=
    if String.eqb (root b) ""
    then (root a, (components a ++ components b)%list)
    else (root b, components b) in
  let text := r +:+ String.concat "/" parts in
  if String.eqb text "" then "." else text.

End PosixPath.

(** ** tasks/ip_tasks.py: the stage executor *)

Module Tasks.

(** A tool instance.  [tool_run k input] is what the [k]-th invocation
    (counted from 0 within one [execute_task] call) of [_run(input)] does:
    a tool may fail on one attempt and answer on the next. *)
Record tool := Tool {
  tool_class : string;              (* t.__class__.__name__ *)
  tool_bases : list string;         (* names of its superclasses *)
  tool_name : option string;        (* getattr(t, 'name', None) *)
  tool_run : nat → string → res pyval;
}.

Record agent := Agent { agent_tools : option (list tool) }.
Record task := Task { task_agent : option agent }.

(** What an [execute_task] call does to the outside: invocations of the
    chosen tool and [time.sleep] calls, in order (durations in ms). *)
Inductive event :=
| EvRun (attempt : nat) (input : string)
| EvSleep (ms : nat).

Definition is_run (ev : event) : bool :=
  match ev with EvRun _ _ => true | EvSleep _ => false end.
Definition is_sleep (ev : event) : bool :=
  match ev with EvSleep _ => true | EvRun _ _ => false end.

Definition backoff_ms : nat := 200.

Section Executor.
Context `{Codec}.

Definition isinstance (t : tool) (cls : string) : bool :=
  String.eqb (tool_class t) cls || existsb (String.eqb cls) (tool_bases t).

(** The body of the by-name loop: either test selects the tool. *)
Definition name_matches (preferred : string) (t : tool) : bool :=
  (truthy_str (tool_name t) &&
   match tool_name t with
   | Some n => String.eqb (str_lower n) (str_lower preferred)
   | None => false
   end)
  || String.eqb (str_lower (tool_class t)) (str_lower preferred).

Definition choose_tool (tools : list tool)
    (preferred_tool_cls preferred_tool_name : option string) : option tool :=
  let chosen1 :=
    match preferred_tool_cls with
    | Some cls => find (fun t => isinstance t cls) tools
    | None => None
    end in
  let chosen2 :=
    match chosen1 with
    | Some t => Some t
    | None =>
        if truthy_str preferred_tool_name
        then find (name_matches (default "" preferred_tool_name)) tools
        else None
    end in
  match chosen2 with
  | Some t => Some t
  | None => head tools
  end.

(** Normalisation of a tool's return value to a string. *)
Definition normalize (out : pyval) : string :=
  match out with
  | PStr s => s
  | _ => match json_dumps out with
         | Some s => s
         | None => py_str out
         end
  end.

(** The [for attempt in range(...)] loop.  [attempt] is the number of
    invocations already made, [remaining] the iterations left.  The result
    is the returned string, or the value of [last_exc] when the loop runs
    out. *)
Fixpoint attempt_loop (chosen : tool) (input_str : string)
    (attempt remaining : nat) (last_exc : option exn)
    : (string + option exn) * list event :=
  match remaining with
  | O => (inr last_exc, [])
  | S remaining' =>
      match tool_run chosen attempt input_str with
      | Ok out => (inl (normalize out), [EvRun attempt input_str])
      | Raise e =>
          let '(r, tr) :=
            attempt_loop chosen input_str (S attempt) remaining' (Some e) in
          (r, EvRun attempt input_str :: EvSleep backoff_ms :: tr)
      end
  end.

(** [range(1, max(1, retries) + 1)] has this many elements. *)
Definition attempts_of (retries : Z) : nat := Z.to_nat (Z.max 1 retries).

Definition exhausted_msg (retries : Z) (last_exc : option exn) : string :=
  "Falha ao executar a task após " +:+ pretty retries +:+ " tentativas: "
  +:+ match last_exc with Some e => exn_str e | None => "None" end.

Definition execute_task (t : task) (input_str : string)
    (preferred_tool_cls preferred_tool_name : option string) (retries : Z)
    : res string * list event :=
  match task_agent t with
  | None => (Raise (Exn "RuntimeError" "Task não possui agent associado"), [])
  | Some ag =>
      let tools := default [] (agent_tools ag) in
      match choose_tool tools preferred_tool_cls preferred_tool_name with
      | None =>
          (Raise (Exn "RuntimeError" "Agent não possui ferramenta executável"), [])
      | Some chosen =>
          match attempt_loop chosen input_str 0 (attempts_of retries) None with
          | (inl out, tr) => (Ok out, tr)
          | (inr last_exc, tr) =>
              (Raise (Exn "RuntimeError" (exhausted_msg retries last_exc)), tr)
          end
      end
  end.

End Executor.

(** The trace of [n] failed attempts, the first one numbered [a]: each
    invocation is followed by the back-off sleep. *)
Fixpoint failed_trace (input_str : string) (a n : nat) : list event :=
  match n with
  | O => []
  | S n' => EvRun a input_str :: EvSleep backoff_ms :: failed_trace input_str (S a) n'
  end.

Fixpoint count_events (p : event → bool) (tr : list event) : nat :=
  match tr with
  | [] => 0
  | ev :: tr' => (if p ev then 1 else 0) + count_events p tr'
  end.

End Tasks.

(** ** tasks/pdf_worker.py: the report-job queue and its metadata store *)

Module PdfWorker.

(** The process clock, [uuid4] and the collaborators of the worker.  The
    [n]-th reading of a source of fresh values is a function of [n]. *)
Class Env := {
  uuid4_str : nat → string;        (* str(uuid4()), n-th call *)
  utcnow_iso : nat → string;       (* datetime.utcnow().isoformat(), n-th reading *)
  utcnow_stamp : nat → string;     (* ....strftime('%Y%m%d_%H%M%S'), n-th reading *)
  figure_written : pyval → string → bool;
                                   (* a figure was built from the value and
                                      written to the path *)
  pdf_tool_run : string → res string;   (* PDFReportTool()._run *)
  worker_db_up : bool;             (* BuscapiDB() connects and accepts the log *)
}.

Record submission := Submission {
  sub_job_id : string;
  sub_results : pyval;
  sub_output_path : string;
  sub_extra : option pydict;
}.

(** Observable effects of the module, oldest first. *)
Inductive jevent :=
| JWrite (job_id : string)      (* the job's metadata file is (re)written *)
| JSubmit (job_id : string)     (* _executor.submit *)
| JRender (job_id : string).    (* the rendering tool is invoked *)

(** [_executor = ThreadPoolExecutor(max_workers=2)] *)
Definition max_workers : nat := 2.

(** Module state.  [jobs] is [_jobs]; [files] maps a job id to the text of
    [static/pdf_jobs/<job_id>.json]; [queue] holds the work items handed to
    the executor and not yet picked up. *)
Record store := Store {
  jobs : gmap string pydict;
  files : gmap string string;
  queue : list submission;
  uuids : nat;
  clock : nat;
  db_log : list (pyval * string);
  history : list jevent;
}.

Definition empty_store : store := Store ∅ ∅ [] 0 0 [] [].

Definition set_jobs (f : gmap string pydict → gmap string pydict) (s : store) :=
  Store (f (jobs s)) (files s) (queue s) (uuids s) (clock s) (db_log s) (history s).
Definition set_files (f : gmap string string → gmap string string) (s : store) :=
  Store (jobs s) (f (files s)) (queue s) (uuids s) (clock s) (db_log s) (history s).
Definition set_queue (f : list submission → list submission) (s : store) :=
  Store (jobs s) (files s) (f (queue s)) (uuids s) (clock s) (db_log s) (history s).
Definition tick_uuid (s : store) :=
  Store (jobs s) (files s) (queue s) (S (uuids s)) (clock s) (db_log s) (history s).
Definition tick_clock (s : store) :=
  Store (jobs s) (files s) (queue s) (uuids s) (S (clock s)) (db_log s) (history s).
Definition add_log (e : pyval * string) (s : store) :=
  Store (jobs s) (files s) (queue s) (uuids s) (clock s) (db_log s ++ [e])%list (history s).
Definition record (ev : jevent) (s : store) :=
  Store (jobs s) (files s) (queue s) (uuids s) (clock s) (db_log s) (history s ++ [ev])%list.

(** [str(temp_dir / f"{name}_{job_id}.png")] with
    [temp_dir = Path('static') / 'temp_images'] *)
Definition image_path (name job_id : string) : string :=
  PosixPath.join (PosixPath.join "static" "temp_images")
    (name +:+ "_" +:+ job_id +:+ ".png").

(** [str(Path('static') / f"{title_prefix}_{ts}.pdf")] *)
Definition default_output_path (title_prefix ts : string) : string :=
  PosixPath.join "static" (title_prefix +:+ "_" +:+ ts +:+ ".pdf").

Definition not_found : pyval := PDict [("error", PStr "not_found")].

(** Truth value of the [extra_meta] argument: a non-empty dict. *)
Definition truthy_extra (extra_meta : option pydict) : bool :=
  match extra_meta with
  | Some (_ :: _) => true
  | _ => false
  end.

(** The metadata dict a submission starts with. *)
Definition initial_meta (job_id output_path queued_at : string)
    (search_query_id llm_model : pyval) : pydict :=
  [("job_id", PStr job_id);
   ("status", PStr "pending");
   ("output_path", PStr output_path);
   ("queued_at", PStr queued_at);
   ("search_query_id", search_query_id);
   ("llm_model", llm_model)].

(** [results.get('llm_model')] when [results] is a dict. *)
Definition llm_model_of (results : pyval) : pyval :=
  match results with
  | PDict d => dict_get_default "llm_model" PNone d
  | _ => PNone
  end.

Section Worker.
Context `{Codec} `{Env}.

Definition fresh_uuid : M store string :=
  fun s => (Ok (uuid4_str (uuids s)), tick_uuid s).
Definition now_iso : M store string :=
  fun s => (Ok (utcnow_iso (clock s)), tick_clock s).
Definition now_stamp : M store string :=
  fun s => (Ok (utcnow_stamp (clock s)), tick_clock s).

Definition _persist_job_meta (job_id : string) (meta : pydict) : M store unit :=
  modify (fun s =>
    record (JWrite job_id)
      (set_files (insert job_id (json_dump_default (PDict meta))) s)).

(** [meta.update(u)] on the dict object bound to [_jobs[job_id]] (a new
    empty dict when the id is unknown), which stays bound there. *)
Definition meta_update (job_id : string) (u : pydict) : M store unit :=
  modify (set_jobs (fun js =>
    <[job_id := dict_update u (default [] (js !! job_id))]> js)).

Definition current_meta (job_id : string) : M store pydict :=
  gets (fun s => default [] (jobs s !! job_id)).

(** The loop over [viz.items()]: the images that could be produced. *)
Definition render_item (job_id : string) (acc : pydict) (kv : string * pyval)
    : pydict :=
  let img_path := image_path (fst kv) job_id in
  match snd kv with
  | PStr _ | PDict _ | PList _ =>
      if figure_written (snd kv) img_path
      then dict_set (fst kv) (PStr img_path) acc
      else acc
  | _ => acc
  end.

Definition prepare_visualizations (job_id : string) (results : pyval) : pyval :=
  match results with
  | PDict d =>
      match dict_get "visualizations" d with
      | Some (PDict viz) =>
          let img_paths := fold_left (render_item job_id) viz [] in
          if truthy (PDict img_paths)
          then PDict (dict_set "visualizations" (PDict img_paths) d)
          else results
      | _ => results
      end
  | _ => results
  end.

(** [sqid = extra_meta.get('search_query_id') if extra_meta else None] and
    the best-effort log entry, inside [try: ... except Exception: pass]. *)
Definition try_log (extra_meta : option pydict) (msg : string) : M store unit :=
  let sqid :=
    if truthy_extra extra_meta
    then dict_get_default "search_query_id" PNone (default [] extra_meta)
    else PNone in
  try_ (when (truthy sqid)
          (if worker_db_up then modify (add_log (sqid, msg))
           else raise (Exn "OperationalError" "connection failed")))
       (fun _ => ret tt).

Definition render_body (job_id : string) (results : pyval)
    (output_path : string) (extra_meta : option pydict) : M store unit :=
  let results' := prepare_visualizations job_id results in
  match json_dumps (PDict [("results", results');
                           ("output_path", PStr output_path)]) with
  | None => raise (Exn "TypeError" "Object is not JSON serializable")
  | Some payload =>
      do! modify (record (JRender job_id)) in
      let! resp := lift (pdf_tool_run payload) in
      let parsed :=
        match json_loads resp with
        | Some v => v
        | None => PDict [("error", PStr "invalid_response"); ("raw", PStr resp)]
        end in
      let! path := lift (py_get parsed "path" PNone) in
      if truthy path then
        let! t := now_iso in
        do! meta_update job_id [("status", PStr "completed");
                                ("output_path", path);
                                ("completed_at", PStr t)] in
        try_log extra_meta
          ("✅ Relatório PDF gerado com sucesso: " +:+ py_str path)
      else
        let! err := lift (py_get parsed "error" PNone) in
        let! t := now_iso in
        do! meta_update job_id [("status", PStr "failed");
                                ("error", if truthy err then err else parsed);
                                ("completed_at", PStr t)] in
        try_log extra_meta ("❌ Falha ao gerar PDF: " +:+ py_str err)
  end.

Definition _run_pdf_job (job_id : string) (results : pyval)
    (output_path : string) (extra_meta : option pydict) : M store unit :=
  let! t0 := now_iso in
  do! meta_update job_id [("status", PStr "processing");
                          ("started_at", PStr t0)] in
  let! meta := current_meta job_id in
  do! _persist_job_meta job_id meta in
  finally
    (try_ (render_body job_id results output_path extra_meta)
       (fun e =>
          let! t := now_iso in
          meta_update job_id [("status", PStr "failed");
                              ("error", PStr (exn_str e));
                              ("completed_at", PStr t)]))
    (do! when (truthy_extra extra_meta)
           (meta_update job_id (default [] extra_meta)) in
     let! meta := current_meta job_id in
     _persist_job_meta job_id meta).

Definition enqueue_pdf_job (results : pyval) (output_path : option string)
    (search_query_id : option Z) (title_prefix : string) : M store pydict :=
  let! job_id := fresh_uuid in
  let! ts := now_stamp in
  let output_path' :=
    match output_path with
    | None => default_output_path title_prefix ts
    | Some p => p
    end in
  let llm_model := llm_model_of results in
  let! queued_at := now_iso in
  let meta := initial_meta job_id output_path' queued_at
                (of_opt_int search_query_id) llm_model in
  do! modify (set_jobs (insert job_id meta)) in
  do! _persist_job_meta job_id meta in
  let extra := [("search_query_id", of_opt_int search_query_id);
                ("llm_model", llm_model)] in
  do! modify (fun s =>
        record (JSubmit job_id)
          (set_queue (fun q => (q ++ [Submission job_id results output_path'
                                        (Some extra)])%list) s)) in
  ret meta.

Definition title_prefix_default : string := "relatorio_buscapi".

Definition get_job_meta (job_id : string) (s : store) : res pyval :=
  match jobs s !! job_id with
  | Some meta => Ok (PDict meta)
  | None =>
      match files s !! job_id with
      | Some text =>
          match json_loads text with
          | Some v => Ok v
          | None => Raise (json_loads_error text)
          end
      | None => Ok not_found
      end
  end.

(** What the rendering tool's answer is read as, when the payload can be
    built and the tool answers. *)
Definition render_reply (job_id : string) (results : pyval)
    (output_path : string) : res pyval :=
  match json_dumps (PDict [("results", prepare_visualizations job_id results);
                           ("output_path", PStr output_path)]) with
  | None => Raise (Exn "TypeError" "Object is not JSON serializable")
  | Some payload =>
      match pdf_tool_run payload with
      | Raise e => Raise e
      | Ok resp =>
          Ok (match json_loads resp with
              | Some v => v
              | None => PDict [("error", PStr "invalid_response"); ("raw", PStr resp)]
              end)
      end
  end.

(** The render succeeds when the answer is an object with a true [path]. *)
Definition rendered_path (job_id : string) (results : pyval)
    (output_path : string) : option pyval :=
  match render_reply job_id results output_path with
  | Ok (PDict d) =>
      match dict_get "path" d with
      | Some p => if truthy p then Some p else None
      | None => None
      end
  | _ => None
  end.

(** The [extra] dict [enqueue_pdf_job] hands to the worker. *)
Definition enqueue_extra (search_query_id llm_model : pyval) : option pydict :=
  Some [("search_query_id", search_query_id); ("llm_model", llm_model)].


(** A pool worker picks up a queued work item and runs it to its end. *)
Definition run_submission (sub : submission) : M store unit :=
  _run_pdf_job (sub_job_id sub) (sub_results sub) (sub_output_path sub)
    (sub_extra sub).

(** A new process: the module is imported again, the files remain. *)
Definition restart (s : store) : store :=
  Store ∅ (files s) [] 0 0 (db_log s) [].


(** The two parts of [_run_pdf_job]: the statements before its [try], and
    the [try ... except ... finally]. *)
Definition job_begin (job_id : string) : M store unit :=
  let! t0 := now_iso in
  do! meta_update job_id [("status", PStr "processing");
                          ("started_at", PStr t0)] in
  let! meta := current_meta job_id in
  _persist_job_meta job_id meta.

Definition job_end (job_id : string) (results : pyval)
    (output_path : string) (extra_meta : option pydict) : M store unit :=
  finally
    (try_ (render_body job_id results output_path extra_meta)
       (fun e =>
          let! t := now_iso in
          meta_update job_id [("status", PStr "failed");
                              ("error", PStr (exn_str e));
                              ("completed_at", PStr t)]))
    (do! when (truthy_extra extra_meta)
           (meta_update job_id (default [] extra_meta)) in
     let! meta := current_meta job_id in
     _persist_job_meta job_id meta).

(** [_executor]: [submit] appends a work item to [queue]; a worker thread
    takes the oldest item when fewer than [max_workers] threads are busy,
    and stays busy with it until [_run_pdf_job] returns.  [busy] lists the
    items whose [_run_pdf_job] has begun and not ended. *)
Record pool := Pool {
  pool_store : store;
  busy : list submission;
}.

Inductive pool_event :=
| WorkerTakes              (* a free worker takes the oldest queued item *)
| WorkerEnds (i : nat).    (* the i-th busy worker ends its item *)

Definition pool_step (p : pool) (ev : pool_event) : pool :=
  match ev with
  | WorkerTakes =>
      match queue (pool_store p) with
      | sub :: rest =>
          if (length (busy p) <? max_workers)%nat then
            Pool (snd (job_begin (sub_job_id sub)
                         (set_queue (fun _ => rest) (pool_store p))))
                 (busy p ++ [sub])%list
          else p
      | [] => p
      end
  | WorkerEnds i =>
      match busy p !! i with
      | Some sub =>
          Pool (snd (job_end (sub_job_id sub) (sub_results sub)
                       (sub_output_path sub) (sub_extra sub) (pool_store p)))
               (delete i (busy p))
      | None => p
      end
  end.

Definition pool_run (evs : list pool_event) (p : pool) : pool :=
  fold_left pool_step evs p.

End Worker.

End PdfWorker.

(** ** database/persist_dados.py: idempotent insertion of raw results *)

Module Persist.

(** A row of [search_result_raw].  [row_raw] is the jsonb reading of the
    [raw_json] column: the members of the object whose text was written. *)
Record raw_row := RawRow {
  row_id : Z;
  row_search_query_id : Z;
  row_source : string;
  row_raw : pydict;
}.

(** The connection as the method sees it: the table, the id sequence, and
    how often a [commit] and a [rollback] were carried out. *)
Record db := Db {
  rows : list raw_row;
  next_id : Z;
  commits : nat;
  rollbacks : nat;
}.

Definition empty_db : db := Db [] 1 0 0.

(** How the datastore answers the two statements of one call, and how
    the connection answers the [rollback] of its [except] clause (a closed
    or dead connection raises there too). *)
Record faults := Faults {
  select_fault : option exn;
  insert_fault : option exn;
  rollback_fault : option exn;
}.

Definition no_faults : faults := Faults None None None.

(** The method's world: the connection and the caller's [raw_data] dict
    object, which the method mutates in place. *)
Record pworld := PWorld {
  conn : db;
  raw_data : pydict;
}.

(** [search_query_id = %s AND raw_json::jsonb @> '{"_hash": h}'::jsonb] *)
Definition row_matches (search_query_id : Z) (item_hash : string) (r : raw_row)
    : bool :=
  Z.eqb (row_search_query_id r) search_query_id &&
  match dict_get "_hash" (row_raw r) with
  | Some (PStr h) => String.eqb h item_hash
  | _ => false
  end.

Definition count_rows (search_query_id : Z) (item_hash : string) (d : db) : nat :=
  length (List.filter (row_matches search_query_id item_hash) (rows d)).

(** The connection after a rollback, and after a committed insert. *)
Definition rolled_back (c : db) : db :=
  Db (rows c) (next_id c) (commits c) (S (rollbacks c)).

Definition with_row (search_query_id : Z) (source : string) (doc : pydict)
    (c : db) : db :=
  Db (rows c ++ [RawRow (next_id c) search_query_id source doc])
     (next_id c + 1) (S (commits c)) (rollbacks c).

(** What a call that reached its [except] clause leaves to a caller whose
    dict is [d]: -1 after the rollback, or the exception of the rollback. *)
Definition failed_call (f : faults) (d : pydict) (c : db)
    : res Z * pydict * db :=
  match rollback_fault f with
  | Some e => (Raise e, d, c)
  | None => (Ok (-1)%Z, d, rolled_back c)
  end.

Section Insert.
Context `{Codec}.
Variable sha256_hex : string → string.   (* hashlib.sha256(bytes).hexdigest() *)

Definition dumps_or_raise {W} (o : option string) : M W string :=
  match o with
  | Some t => ret t
  | None => raise (Exn "TypeError" "Object is not JSON serializable")
  end.

Definition select_existing (f : faults) (search_query_id : Z) (item_hash : string)
    : M pworld (option raw_row) :=
  match select_fault f with
  | Some e => raise e
  | None =>
      gets (fun w => find (row_matches search_query_id item_hash) (rows (conn w)))
  end.

Definition insert_row (f : faults) (search_query_id : Z) (source : string)
    (doc : pydict) : M pworld Z :=
  match insert_fault f with
  | Some e => raise e
  | None =>
      fun w =>
        let d := conn w in
        let new_id := next_id d in
        (Ok new_id,
         PWorld (Db (rows d ++ [RawRow new_id search_query_id source doc])
                    (new_id + 1) (S (commits d)) (rollbacks d))
                (raw_data w))
  end.

(** [self.conn.rollback()] *)
Definition rollback (f : faults) : M pworld unit :=
  match rollback_fault f with
  | Some e => raise e
  | None =>
      modify (fun w =>
        PWorld (Db (rows (conn w)) (next_id (conn w)) (commits (conn w))
                   (S (rollbacks (conn w))))
               (raw_data w))
  end.

Definition insert_search_result_raw (f : faults) (search_query_id : Z)
    (source : string) : M pworld Z :=
  try_
    (let! d0 := gets raw_data in
     let! text := dumps_or_raise (json_dumps_sorted (PDict d0)) in
     let item_hash := sha256_hex text in
     do! modify (fun w =>
           PWorld (conn w) (dict_set "_hash" (PStr item_hash) (raw_data w))) in
     let! d1 := gets raw_data in
     let! raw_json := dumps_or_raise (json_dumps (PDict d1)) in
     let! existing := select_existing f search_query_id item_hash in
     match existing with
     | Some r => ret (row_id r)
     | None => insert_row f search_query_id source d1
     end)
    (fun e => do! rollback f in ret (-1)%Z).

(** One call from a caller holding the dict [d]: the returned value, the
    caller's dict afterwards, the connection afterwards. *)
Definition call_insert (f : faults) (search_query_id : Z) (source : string)
    (d : pydict) (c : db) : res Z * pydict * db :=
  match insert_search_result_raw f search_query_id source (PWorld c d) with
  | (r, w) => (r, raw_data w, conn w)
  end.

Record call := Call {
  call_faults : faults;
  call_search_query_id : Z;
  call_source : string;
  call_raw_data : pydict;
}.

Definition run_call (c : db) (k : call) : db :=
  snd (call_insert (call_faults k) (call_search_query_id k) (call_source k)
         (call_raw_data k) c).

Definition run_calls (ks : list call) (c : db) : db := fold_left run_call ks c.



End Insert.

End Persist.

(** ** flows/ip_flow.py: the pipeline flow *)

Module Flow.

Import Tasks.

(** [PropriedadeIntelectualState] *)
Record PropriedadeIntelectualState := State {
  search_query_id : option Z;
  search_criteria : string;
  raw_data_json : option string;
  classified_data_json : option string;
  analysis_results_json : option string;
  visualizations_json : option string;
  final_report : pydict;
  error_message : option string;
}.

(** The field defaults of the class. *)
Definition default_state : PropriedadeIntelectualState :=
  State None "" None None None None [] None.

(** The state as [IPAnalysisService.execute_analysis] creates it. *)
Definition service_state (id : Z) (criteria : string) : PropriedadeIntelectualState :=
  State (Some id) criteria None None None None [] None.

(** [IPAgents]: the three agents the flow uses, and the attribute
    [last_used_llm_model] when it has been set. *)
Record IPAgents := Agents {
  data_collector : agent;
  data_classifier : agent;
  insight_coordinator : agent;
  last_used_llm_model : option pyval;
}.

(** What a run can touch: the flow state, the [search_log] and
    [search_query] tables reached through [self.db], and the job module. *)
Record world := World {
  state : PropriedadeIntelectualState;
  search_log : list (option Z * string);
  query_status : list (option Z * string);
  job_store : PdfWorker.store;
}.

Definition init_world : world := World default_state [] [] PdfWorker.empty_store.

Definition set_state (f : PropriedadeIntelectualState → PropriedadeIntelectualState)
    (w : world) : world :=
  World (f (state w)) (search_log w) (query_status w) (job_store w).

Definition with_raw (v : option string) (s : PropriedadeIntelectualState) :=
  State (search_query_id s) (search_criteria s) v (classified_data_json s)
    (analysis_results_json s) (visualizations_json s) (final_report s)
    (error_message s).
Definition with_classified (v : option string) (s : PropriedadeIntelectualState) :=
  State (search_query_id s) (search_criteria s) (raw_data_json s) v
    (analysis_results_json s) (visualizations_json s) (final_report s)
    (error_message s).
Definition with_analysis (v : option string) (s : PropriedadeIntelectualState) :=
  State (search_query_id s) (search_criteria s) (raw_data_json s)
    (classified_data_json s) v (visualizations_json s) (final_report s)
    (error_message s).
Definition with_visualizations (v : option string) (s : PropriedadeIntelectualState) :=
  State (search_query_id s) (search_criteria s) (raw_data_json s)
    (classified_data_json s) (analysis_results_json s) v (final_report s)
    (error_message s).
Definition with_final_report (v : pydict) (s : PropriedadeIntelectualState) :=
  State (search_query_id s) (search_criteria s) (raw_data_json s)
    (classified_data_json s) (analysis_results_json s) (visualizations_json s) v
    (error_message s).
Definition with_error (v : option string) (s : PropriedadeIntelectualState) :=
  State (search_query_id s) (search_criteria s) (raw_data_json s)
    (classified_data_json s) (analysis_results_json s) (visualizations_json s)
    (final_report s) v.

(** [self.db.insert_search_log] and [self.db.update_search_query_status];
    the datastore is taken to accept every write of the flow. *)
Definition insert_search_log (id : option Z) (log_msg : string) : M world unit :=
  modify (fun w =>
    World (state w) (search_log w ++ [(id, log_msg)])%list (query_status w)
      (job_store w)).
Definition update_search_query_status (id : option Z) (new_status : string)
    : M world unit :=
  modify (fun w =>
    World (state w) (search_log w) (query_status w ++ [(id, new_status)])%list
      (job_store w)).

(** A computation of the job module run on the flow's view of it. *)
Definition in_jobs {A} (m : M PdfWorker.store A) : M world A :=
  fun w => match m (job_store w) with
           | (r, js) => (r, World (state w) (search_log w) (query_status w) js)
           end.

Definition pretty_id (id : option Z) : string :=
  match id with Some z => pretty z | None => "None" end.

Section FlowInstance.
Context `{Codec} `{PdfWorker.Env}.
Variable agents : IPAgents.

Definition collection_task : task := Task (Some (data_collector agents)).
Definition classification_task : task := Task (Some (data_classifier agents)).
Definition analysis_task : task := Task (Some (insight_coordinator agents)).
Definition visualization_task : task := Task (Some (insight_coordinator agents)).

(** [self.task_manager.execute_task(...)] seen from the flow. *)
Definition run_task (t : task) (input_str : string)
    (preferred_tool_cls : option string) (retries : Z) : M world string :=
  lift (fst (execute_task t input_str preferred_tool_cls None retries)).

Definition log_if_id (log_msg : string) : M world unit :=
  let! id := gets (fun w => search_query_id (state w)) in
  when (truthy_int id) (insert_search_log id log_msg).

Definition _handle_error (step_name : string) (e : exn) : M world string :=
  let error_msg := "Erro no passo '" +:+ step_name +:+ "': " +:+ exn_str e in
  do! modify (set_state (with_error (Some error_msg))) in
  do! log_if_id error_msg in
  ret error_msg.

Definition iniciar_pesquisa : M world string :=
  let! s := gets state in
  if String.eqb (search_criteria s) ""
     || match search_query_id s with None => true | Some _ => false end
  then
    _handle_error "iniciar_pesquisa"
      (Exn "ValueError"
         "Critério de busca ou ID da busca não foram definidos no estado inicial.")
  else
    do! insert_search_log (search_query_id s)
          ("Fluxo iniciado para a busca ID " +:+ pretty_id (search_query_id s)
           +:+ " com critério: '" +:+ search_criteria s +:+ "'") in
    ret "Início da coleta de dados.".

(** The count logged after collection. *)
Definition num_results (raw : option string) : Z :=
  if truthy_str raw then
    match json_loads (default "" raw) with
    | Some (PList l) => Z.of_nat (length l)
    | Some _ => 0
    | None => 0
    end
  else 0.

Definition coletar_dados (previous_output : string) : M world string :=
  let! s := gets state in
  if truthy_str (error_message s) then ret previous_output else
  try_
    (let! task_input :=
       Persist.dumps_or_raise
         (json_dumps_ascii (PDict [("query", PStr (search_criteria s));
                             ("search_query_id", of_opt_int (search_query_id s))])) in
     let! out :=
       try_ (run_task collection_task task_input None 2)
         (fun e => raise (Exn "RuntimeError"
                            ("Falha ao executar task de coleta: " +:+ exn_str e))) in
     do! modify (set_state (with_raw (Some out))) in
     do! insert_search_log (search_query_id s)
           ("Coleta concluída. " +:+ pretty (num_results (Some out))
            +:+ " resultados brutos obtidos e persistidos.") in
     ret "Coleta de dados finalizada.")
    (fun e => _handle_error "coletar_dados" e).

(** The count logged after classification. *)
Definition classified_count (classified : option string) : Z :=
  if truthy_str classified then
    match json_loads (default "" classified) with
    | Some v => match py_len v with Ok n => n | Raise _ => 0 end
    | None => 0
    end
  else 0.

Definition classificar_dados (previous_output : string) : M world string :=
  let! s := gets state in
  if negb (truthy_str (raw_data_json s)) then ret previous_output else
  try_
    (let! out :=
       try_ (run_task classification_task (default "" (raw_data_json s)) None 2)
         (fun e =>
            do! log_if_id ("Erro na classificação: " +:+ exn_str e) in
            raise e) in
     do! modify (set_state (with_classified (Some out))) in
     let n := classified_count (Some out) in
     do! log_if_id (pretty n +:+
           " resultados classificados (persistência feita pela ferramenta).") in
     ret ("Classificação concluída: " +:+ pretty n +:+ " registros válidos"))
    (fun e =>
       do! log_if_id ("Erro na classificação: " +:+ exn_str e) in
       ret ("Erro na classificação: " +:+ exn_str e)).

Definition analisar_dados (previous_output : string) : M world string :=
  let! s := gets state in
  if negb (truthy_str (classified_data_json s)) then ret previous_output else
  try_
    (let! out :=
       try_ (run_task analysis_task (default "" (classified_data_json s))
               (Some "DataAnalysisTool") 2)
         (fun e => raise (Exn "RuntimeError"
                            ("Falha ao executar análise de dados: " +:+ exn_str e))) in
     do! modify (set_state (with_analysis (Some out))) in
     do! insert_search_log (search_query_id s)
           "Analise de dados conlcuida com Sucesso" in
     ret "Análise de dados finalizada.")
    (fun e => _handle_error "analisar_dados" e).

Definition gerar_visualizacoes (previous_output : string) : M world string :=
  let! s := gets state in
  if negb (truthy_str (analysis_results_json s)) then ret previous_output else
  try_
    (let! out :=
       try_ (run_task visualization_task (default "" (analysis_results_json s))
               (Some "VisualizationTool") 1)
         (fun e =>
            do! log_if_id ("Erro na execução da visualização: " +:+ exn_str e) in
            raise e) in
     do! modify (set_state (with_visualizations (Some out))) in
     ret "Visualizações geradas")
    (fun e =>
       do! log_if_id ("Erro na geração de visualizações: " +:+ exn_str e) in
       _handle_error "gerar_visualizacoes" e).

(** [except (json.JSONDecodeError, TypeError)] *)
Definition caught_by_safe_load (e : exn) : bool :=
  String.eqb (exn_class e) "JSONDecodeError"
  || String.eqb (exn_class e) "TypeError".

(** The helper inside [_generate_final_report]: the default replaces an
    absent payload and one whose decoding raises one of the two classes it
    catches; any other exception of [json.loads] leaves the helper. *)
Definition _safe_json_load (json_str : option string) (default_value : pyval)
    : res pyval :=
  if truthy_str json_str then
    match json_loads (default "" json_str) with
    | Some v => Ok v
    | None =>
        let e := json_loads_error (default "" json_str) in
        if caught_by_safe_load e then Ok default_value else Raise e
    end
  else Ok default_value.

Definition no_insight : pyval := PStr "Nenhum insight gerado.".

(** The dict literal assigned to [final_report]. *)
Definition report_fields (s : PropriedadeIntelectualState) (n : Z)
    (classified_data analysis_results visualizations insights : pyval) : pydict :=
  [("success", PBool true);
   ("flow_id", of_opt_int (search_query_id s));
   ("search_criteria", PStr (search_criteria s));
   ("data_collected", PInt n);
   ("classified_data", classified_data);
   ("analysis_results", analysis_results);
   ("visualizations", visualizations);
   ("llm_model", default PNone (last_used_llm_model agents));
   ("insights", insights)].

(** The reference to the render job attached under ["pdf_job"]. *)
Definition pdf_job_ref (pdf_job_meta : pydict) : pyval :=
  PDict [("job_id", dict_get_default "job_id" PNone pdf_job_meta);
         ("status", dict_get_default "status" PNone pdf_job_meta);
         ("output_path", dict_get_default "output_path" PNone pdf_job_meta)].

Definition _generate_final_report : M world pyval :=
  try_
    (let! s := gets state in
     let! classified_data :=
       lift (_safe_json_load (classified_data_json s) (PList [])) in
     let! analysis_results :=
       lift (_safe_json_load (analysis_results_json s) (PDict [])) in
     let! visualizations :=
       lift (_safe_json_load (visualizations_json s) (PDict [])) in
     let! raw_data := lift (_safe_json_load (raw_data_json s) (PList [])) in
     let! n := lift (py_len raw_data) in
     let! insights := lift (py_get analysis_results "insights" no_insight) in
     do! modify (set_state (with_final_report
           (report_fields s n classified_data analysis_results visualizations
              insights))) in
     do! when (truthy_int (search_query_id s))
           (try_ (do! update_search_query_status (search_query_id s) "completed" in
                  insert_search_log (search_query_id s)
                    "Fluxo concluído e relatório final gerado.")
              (fun _ => ret tt)) in
     do! try_
           (let! report := gets (fun w => final_report (state w)) in
            let! pdf_job_meta :=
              in_jobs (PdfWorker.enqueue_pdf_job (PDict report) None
                         (search_query_id s) PdfWorker.title_prefix_default) in
            do! modify (set_state (fun st =>
                  with_final_report
                    (dict_set "pdf_job" (pdf_job_ref pdf_job_meta)
                       (final_report st)) st)) in
            log_if_id ("PDF generation enqueued: job_id=" +:+
                       py_str (dict_get_default "job_id" PNone pdf_job_meta)))
           (fun pj_e => log_if_id ("Falha ao enfileirar PDF: " +:+ exn_str pj_e)) in
     let! report := gets (fun w => final_report (state w)) in
     ret (PDict report))
    (fun e =>
       do! log_if_id ("Erro ao gerar relatório final: " +:+ exn_str e) in
       let! msg := _handle_error "generate_final_report" e in
       ret (PStr msg)).

(** What [_generate_final_report] builds the report of a state from, in
    the order it evaluates them: the four decoded payloads, then
    [len(raw_data)] and [analysis_results.get('insights', ...)]; or the
    first exception on the way. *)
Record report_parts := Parts {
  part_classified : pyval;
  part_analysis : pyval;
  part_visualizations : pyval;
  part_collected : Z;
  part_insights : pyval;
}.

Definition report_inputs (s : PropriedadeIntelectualState) : res report_parts :=
  and_then (_safe_json_load (classified_data_json s) (PList []))
    (fun classified_data =>
  and_then (_safe_json_load (analysis_results_json s) (PDict []))
    (fun analysis_results =>
  and_then (_safe_json_load (visualizations_json s) (PDict []))
    (fun visualizations =>
  and_then (_safe_json_load (raw_data_json s) (PList []))
    (fun raw_data =>
  and_then (py_len raw_data)
    (fun n =>
  and_then (py_get analysis_results "insights" no_insight)
    (fun insights =>
  Ok (Parts classified_data analysis_results visualizations n insights))))))).

(** The listeners in the order the [@listen] decorators chain them after
    the [@start] method, each receiving what the previous one returned. *)
Definition listeners : list (string → M world string) :=
  [coletar_dados; classificar_dados; analisar_dados; gerar_visualizacoes].

Fixpoint run_chain (ls : list (string → M world string))
    (previous_output : string) : M world string :=
  match ls with
  | [] => ret previous_output
  | l :: ls' => let! o := l previous_output in run_chain ls' o
  end.

Definition run_stages : M world string :=
  let! o0 := iniciar_pesquisa in
  run_chain listeners o0.

(** The payload fields a stage may write. *)
Definition payloads (w : world)
    : option string * option string * option string * option string :=
  (raw_data_json (state w), classified_data_json (state w),
   analysis_results_json (state w), visualizations_json (state w)).

(** The world the stages start from. *)
Definition start_world (initial : option PropriedadeIntelectualState)
    (w : world) : world :=
  match initial with
  | Some s0 => set_state (fun _ => s0) w
  | None => w
  end.

(** The message [_handle_error] records for a step. *)
Definition error_text (step_name : string) (e : exn) : string :=
  "Erro no passo '" +:+ step_name +:+ "': " +:+ exn_str e.

(** [error_message] is set (and not empty). *)
Definition has_error (w : world) : bool :=
  truthy_str (error_message (state w)).

(** The [@start] method followed by the first [k] listeners. *)
Definition run_prefix (k : nat) : M world string :=
  let! o0 := iniciar_pesquisa in
  run_chain (take k listeners) o0.

Definition kickoff (initial : option PropriedadeIntelectualState)
    : M world pydict :=
  do! match initial with
      | Some s0 => modify (set_state (fun _ => s0))
      | None => ret tt
      end in
  do! run_stages in
  do! _generate_final_report in
  gets (fun w => final_report (state w)).

End FlowInstance.

End Flow.

(** ** A concrete interpreter for the examples

    An implementation of [Codec] on a fragment of JSON: integers, strings
    without escapes and control characters, [null], [true], [false], arrays
    and objects.  On texts of the fragment [loads] reads what [json.loads]
    reads; a text outside it is reported as undecodable and a value outside
    it as unserialisable.  The examples stay inside the fragment. *)

Module JsonFrag.

Inductive token :=
| TLBrace | TRBrace | TLBrack | TRBrack | TColon | TComma
| TString (s : string) | TNumber (z : Z) | TTrue | TFalse | TNull.

Definition code (c : Ascii.ascii) : nat := Ascii.nat_of_ascii c.
Definition is_code (n : nat) (c : Ascii.ascii) : bool := Nat.eqb (code c) n.

Definition is_ws (c : Ascii.ascii) : bool :=
  is_code 32 c || is_code 9 c || is_code 10 c || is_code 13 c.
Definition is_digit (c : Ascii.ascii) : bool :=
  Nat.leb 48 (code c) && Nat.leb (code c) 57.
Definition digit_val (c : Ascii.ascii) : Z := Z.of_nat (code c - 48).

(** Plain characters of a string literal: no quote, no backslash, no
    control character. *)
Definition is_plain (c : Ascii.ascii) : bool :=
  negb (is_code 34 c) && negb (is_code 92 c) && Nat.leb 32 (code c).

Fixpoint lex_string (s : string) : option (string * string) :=
  match s with
  | EmptyString => None
  | String c s' =>
      if is_code 34 c then Some (EmptyString, s')
      else if is_plain c then
        match lex_string s' with
        | Some (body, rest) => Some (String c body, rest)
        | None => None
        end
      else None
  end.

Fixpoint lex_digits (s : string) (acc : Z) : Z * string :=
  match s with
  | String c s' =>
      if is_digit c then lex_digits s' (10 * acc + digit_val c)%Z else (acc, s)
  | EmptyString => (acc, s)
  end.

(** An integer literal: no leading zero, no fraction, no exponent. *)
Definition lex_int (s : string) : option (Z * string) :=
  match s with
  | String c s' =>
      if is_digit c then
        let '(z, rest) :=
          if is_code 48 c then (0%Z, s') else lex_digits s 0%Z in
        match rest with
        | String d _ =>
            if is_digit d || is_code 46 d || is_code 101 d || is_code 69 d
            then None else Some (z, rest)
        | EmptyString => Some (z, rest)
        end
      else None
  | EmptyString => None
  end.

Definition strip_prefix (p s : string) : option string :=
  if String.prefix p s
  then Some (String.substring (String.length p) (String.length s - String.length p) s)
  else None.

Fixpoint lex (fuel : nat) (s : string) : option (list token) :=
  match fuel with
  | O => None
  | S fuel' =>
      match s with
      | EmptyString => Some []
      | String c s' =>
          if is_ws c then lex fuel' s'
          else if is_code 123 c then cons TLBrace <$> lex fuel' s'
          else if is_code 125 c then cons TRBrace <$> lex fuel' s'
          else if is_code 91 c then cons TLBrack <$> lex fuel' s'
          else if is_code 93 c then cons TRBrack <$> lex fuel' s'
          else if is_code 58 c then cons TColon <$> lex fuel' s'
          else if is_code 44 c then cons TComma <$> lex fuel' s'
          else if is_code 34 c then
            match lex_string s' with
            | Some (body, rest) => cons (TString body) <$> lex fuel' rest
            | None => None
            end
          else if is_code 45 c then
            match lex_int s' with
            | Some (z, rest) => cons (TNumber (- z)) <$> lex fuel' rest
            | None => None
            end
          else if is_digit c then
            match lex_int s with
            | Some (z, rest) => cons (TNumber z) <$> lex fuel' rest
            | None => None
            end
          else
            match strip_prefix "true" s, strip_prefix "false" s,
                  strip_prefix "null" s with
            | Some rest, _, _ => cons TTrue <$> lex fuel' rest
            | _, Some rest, _ => cons TFalse <$> lex fuel' rest
            | _, _, Some rest => cons TNull <$> lex fuel' rest
            | _, _, _ => None
            end
      end
  end.

Fixpoint parse_value (fuel : nat) (ts : list token) : option (pyval * list token) :=
  match fuel with
  | O => None
  | S fuel' =>
      match ts with
      | TNull :: r => Some (PNone, r)
      | TTrue :: r => Some (PBool true, r)
      | TFalse :: r => Some (PBool false, r)
      | TNumber z :: r => Some (PInt z, r)
      | TString s :: r => Some (PStr s, r)
      | TLBrack :: TRBrack :: r => Some (PList [], r)
      | TLBrack :: r =>
          match parse_value fuel' r with
          | Some (v, r1) => parse_elems fuel' r1 [v]
          | None => None
          end
      | TLBrace :: TRBrace :: r => Some (PDict [], r)
      | TLBrace :: TString k :: TColon :: r =>
          match parse_value fuel' r with
          | Some (v, r1) => parse_members fuel' r1 [(k, v)]
          | None => None
          end
      | _ => None
      end
  end
with parse_elems (fuel : nat) (ts : list token) (acc : list pyval)
    : option (pyval * list token) :=
  match fuel with
  | O => None
  | S fuel' =>
      match ts with
      | TRBrack :: r => Some (PList (rev acc), r)
      | TComma :: r =>
          match parse_value fuel' r with
          | Some (v, r1) => parse_elems fuel' r1 (v :: acc)
          | None => None
          end
      | _ => None
      end
  end
with parse_members (fuel : nat) (ts : list token) (acc : pydict)
    : option (pyval * list token) :=
  match fuel with
  | O => None
  | S fuel' =>
      match ts with
      | TRBrace :: r => Some (PDict acc, r)
      | TComma :: TString k :: TColon :: r =>
          match parse_value fuel' r with
          | Some (v, r1) => parse_members fuel' r1 (dict_set k v acc)
          | None => None
          end
      | _ => None
      end
  end.

Definition loads (s : string) : option pyval :=
  match lex (S (String.length s)) s with
  | Some ts =>
      match parse_value (S (length ts)) ts with
      | Some (v, []) => Some v
      | _ => None
      end
  | None => None
  end.

Definition quote : string := String (Ascii.ascii_of_nat 34) EmptyString.

Fixpoint all_plain (s : string) : bool :=
  match s with
  | EmptyString => true
  | String c s' => is_plain c && all_plain s'
  end.

Definition dumps_str (s : string) : option string :=
  if all_plain s then Some (quote +:+ s +:+ quote) else None.

Fixpoint join (sep : string) (l : list string) : string :=
  match l with
  | [] => ""
  | [x] => x
  | x :: l' => x +:+ sep +:+ join sep l'
  end.

Fixpoint insert_sorted (kv : string * pyval) (d : pydict) : pydict :=
  match d with
  | [] => [kv]
  | kv' :: d' =>
      if String.leb (fst kv) (fst kv') then kv :: d
      else kv' :: insert_sorted kv d'
  end.
Definition sort_keys (d : pydict) : pydict := fold_right insert_sorted [] d.

(** Serialisation with the separators [", "] and [": "].  [sorted] is
    [sort_keys]; [stringify] is [default=str]. *)
Fixpoint dumps_with (sorted stringify : bool) (v : pyval) : option string :=
  match v with
  | PNone => Some "null"
  | PBool b => Some (if b then "true" else "false")
  | PInt z => Some (pretty z)
  | PStr s => dumps_str s
  | PList l =>
      (fun items => "[" +:+ join ", " items +:+ "]") <$>
      (fix go (l : list pyval) : option (list string) :=
         match l with
         | [] => Some []
         | x :: l' =>
             match dumps_with sorted stringify x, go l' with
             | Some sx, Some rest => Some (sx :: rest)
             | _, _ => None
             end
         end) l
  | PDict d =>
      (fun items =>
         "{" +:+ join ", "
           (map (fun kt => fst kt +:+ ": " +:+ snd kt)
              (if sorted
               then (fun l => fold_right
                       (fun kt acc =>
                          (fix ins (l : list (string * string)) :=
                             match l with
                             | [] => [kt]
                             | kt' :: l' =>
                                 if String.leb (fst kt) (fst kt') then kt :: l
                                 else kt' :: ins l'
                             end) acc) [] l) items
               else items))
         +:+ "}") <$>
      (fix go (d : pydict) : option (list (string * string)) :=
         match d with
         | [] => Some []
         | (k, x) :: d' =>
             match dumps_str k, dumps_with sorted stringify x, go d' with
             | Some sk, Some sx, Some rest => Some ((sk, sx) :: rest)
             | _, _, _ => None
             end
         end) d
  | PObj r => if stringify then dumps_str r else None
  end.

(** [repr] of a value, as [str()] shows containers. *)
Fixpoint py_repr (v : pyval) : string :=
  match v with
  | PNone => "None"
  | PBool b => if b then "True" else "False"
  | PInt z => pretty z
  | PStr s => "'" +:+ s +:+ "'"
  | PList l => "[" +:+ join ", " (map py_repr l) +:+ "]"
  | PDict d =>
      "{" +:+ join ", "
        ((fix go (d : pydict) : list string :=
            match d with
            | [] => []
            | (k, x) :: d' => ("'" +:+ k +:+ "': " +:+ py_repr x) :: go d'
            end) d) +:+ "}"
  | PObj r => r
  end.

Definition str_of (v : pyval) : string :=
  match v with
  | PStr s => s
  | _ => py_repr v
  end.

Definition lower_char (c : Ascii.ascii) : Ascii.ascii :=
  if Nat.leb 65 (code c) && Nat.leb (code c) 90
  then Ascii.ascii_of_nat (code c + 32) else c.
Fixpoint lower (s : string) : string :=
  match s with
  | EmptyString => EmptyString
  | String c s' => String (lower_char c) (lower s')
  end.

Fixpoint all_ascii (s : string) : bool :=
  match s with
  | EmptyString => true
  | String c s' => Nat.ltb (code c) 128 && all_ascii s'
  end.

(** With [ensure_ascii=True] a non-ASCII character is escaped: outside the
    fragment. *)
Definition dumps_ascii (v : pyval) : option string :=
  match dumps_with false false v with
  | Some t => if all_ascii t then Some t else None
  | None => None
  end.

#[export] Instance codec : Codec := {|
  json_loads := loads;
  json_loads_error := fun _ => Exn "JSONDecodeError" "Expecting value";
  json_dumps := dumps_with false false;
  json_dumps_ascii := dumps_ascii;
  json_dumps_sorted := dumps_with true false;
  json_dump_default := fun v => default "null" (dumps_with false true v);
  py_str := str_of;
  str_lower := lower;
|}.

End JsonFrag.

(** ** Concrete tools, agents and environment for the examples *)

Module Examples.

Import Tasks.

Definition returning (v : pyval) : nat → string → res pyval := fun _ _ => Ok v.
Definition raising (e : exn) : nat → string → res pyval := fun _ _ => Raise e.

Definition boom : exn := Exn "ValueError" "boom".

Definition collector_ok : tool :=
  Tool "IPDataCollectorTool" ["BaseTool"] (Some "IP Data Collector Tool")
    (returning (PStr "[1, 2]")).
Definition collector_down : tool :=
  Tool "IPDataCollectorTool" ["BaseTool"] (Some "IP Data Collector Tool")
    (raising boom).
Definition classifier_ok : tool :=
  Tool "NLPClassificationTool" ["BaseTool"] (Some "NLP Classification Tool")
    (returning (PStr "[]")).
Definition classifier_down : tool :=
  Tool "NLPClassificationTool" ["BaseTool"] (Some "NLP Classification Tool")
    (raising boom).
(** An analysis capability that answers with a JSON array. *)
Definition analysis_array : tool :=
  Tool "DataAnalysisTool" ["BaseTool"] (Some "Data Analysis Tool")
    (returning (PStr "[]")).
Definition analysis_ok : tool :=
  Tool "DataAnalysisTool" ["BaseTool"] (Some "Data Analysis Tool")
    (returning (PStr "{}")).
Definition visualization_ok : tool :=
  Tool "VisualizationTool" ["BaseTool"] (Some "Visualization Tool")
    (returning (PStr "{}")).

Definition agent_of (ts : list tool) : agent := Agent (Some ts).

Definition agents_ok : Flow.IPAgents :=
  Flow.Agents (agent_of [collector_ok]) (agent_of [classifier_ok])
    (agent_of [analysis_ok; visualization_ok]) None.
Definition agents_collector_down : Flow.IPAgents :=
  Flow.Agents (agent_of [collector_down]) (agent_of [classifier_ok])
    (agent_of [analysis_ok; visualization_ok]) None.
Definition agents_analysis_array : Flow.IPAgents :=
  Flow.Agents (agent_of [collector_ok]) (agent_of [classifier_ok])
    (agent_of [analysis_array; visualization_ok]) None.

(** The text a successful [PDFReportTool._run] returns. *)
Definition pdf_ok_response : string :=
  default "" (JsonFrag.dumps_with false false (PDict [("path", PStr "static/r.pdf")])).

#[export] Instance env : PdfWorker.Env := {|
  PdfWorker.uuid4_str := fun n => "job-" +:+ pretty n;
  PdfWorker.utcnow_iso := fun n => "T" +:+ pretty n;
  PdfWorker.utcnow_stamp := fun n => "D" +:+ pretty n;
  PdfWorker.figure_written := fun _ _ => true;
  PdfWorker.pdf_tool_run := fun _ => Ok pdf_ok_response;
  PdfWorker.worker_db_up := true;
|}.

(** An environment whose rendering tool raises. *)
Definition env_render_raises : PdfWorker.Env := {|
  PdfWorker.uuid4_str := fun n => "job-" +:+ pretty n;
  PdfWorker.utcnow_iso := fun n => "T" +:+ pretty n;
  PdfWorker.utcnow_stamp := fun n => "D" +:+ pretty n;
  PdfWorker.figure_written := fun _ _ => true;
  PdfWorker.pdf_tool_run := fun _ => Raise boom;
  PdfWorker.worker_db_up := true;
|}.

(** A stand-in for [sha256(...).hexdigest()] in the examples: the byte
    codes of the text, an injective function into plain characters. *)
Fixpoint toy_hash (s : string) : string :=
  match s with
  | EmptyString => EmptyString
  | String c s' => pretty (JsonFrag.code c) +:+ "-" +:+ toy_hash s'
  end.

(** A state with payloads already filled in and an empty criteria, as a
    caller of [kickoff(state=...)] may pass it. *)
Definition prefilled_invalid : Flow.PropriedadeIntelectualState :=
  Flow.State (Some 1%Z) "" (Some "[1]") None None None [] None.

End Examples.

(** ** Further examples and vocabulary for the properties below *)

Module ExamplesMore.

Import Tasks.








End ExamplesMore.

Module PdfWorkerOps.

Import PdfWorker.

(** The keys the worker itself writes into a job's metadata. *)
Definition worker_keys : list string :=
  ["status"; "started_at"; "output_path"; "error"; "completed_at"].

(** The metadata bound to a job id, [{}] when there is none. *)
Definition meta_of (job_id : string) (s : store) : pydict :=
  default [] (jobs s !! job_id).

(** The entries the worker writes when the attempt ends with an
    exception, and the entries it writes for an answer of the rendering
    tool: [completed] with the path when the answer has a true [path],
    [failed] with the answer's [error] (or the whole answer) otherwise. *)
Definition failed_update (e : exn) (t : string) : pydict :=
  [("status", PStr "failed"); ("error", PStr (exn_str e));
   ("completed_at", PStr t)].

Definition outcome_update (reply : res pyval) (t : string) : pydict :=
  match reply with
  | Raise e => failed_update e t
  | Ok parsed =>
      match py_get parsed "path" PNone with
      | Raise e => failed_update e t
      | Ok path =>
          if truthy path
          then [("status", PStr "completed"); ("output_path", path);
                ("completed_at", PStr t)]
          else
            let err := dict_get_default "error" PNone
                         (match parsed with PDict d => d | _ => [] end) in
            [("status", PStr "failed");
             ("error", if truthy err then err else parsed);
             ("completed_at", PStr t)]
      end
  end.

(** The record of a job after a worker run, from the record before it:
    the processing entries, then the outcome, then [extra_meta]. *)
Definition final_record (reply : res pyval) (t0 t1 : string)
    (extra_meta : option pydict) (old : pydict) : pydict :=
  let m1 := dict_update [("status", PStr "processing"); ("started_at", PStr t0)]
              old in
  let m2 := dict_update (outcome_update reply t1) m1 in
  if truthy_extra extra_meta then dict_update (default [] extra_meta) m2 else m2.


Section Ops.
Context `{Codec} `{Env}.




(** The payload handed to the rendering tool, when it can be built. *)
Definition render_payload (job_id : string) (results : pyval)
    (output_path : string) : option string :=
  json_dumps (PDict [("results", prepare_visualizations job_id results);
                     ("output_path", PStr output_path)]).

(** The audit-log entry the worker writes for a tool answer, if any. *)
Definition worker_log (job_id : string) (results : pyval) (output_path : string)
    (extra_meta : option pydict) : list (pyval * string) :=
  let sqid :=
    if truthy_extra extra_meta
    then dict_get_default "search_query_id" PNone (default [] extra_meta)
    else PNone in
  match render_reply job_id results output_path with
  | Ok (PDict d) =>
      if truthy sqid && worker_db_up then
        let path := dict_get_default "path" PNone d in
        if truthy path
        then [(sqid, "✅ Relatório PDF gerado com sucesso: " +:+ py_str path)]
        else [(sqid, "❌ Falha ao gerar PDF: " +:+
                     py_str (dict_get_default "error" PNone d))]
      else []
  | _ => []
  end.

End Ops.

End PdfWorkerOps.

(** ** tools/custom_tools.py: normalising and persisting collected items *)

Module Collector.

Import Persist.



(** [src_original != provider], the right-hand side being a string. *)
Definition differs_from_str (v : pyval) (s : string) : bool :=
  match v with
  | PStr s' => negb (String.eqb s' s)
  | _ => true
  end.

(** [IPDataCollectorTool._ensure_source] *)
Definition _ensure_source (item : pydict) (provider : string) : pydict :=
  let src_original := dict_get_default "source" PNone item in
  let item1 :=
    if truthy src_original && differs_from_str src_original provider
    then dict_set "source_original" src_original item
    else item in
  dict_set "source" (PStr provider) item1.

Section PersistMany.
Context `{Codec}.
Variable sha256_hex : string → string.





End PersistMany.



End Collector.

(** ** Vocabulary for the effects of a flow run *)

Module FlowOps.

Import Flow.

(** The world with more entries in the search log. *)
Definition add_logs (l : list (option Z * string)) (w : world) : world :=
  World (state w) (search_log w ++ l)%list (query_status w) (job_store w).

(** Entries written under the guard [if self.state.search_query_id]. *)
Definition log_entries_if (id : option Z) (msgs : list string)
    : list (option Z * string) :=
  if truthy_int id then map (pair id) msgs else [].

(** What no stage does: a stage leaves the search id, the criteria, the
    report, the status table and the job module alone, and only appends
    entries under the run's search id to the log. *)
Definition stage_frame (w w' : world) : Prop :=
  search_query_id (state w') = search_query_id (state w)
  ∧ search_criteria (state w') = search_criteria (state w)
  ∧ final_report (state w') = final_report (state w)
  ∧ query_status w' = query_status w
  ∧ job_store w' = job_store w
  ∧ ∃ more, search_log w' = (search_log w ++ more)%list
            ∧ Forall (λ e, e.1 = search_query_id (state w)) more.


Definition start_msg (id : option Z) (criteria : string) : string :=
  "Fluxo iniciado para a busca ID " +:+ pretty_id id +:+ " com critério: '"
  +:+ criteria +:+ "'".

Definition collected_msg (n : Z) : string :=
  "Coleta concluída. " +:+ pretty n +:+ " resultados brutos obtidos e persistidos.".

Definition classified_msg (n : Z) : string :=
  pretty n +:+ " resultados classificados (persistência feita pela ferramenta).".

Definition analysed_msg : string := "Analise de dados conlcuida com Sucesso".

Definition report_done_msg : string := "Fluxo concluído e relatório final gerado.".

(** The error [coletar_dados] raises when its task fails. *)
Definition collection_error (e : exn) : exn :=
  Exn "RuntimeError" ("Falha ao executar task de coleta: " +:+ exn_str e).

End FlowOps.

(** ** tools/custom_tools.py: the rendering tool the worker invokes *)

Module PDFReportTool.

Import PdfWorker.

Section Tool.
Context `{Codec}.
(** [PDFGenerator().generate_report(results, output_path)] *)
Variable generate_report : pyval → pyval → res unit.

(** [json.dumps({"error": msg})] *)
Definition error_reply (msg : string) : res string :=
  match json_dumps_ascii (PDict [("error", PStr msg)]) with
  | Some t => Ok t
  | None => Raise (Exn "TypeError" "Object is not JSON serializable")
  end.

(** [PDFReportTool._run] on a string. *)
Definition _run (input_data : string) : res string :=
  match json_loads input_data with
  | None => error_reply "Entrada inválida para PDFReportTool"
  | Some payload =>
      match py_get payload "results" PNone with
      | Raise e => Raise e
      | Ok results =>
          match py_get payload "output_path" PNone with
          | Raise e => Raise e
          | Ok output_path =>
              if negb (truthy results) || negb (truthy output_path)
              then error_reply "Faltando 'results' ou 'output_path' na entrada"
              else
                match generate_report results output_path with
                | Ok _ =>
                    match json_dumps_ascii (PDict [("path", output_path)]) with
                    | Some t => Ok t
                    | None =>
                        error_reply ("Falha ao gerar PDF: " +:+
                                     "Object is not JSON serializable")
                    end
                | Raise e => error_reply ("Falha ao gerar PDF: " +:+ exn_str e)
                end
          end
      end
  end.

(** The worker's environment with this tool as its renderer. *)
Definition with_tool (base : Env) : Env := {|
  uuid4_str := @uuid4_str base;
  utcnow_iso := @utcnow_iso base;
  utcnow_stamp := @utcnow_stamp base;
  figure_written := @figure_written base;
  pdf_tool_run := _run;
  worker_db_up := @worker_db_up base;
|}.

End Tool.

End PDFReportTool.

(** ** flows/ip_flow.py: the service that starts and runs an analysis *)

Module Service.

Import Flow.

(** A row of [search_query] as it was inserted.  Later status updates are
    the entries of [query_status]; the last one for an id is its status. *)
Record query_row := QueryRow {
  q_id : Z;
  q_criteria : string;
  q_status : string;
}.

(** The flow's world together with the [search_query] table and its id
    sequence. *)
Record sworld := SWorld {
  flow_world : world;
  search_query : list query_row;
  next_query_id : Z;
}.

(** A computation of the flow, or a write through a connection, run on
    the service's view of the world. *)
Definition in_flow {A} (m : M world A) : M sworld A :=
  fun sw => match m (flow_world sw) with
            | (r, w) => (r, SWorld w (search_query sw) (next_query_id sw))
            end.

(** [BuscapiDB.insert_search_query] *)
Definition insert_search_query (criteria status : string) : M sworld Z :=
  fun sw =>
    (Ok (next_query_id sw),
     SWorld (flow_world sw)
       (search_query sw ++ [QueryRow (next_query_id sw) criteria status])
       (next_query_id sw + 1)).

(** [BuscapiDB.get_search_query_by_id] *)
Definition get_search_query_by_id (query_id : Z) : M sworld (option query_row) :=
  gets (fun sw => find (fun r => Z.eqb (q_id r) query_id) (search_query sw)).

(** The status of a search: its last update, or the inserted status. *)
Definition updates_of (query_id : Z) (w : world) : list string :=
  map snd
    (List.filter (fun e : option Z * string =>
                    match fst e with
                    | Some z => Z.eqb z query_id
                    | None => false
                    end) (query_status w)).

Definition status_of (query_id : Z) (sw : sworld) : option string :=
  match last (updates_of query_id (flow_world sw)) with
  | Some st => Some st
  | None => q_status <$> find (fun r => Z.eqb (q_id r) query_id) (search_query sw)
  end.

Definition not_found_msg (search_query_id : Z) : string :=
  "ID de busca " +:+ pretty search_query_id +:+ " não encontrado.".

Definition fatal_msg (e : exn) : string :=
  "Erro fatal ao orquestrar o fluxo: " +:+ exn_str e.

Section ServiceInstance.
Context `{Codec} `{PdfWorker.Env}.

(** [IPAnalysisService.start_analysis] *)
Definition start_analysis (search_criteria : string) : M sworld Z :=
  let! search_query_id := insert_search_query search_criteria "pending" in
  do! in_flow (insert_search_log (Some search_query_id)
                 "Registro de busca criado. Aguardando execução do Flow.") in
  ret search_query_id.

(** [IPAnalysisService.execute_analysis].  [new_flow] is what constructing
    [PropriedadeIntelectualFlow()] gives: the agents of the new flow, or
    the exception the constructor raises. *)
Definition execute_analysis (new_flow : res IPAgents) (search_query_id : Z)
    : M sworld pyval :=
  try_
    (let! query_info := get_search_query_by_id search_query_id in
     match query_info with
     | None => ret (PDict [("error", PStr (not_found_msg search_query_id))])
     | Some row =>
         let search_criteria := q_criteria row in
         do! in_flow (update_search_query_status (Some search_query_id)
                        "processing") in
         let! agents := lift new_flow in
         let! final_report :=
           in_flow (kickoff agents
                      (Some (service_state search_query_id search_criteria))) in
         ret (PDict final_report)
     end)
    (fun e =>
       let error_msg := fatal_msg e in
       do! in_flow (update_search_query_status (Some search_query_id) "error") in
       do! in_flow (insert_search_log (Some search_query_id) error_msg) in
       ret (PDict [("error", PStr error_msg)])).

End ServiceInstance.

End Service.

(** * Properties *)

(** ** Dictionaries and the monad *)

Module PyFacts.

Lemma dict_get_set (k k' : string) (v : pyval) (d : pydict) :
  dict_get k' (dict_set k v d) =
  if String.eqb k' k then Some v else dict_get k' d.
Proof.
  induction d as [|[k0 v0] d IH]; simpl.
  - destruct (String.eqb k' k); reflexivity.
  - destruct (String.eqb_spec k k0) as [->|Hne]; simpl.
    + destruct (String.eqb k' k0); reflexivity.
    + rewrite IH. destruct (String.eqb_spec k' k0) as [->|Hne'].
      * destruct (String.eqb_spec k0 k) as [->|_]; [congruence|reflexivity].
      * reflexivity.
Qed.

Lemma dict_get_set_eq (k : string) (v : pyval) (d : pydict) :
  dict_get k (dict_set k v d) = Some v.
Proof. rewrite dict_get_set, String.eqb_refl. reflexivity. Qed.

Lemma dict_update_nil (d : pydict) : dict_update [] d = d.
Proof. reflexivity. Qed.

Lemma dict_update_cons (k : string) (v : pyval) (u d : pydict) :
  dict_update ((k, v) :: u) d = dict_update u (dict_set k v d).
Proof. reflexivity. Qed.

End PyFacts.

(** Rewrites lookups through [dict_set] and [dict_update] on literal keys. *)
Ltac dict_simpl :=
  repeat (rewrite ?PyFacts.dict_update_cons, ?PyFacts.dict_update_nil,
            ?PyFacts.dict_get_set; cbn [String.eqb Ascii.eqb Bool.eqb]).

(** ** The stage executor *)

Module TasksFacts.

Import Tasks.

Section Facts.
Context `{Codec}.

Lemma attempt_loop_all_raise (c : tool) (input_str : string) (errs : nat → exn) :
  (∀ k, tool_run c k input_str = Raise (errs k)) →
  ∀ n a last,
    attempt_loop c input_str a n last =
    (inr (match n with O => last | S n' => Some (errs (a + n')) end),
     failed_trace input_str a n).
Proof.
  intros Hall n. induction n as [|n IH]; intros a last; simpl.
  - reflexivity.
  - rewrite Hall, IH. destruct n as [|n]; simpl.
    + rewrite Nat.add_0_r. reflexivity.
    + replace (S (a + n)) with (a + S n) by lia. reflexivity.
Qed.


Lemma count_runs_failed_trace (input_str : string) (n a : nat) :
  count_events is_run (failed_trace input_str a n) = n.
Proof.
  revert a. induction n as [|n IH]; intros a; simpl; [reflexivity|].
  rewrite IH. reflexivity.
Qed.

Lemma count_sleeps_failed_trace (input_str : string) (n a : nat) :
  count_events is_sleep (failed_trace input_str a n) = n.
Proof.
  revert a. induction n as [|n IH]; intros a; simpl; [reflexivity|].
  rewrite IH. reflexivity.
Qed.

Lemma attempts_of_pos (retries : Z) : ∃ n, attempts_of retries = S n.
Proof.
  unfold attempts_of. destruct (Z.to_nat (Z.max 1 retries)) eqn:E; [lia|eauto].
Qed.

(** When every invocation of the chosen tool raises. *)
Lemma execute_task_all_raise
    (t : task) (ag : agent) (c : tool) (input_str : string)
    (preferred_tool_cls preferred_tool_name : option string) (retries : Z)
    (errs : nat → exn) :
  task_agent t = Some ag →
  choose_tool (default [] (agent_tools ag)) preferred_tool_cls preferred_tool_name
    = Some c →
  (∀ k, tool_run c k input_str = Raise (errs k)) →
  execute_task t input_str preferred_tool_cls preferred_tool_name retries =
    (Raise (Exn "RuntimeError"
              (exhausted_msg retries (Some (errs (attempts_of retries - 1))))),
     failed_trace input_str 0 (attempts_of retries)).
Proof.
  intros Hag Hc Hall. unfold execute_task. rewrite Hag, Hc.
  rewrite (attempt_loop_all_raise c input_str errs Hall).
  destruct (attempts_of_pos retries) as [m Hm].
  rewrite Hm. cbn [Nat.sub Nat.add]. rewrite Nat.sub_0_r. reflexivity.
Qed.

(** C6 (amended).  When every invocation of the chosen tool raises, the
    executor invokes it [max(1, retries)] times in all: [retries] counts
    the attempts, not the retries after the first one.  Every failed
    attempt, the last one included, is followed by the same 200 ms sleep,
    and the executor then raises a [RuntimeError] whose message carries
    [retries] and the text of the last exception. *)
Theorem execute_task_exhausts_budget
    (t : task) (ag : agent) (c : tool) (input_str : string)
    (preferred_tool_cls preferred_tool_name : option string) (retries : Z)
    (errs : nat → exn) :
  task_agent t = Some ag →
  choose_tool (default [] (agent_tools ag)) preferred_tool_cls preferred_tool_name
    = Some c →
  (∀ k, tool_run c k input_str = Raise (errs k)) →
  let n := Z.to_nat (Z.max 1 retries) in
  execute_task t input_str preferred_tool_cls preferred_tool_name retries =
    (Raise (Exn "RuntimeError" (exhausted_msg retries (Some (errs (n - 1))))),
     failed_trace input_str 0 n)
  ∧ count_events is_run (failed_trace input_str 0 n) = n
  ∧ count_events is_sleep (failed_trace input_str 0 n) = n
  ∧ exhausted_msg retries (Some (errs (n - 1))) =
      "Falha ao executar a task após " +:+ pretty retries +:+ " tentativas: "
      +:+ exn_str (errs (n - 1)).
Proof.
  intros Hag Hc Hall n.
  split; [exact (execute_task_all_raise t ag c input_str _ _ retries errs Hag Hc Hall)|].
  split; [apply count_runs_failed_trace|].
  split; [apply count_sleeps_failed_trace|reflexivity].
Qed.


End Facts.

(** C6 (counterexample).  With [retries = 2] and a tool that raises on
    every invocation the executor gives up after two invocations, not
    after one invocation and two retries. *)
Lemma execute_task_retries_two_runs_twice :
  let t := Task (Some (Examples.agent_of [Examples.classifier_down])) in
  let r := execute_task (H := JsonFrag.codec) t "x" None None 2 in
  is_ok (fst r) = false
  ∧ count_events is_run (snd r) = 2
  ∧ count_events is_run (snd r) ≠ 1 + Z.to_nat 2.
Proof. vm_compute. repeat split; discriminate. Qed.

Lemma execute_task_exhausts_budget_witness :
  let t := Task (Some (Examples.agent_of [Examples.classifier_down])) in
  execute_task (H := JsonFrag.codec) t "x" None None 2 =
    (Raise (Exn "RuntimeError"
              "Falha ao executar a task após 2 tentativas: boom"),
     [EvRun 0 "x"; EvSleep 200; EvRun 1 "x"; EvSleep 200]).
Proof.
  intros t.
  exact (proj1 (execute_task_exhausts_budget (H := JsonFrag.codec)
           t (Examples.agent_of [Examples.classifier_down])
           Examples.classifier_down "x" None None 2 (fun _ => Examples.boom)
           eq_refl eq_refl (fun _ => eq_refl))).
Defined.


End TasksFacts.

(** ** Joining paths *)

Module PosixPathFacts.

Import PosixPath.

Lemma append_empty_r (s : string) : s +:+ "" = s.
Proof.
  induction s as [|c s IH]; [reflexivity|].
  change (String c (s +:+ "") = String c s). congruence.
Qed.

Lemma append_assoc (a b c : string) : (a +:+ b) +:+ c = a +:+ (b +:+ c).
Proof.
  induction a as [|x a IH]; [reflexivity|].
  change (String x ((a +:+ b) +:+ c) = String x (a +:+ (b +:+ c))). congruence.
Qed.

Lemma length_append (a b : string) :
  String.length (a +:+ b) = (String.length a + String.length b)%nat.
Proof.
  induction a as [|x a IH]; [reflexivity|].
  change (S (String.length (a +:+ b)) = S (String.length a + String.length b)).
  congruence.
Qed.

Lemma has_sep_append (a b : string) :
  has_sep (a +:+ b) = has_sep a || has_sep b.
Proof.
  induction a as [|x a IH]; [reflexivity|].
  change (is_sep x || has_sep (a +:+ b) = is_sep x || has_sep a || has_sep b).
  rewrite IH. apply orb_assoc.
Qed.


Lemma split_sep_plain (s : string) :
  ∀ cur, has_sep s = false → split_sep s cur = [cur +:+ s].
Proof.
  induction s as [|c s IH]; intros cur Hs.
  - rewrite append_empty_r. reflexivity.
  - cbn [split_sep]. cbn in Hs. apply orb_false_iff in Hs as [Hc Hs]. rewrite Hc.
    rewrite IH by exact Hs. rewrite append_assoc. reflexivity.
Qed.


Lemma kept_long (x : string) :
  (2 ≤ String.length x)%nat →
  negb (String.eqb x "") && negb (String.eqb x ".") = true.
Proof.
  destruct x as [|c [|c' x]]; cbn [String.length]; try lia. intros _.
  cbn. destruct (Ascii.eqb c _); reflexivity.
Qed.


Lemma components_plain (name : string) :
  has_sep name = false →
  (2 ≤ String.length name)%nat →
  components name = [name] ∧ root name = "".
Proof.
  intros Hs Hl. split.
  - unfold components. rewrite (split_sep_plain name "" Hs).
    change ("" +:+ name) with name. cbn [List.filter].
    rewrite kept_long by exact Hl. reflexivity.
  - destruct name as [|c name]; [reflexivity|]. cbn in Hs.
    apply orb_false_iff in Hs as [Hc _].
    unfold root. cbn. rewrite Hc. reflexivity.
Qed.



(** A relative path is put behind the directory. *)
Lemma join_relative (dir b : string) :
  root b = "" → components dir ≠ [] → root dir = "" →
  join dir b = String.concat "/" (components dir ++ components b).
Proof.
  intros Hb Hd Hr. unfold join. rewrite Hb, Hr. cbn [String.eqb]. cbn zeta.
  change ("" +:+ ?x) with x.
  destruct (String.concat "/" (components dir ++ components b)) eqn:E;
    [|reflexivity].
  exfalso. destruct (components dir) as [|x l] eqn:Ed; [congruence|].
  assert (x ≠ "") as Hx.
  { assert (In x (components dir)) as Hin by (rewrite Ed; left; reflexivity).
    unfold components in Hin. apply List.filter_In in Hin as [_ Hin].
    intros ->. discriminate. }
  cbn in E. destruct (l ++ components b)%list; [congruence|].
  destruct x; [congruence|discriminate].
Qed.




End PosixPathFacts.

(** ** The report-job queue *)

Module PdfWorkerFacts.

Import PdfWorker.

Ltac store_simpl :=
  cbn [jobs files clock history queue uuids db_log set_jobs set_files
       set_queue tick_clock tick_uuid add_log record].

Section Facts.
Context `{Codec} `{Env}.

Lemma meta_update_run (job_id : string) (u : pydict) (s : store) :
  meta_update job_id u s =
  (Ok tt, set_jobs (insert job_id (dict_update u (default [] (jobs s !! job_id)))) s).
Proof. reflexivity. Qed.

Lemma persist_run (job_id : string) (meta : pydict) (s : store) :
  _persist_job_meta job_id meta s =
  (Ok tt, record (JWrite job_id)
            (set_files (insert job_id (json_dump_default (PDict meta))) s)).
Proof. reflexivity. Qed.

(** A submission, step by step. *)
Lemma enqueue_pdf_job_run
    (results : pyval) (output_path : option string) (search_query_id : option Z)
    (title_prefix : string) (s : store) :
  let job_id := uuid4_str (uuids s) in
  let path := default (default_output_path title_prefix (utcnow_stamp (clock s)))
                output_path in
  let meta := initial_meta job_id path (utcnow_iso (S (clock s)))
                (of_opt_int search_query_id) (llm_model_of results) in
  enqueue_pdf_job results output_path search_query_id title_prefix s =
  (Ok meta,
   Store (<[job_id := meta]> (jobs s))
         (<[job_id := json_dump_default (PDict meta)]> (files s))
         (queue s ++ [Submission job_id results path
                        (enqueue_extra (of_opt_int search_query_id)
                           (llm_model_of results))])
         (S (uuids s)) (S (S (clock s))) (db_log s)
         ((history s ++ [JWrite job_id]) ++ [JSubmit job_id])).
Proof. destruct output_path; reflexivity. Qed.

(** C8.  A lookup answers from the index when the id is there; otherwise
    it reads the job's file, also in a process started later, whose index
    is empty; and when neither knows the id it returns the [not_found]
    record instead of raising. *)
Theorem get_job_meta_index_then_file (job_id : string) (s : store) :
  (∀ meta, jobs s !! job_id = Some meta →
           get_job_meta job_id s = Ok (PDict meta))
  ∧ (∀ text v, jobs s !! job_id = None → files s !! job_id = Some text →
               json_loads text = Some v → get_job_meta job_id s = Ok v)
  ∧ (∀ text v, files s !! job_id = Some text → json_loads text = Some v →
               get_job_meta job_id (restart s) = Ok v)
  ∧ (jobs s !! job_id = None → files s !! job_id = None →
     get_job_meta job_id s = Ok not_found
     ∧ not_found = PDict [("error", PStr "not_found")]).
Proof.
  unfold get_job_meta. split; [|split; [|split]].
  - intros meta ->. reflexivity.
  - intros text v -> -> ->. reflexivity.
  - intros text v Hf Hl. cbn [restart jobs files].
    rewrite lookup_empty, Hf, Hl. reflexivity.
  - intros -> ->. split; reflexivity.
Qed.

Lemma try_log_run (extra_meta : option pydict) (msg : string) (s : store) :
  ∃ s', try_log extra_meta msg s = (Ok tt, s')
        ∧ jobs s' = jobs s ∧ files s' = files s ∧ clock s' = clock s.
Proof.
  unfold try_log, try_, when.
  destruct (truthy _); [|eexists; split; [reflexivity|auto]].
  destruct worker_db_up; eexists; (split; [reflexivity|auto]).
Qed.

(** The body of the worker's [try] together with its [except] clause. *)
Lemma render_attempt_run (job_id : string) (results : pyval)
    (output_path : string) (extra_meta : option pydict) (s : store) :
  ∃ (s' : store) (meta : pydict),
    try_ (render_body job_id results output_path extra_meta)
      (fun e =>
         let! t := now_iso in
         meta_update job_id [("status", PStr "failed");
                             ("error", PStr (exn_str e));
                             ("completed_at", PStr t)]) s = (Ok tt, s')
    ∧ jobs s' !! job_id = Some meta
    ∧ dict_get "completed_at" meta = Some (PStr (utcnow_iso (clock s)))
    ∧ match rendered_path job_id results output_path with
      | Some p => dict_get "status" meta = Some (PStr "completed")
                  ∧ dict_get "output_path" meta = Some p
      | None => dict_get "status" meta = Some (PStr "failed")
                ∧ is_Some (dict_get "error" meta)
      end
    ∧ (∀ e, render_reply job_id results output_path = Raise e →
            dict_get "error" meta = Some (PStr (exn_str e))).
Proof.
  unfold rendered_path, render_reply, render_body, try_.
  destruct (json_dumps _) as [payload|].
  2:{ eexists _, _. cbn. split; [reflexivity|]. store_simpl.
      rewrite lookup_insert_eq.
      split; [reflexivity|]. dict_simpl.
      split; [reflexivity|]. split; [split; [reflexivity|eauto]|].
      intros e [= <-]. reflexivity. }
  unfold Py.bind at 1. cbn [modify].
  unfold Py.bind at 1. unfold lift at 1.
  destruct (pdf_tool_run payload) as [resp|e0].
  2:{ eexists _, _. cbn. split; [reflexivity|]. store_simpl.
      rewrite lookup_insert_eq.
      split; [reflexivity|]. dict_simpl.
      split; [reflexivity|]. split; [split; [reflexivity|eauto]|].
      intros e [= <-]. reflexivity. }
  set (parsed := match json_loads resp with
                 | Some v => v
                 | None => PDict [("error", PStr "invalid_response"); ("raw", PStr resp)]
                 end).
  unfold Py.bind at 1. unfold lift at 1.
  destruct parsed as [| | | | |d|] eqn:Hparsed;
    try (eexists _, _; cbn; split; [reflexivity|]; store_simpl;
         rewrite lookup_insert_eq;
         split; [reflexivity|]; dict_simpl;
         split; [reflexivity|]; split; [split; [reflexivity|eauto]|];
         intros e [=]).
  cbn [py_get]. unfold dict_get_default.
  destruct (dict_get "path" d) as [p|] eqn:Hp; cbn [default from_option id].
  - destruct (truthy p) eqn:Htp.
    + unfold Py.bind, now_iso. rewrite meta_update_run.
      edestruct try_log_run as (s' & -> & Hj & _ & _).
      eexists _, _. split; [reflexivity|]. rewrite Hj. store_simpl.
      rewrite lookup_insert_eq. split; [reflexivity|]. dict_simpl.
      split; [reflexivity|]. split; [split; reflexivity|]. intros e [=].
    + unfold Py.bind, now_iso, lift. cbn [py_get]. rewrite meta_update_run.
      edestruct try_log_run as (s' & -> & Hj & _ & _).
      eexists _, _. split; [reflexivity|]. rewrite Hj. store_simpl.
      rewrite lookup_insert_eq. split; [reflexivity|]. dict_simpl.
      split; [reflexivity|]. split; [split; [reflexivity|eauto]|]. intros e [=].
  - cbn [truthy]. unfold Py.bind, now_iso, lift. cbn [py_get].
    rewrite meta_update_run.
    edestruct try_log_run as (s' & -> & Hj & _ & _).
    eexists _, _. split; [reflexivity|]. rewrite Hj. store_simpl.
    rewrite lookup_insert_eq. split; [reflexivity|]. dict_simpl.
    split; [reflexivity|]. split; [split; [reflexivity|eauto]|]. intros e [=].
Qed.

(** C5.  Running a submitted job never raises and leaves the job, in the
    index, in its file and for [get_job_meta], with a completion time and
    one terminal status: [completed] with the rendered path when the
    rendering tool answers with a path, [failed] with an [error] entry
    otherwise; when the payload cannot be built or the tool raises, the
    entry is the text of the exception. *)
Theorem run_pdf_job_reaches_terminal_status
    (job_id : string) (results : pyval) (output_path : string)
    (search_query_id llm_model : pyval) (s : store) :
  ∃ (meta : pydict) (s' : store),
    _run_pdf_job job_id results output_path
      (enqueue_extra search_query_id llm_model) s = (Ok tt, s')
    ∧ jobs s' !! job_id = Some meta
    ∧ files s' !! job_id = Some (json_dump_default (PDict meta))
    ∧ get_job_meta job_id s' = Ok (PDict meta)
    ∧ dict_get "completed_at" meta = Some (PStr (utcnow_iso (S (clock s))))
    ∧ match rendered_path job_id results output_path with
      | Some p => dict_get "status" meta = Some (PStr "completed")
                  ∧ dict_get "output_path" meta = Some p
      | None => dict_get "status" meta = Some (PStr "failed")
                ∧ is_Some (dict_get "error" meta)
      end
    ∧ (∀ e, render_reply job_id results output_path = Raise e →
            dict_get "status" meta = Some (PStr "failed")
            ∧ dict_get "error" meta = Some (PStr (exn_str e))).
Proof.
  unfold _run_pdf_job.
  unfold Py.bind at 1. unfold now_iso at 1.
  unfold Py.bind at 1. rewrite meta_update_run.
  unfold Py.bind at 1. unfold current_meta at 1, gets at 1.
  unfold Py.bind at 1. rewrite persist_run.
  unfold finally.
  match goal with
  | |- context [try_ ?b ?h ?s1] =>
      destruct (render_attempt_run job_id results output_path
                  (enqueue_extra search_query_id llm_model) s1)
        as (s2 & m2 & -> & Hj2 & Hc & Hst & Herr)
  end.
  unfold Py.bind, when, enqueue_extra, truthy_extra. cbn [default].
  rewrite meta_update_run. unfold current_meta, gets. rewrite persist_run.
  eexists _, _. split; [reflexivity|].
  cbn [jobs files set_jobs set_files record]. rewrite !lookup_insert_eq, Hj2.
  cbn [default from_option id].
  split; [reflexivity|]. split; [reflexivity|].
  split.
  { unfold get_job_meta. cbn [jobs files set_jobs set_files record].
    rewrite lookup_insert_eq. reflexivity. }
  cbn [id] in *. dict_simpl.
  cbn [clock record set_files set_jobs tick_clock] in Hc.
  split; [exact Hc|]. split.
  - destruct (rendered_path job_id results output_path); exact Hst.
  - intros e He. split; [|auto].
    unfold rendered_path in Hst. rewrite He in Hst. apply Hst.
Qed.

Lemma run_pdf_job_phases (job_id : string) (results : pyval)
    (output_path : string) (extra_meta : option pydict) (s : store) :
  _run_pdf_job job_id results output_path extra_meta s
  = (do! job_begin job_id in
     job_end job_id results output_path extra_meta) s.
Proof. reflexivity. Qed.

Lemma job_begin_run (job_id : string) (s : store) :
  ∃ s', job_begin job_id s = (Ok tt, s')
        ∧ jobs s' !! job_id
          = Some (dict_update [("status", PStr "processing");
                               ("started_at", PStr (utcnow_iso (clock s)))]
                    (default [] (jobs s !! job_id))).
Proof.
  unfold job_begin, Py.bind, now_iso, current_meta, gets.
  rewrite meta_update_run, persist_run.
  eexists. split; [reflexivity|]. store_simpl. apply lookup_insert_eq.
Qed.




(** A worker that takes a work item and ends it has run [_run_pdf_job]
    on it. *)
Lemma pool_runs_the_job (p : pool) (sub : submission) (rest : list submission) :
  queue (pool_store p) = sub :: rest →
  busy p = [] →
  pool_run [WorkerTakes; WorkerEnds 0] p
  = Pool (snd (run_submission sub (set_queue (fun _ => rest) (pool_store p))))
         [].
Proof.
  intros Hq Hb. cbn [pool_run fold_left pool_step]. rewrite Hq, Hb.
  cbn [length Nat.ltb Nat.leb max_workers busy pool_store app].
  unfold run_submission. rewrite run_pdf_job_phases. unfold Py.bind at 1.
  destruct (job_begin_run (sub_job_id sub)
              (set_queue (fun _ => rest) (pool_store p))) as (s' & -> & _).
  reflexivity.
Qed.

End Facts.

Lemma run_pdf_job_reaches_terminal_status_witness :
  ∃ meta,
    PdfWorker.jobs
      (snd (_run_pdf_job (H0 := Examples.env_render_raises) (H := JsonFrag.codec)
              "job-0" (PDict []) "static/r.pdf"
              (enqueue_extra (PInt 3) PNone) empty_store)) !! "job-0" = Some meta
    ∧ dict_get "status" meta = Some (PStr "failed")
    ∧ dict_get "error" meta = Some (PStr "boom").
Proof.
  destruct (run_pdf_job_reaches_terminal_status
              (H0 := Examples.env_render_raises) (H := JsonFrag.codec)
              "job-0" (PDict []) "static/r.pdf" (PInt 3) PNone empty_store)
    as (meta & s' & Hrun & Hj & _ & _ & _ & _ & Herr).
  exists meta. rewrite Hrun. split; [exact Hj|].
  apply (Herr Examples.boom). reflexivity.
Defined.

End PdfWorkerFacts.

(** ** Idempotent insertion of raw results *)

Module PersistFacts.

Import Persist.

Section Facts.
Context `{Codec}.
Variable sha256_hex : string → string.

(** The method, path by path. *)
Lemma call_insert_cases (f : faults) (search_query_id : Z) (source : string)
    (d : pydict) (c : db) :
  call_insert sha256_hex f search_query_id source d c =
  match json_dumps_sorted (PDict d) with
  | None => failed_call f d c
  | Some text =>
      let h := sha256_hex text in
      let d1 := dict_set "_hash" (PStr h) d in
      match json_dumps (PDict d1) with
      | None => failed_call f d1 c
      | Some _ =>
          match select_fault f with
          | Some _ => failed_call f d1 c
          | None =>
              match find (row_matches search_query_id h) (rows c) with
              | Some r => (Ok (row_id r), d1, c)
              | None =>
                  match insert_fault f with
                  | Some _ => failed_call f d1 c
                  | None => (Ok (next_id c), d1,
                             with_row search_query_id source d1 c)
                  end
              end
          end
      end
  end.
Proof.
  unfold call_insert, insert_search_result_raw, select_existing, insert_row,
    rollback, dumps_or_raise, failed_call.
  unfold try_, Py.bind, gets, modify, ret, raise.
  cbn [raw_data conn].
  destruct (json_dumps_sorted (PDict d)) as [text|];
    [|destruct (rollback_fault f); reflexivity].
  cbn [raw_data conn].
  destruct (json_dumps _) as [raw_json|];
    [|destruct (rollback_fault f); reflexivity].
  destruct (select_fault f) as [e|];
    [destruct (rollback_fault f); reflexivity|].
  cbn [raw_data conn].
  destruct (find _ (rows c)) as [r|]; [reflexivity|].
  destruct (insert_fault f) as [e|];
    [destruct (rollback_fault f)|]; reflexivity.
Qed.

(** A failed call leaves the table and the id sequence as they were. *)
Lemma failed_call_table (f : faults) (d : pydict) (c : db) :
  rows (snd (failed_call f d c)) = rows c
  ∧ next_id (snd (failed_call f d c)) = next_id c.
Proof. unfold failed_call. destruct (rollback_fault f); auto. Qed.


Lemma new_row_matches (search_query_id : Z) (source h : string) (d : pydict)
    (n : Z) :
  row_matches search_query_id h
    (RawRow n search_query_id source (dict_set "_hash" (PStr h) d)) = true.
Proof.
  unfold row_matches. cbn [row_search_query_id row_raw].
  rewrite Z.eqb_refl, PyFacts.dict_get_set_eq, String.eqb_refl. reflexivity.
Qed.

(** A row written for the key [(q', h')] answers the lookup for [(q, h)]
    only when the keys agree. *)
Lemma new_row_matches_inv (q q' : Z) (source h h' : string) (d : pydict) (n : Z) :
  row_matches q h (RawRow n q' source (dict_set "_hash" (PStr h') d)) = true →
  q' = q ∧ h' = h.
Proof.
  unfold row_matches. cbn [row_search_query_id row_raw].
  rewrite PyFacts.dict_get_set_eq. intros Hm.
  apply andb_true_iff in Hm as [Hq Hh].
  apply Z.eqb_eq in Hq. apply String.eqb_eq in Hh. auto.
Qed.

Lemma find_app_some {A} (p : A → bool) (l l' : list A) (x : A) :
  find p l = Some x → find p (l ++ l') = Some x.
Proof.
  induction l as [|a l IH]; simpl; [discriminate|].
  destruct (p a); auto.
Qed.

Lemma find_none_filter {A} (p : A → bool) (l : list A) :
  find p l = None → List.filter p l = [].
Proof.
  induction l as [|a l IH]; simpl; [reflexivity|].
  destruct (p a); [discriminate|auto].
Qed.

Lemma find_some_filter {A} (p : A → bool) (l : list A) (x : A) :
  find p l = Some x → (1 ≤ length (List.filter p l))%nat.
Proof.
  induction l as [|a l IH]; simpl; [discriminate|].
  destruct (p a); simpl; [lia|auto].
Qed.

(** One call keeps the first answer to a lookup that already had one, and
    does not add a second row for a key that already had one. *)
Lemma run_call_keeps_match (k : call) (q : Z) (h : string) (r : raw_row) (c : db) :
  find (row_matches q h) (rows c) = Some r →
  find (row_matches q h) (rows (run_call sha256_hex c k)) = Some r
  ∧ count_rows q h (run_call sha256_hex c k) = count_rows q h c.
Proof.
  intros Hfind. unfold run_call. rewrite call_insert_cases.
  assert (∀ d, find (row_matches q h)
                 (rows (snd (failed_call (call_faults k) d c))) = Some r
               ∧ count_rows q h (snd (failed_call (call_faults k) d c))
                 = count_rows q h c) as Hfail.
  { intros d. unfold count_rows.
    rewrite (proj1 (failed_call_table _ _ _)). auto. }
  destruct (json_dumps_sorted _) as [text|]; [|apply Hfail].
  cbn zeta. destruct (json_dumps _); [|apply Hfail].
  destruct (select_fault _); [apply Hfail|].
  destruct (find (row_matches (call_search_query_id k) (sha256_hex text)) (rows c))
    as [r'|] eqn:Hf'; [auto|].
  destruct (insert_fault _); [apply Hfail|].
  cbn [snd with_row rows]. unfold count_rows, with_row. cbn [rows].
  split; [apply find_app_some; exact Hfind|].
  rewrite List.filter_app, length_app. cbn [List.filter].
  destruct (row_matches q h _) eqn:Hm; [|simpl; lia].
  apply new_row_matches_inv in Hm as [Hq Hh]. rewrite Hq, Hh in Hf'. congruence.
Qed.

Lemma run_calls_keep_match (ks : list call) (q : Z) (h : string) (r : raw_row) :
  ∀ c, find (row_matches q h) (rows c) = Some r →
       find (row_matches q h) (rows (run_calls sha256_hex ks c)) = Some r
       ∧ count_rows q h (run_calls sha256_hex ks c) = count_rows q h c.
Proof.
  induction ks as [|k ks IH]; intros c Hfind; simpl; [auto|].
  destruct (run_call_keeps_match k q h r c Hfind) as [Hf Hc].
  destruct (IH _ Hf) as [Hf' Hc']. split; [exact Hf'|congruence].
Qed.

(** C3 (amended).  Two inserts for the same search with dicts of equal
    canonical serialisation, both served by the datastore, return the
    same row id, whatever other inserts happen in between, and the table
    then holds exactly one row for that search and content hash, provided
    it did not hold two before. *)
Theorem insert_search_result_raw_idempotent
    (search_query_id : Z) (source1 source2 : string) (d1 d2 : pydict)
    (text : string) (between : list call) (c0 : db) :
  json_dumps_sorted (PDict d1) = Some text →
  json_dumps_sorted (PDict d2) = Some text →
  is_Some (json_dumps (PDict (dict_set "_hash" (PStr (sha256_hex text)) d1))) →
  is_Some (json_dumps (PDict (dict_set "_hash" (PStr (sha256_hex text)) d2))) →
  (count_rows search_query_id (sha256_hex text) c0 ≤ 1)%nat →
  ∃ (id : Z) (d1' d2' : pydict) (c1 c3 : db),
    call_insert sha256_hex no_faults search_query_id source1 d1 c0
      = (Ok id, d1', c1)
    ∧ call_insert sha256_hex no_faults search_query_id source2 d2
        (run_calls sha256_hex between c1) = (Ok id, d2', c3)
    ∧ count_rows search_query_id (sha256_hex text) c3 = 1%nat.
Proof.
  intros Hd1 Hd2 [j1 Hj1] [j2 Hj2] Hcount.
  set (h := sha256_hex text) in *.
  assert (∃ r c1 d1',
            call_insert sha256_hex no_faults search_query_id source1 d1 c0
              = (Ok (row_id r), d1', c1)
            ∧ find (row_matches search_query_id h) (rows c1) = Some r
            ∧ count_rows search_query_id h c1 = 1%nat) as (r & c1 & d1' & Hc1 & Hf1 & Hn1).
  { rewrite call_insert_cases, Hd1. cbn zeta. fold h. rewrite Hj1.
    cbn [select_fault insert_fault no_faults].
    destruct (find _ (rows c0)) as [r|] eqn:Hf.
    - exists r, c0, (dict_set "_hash" (PStr h) d1).
      split; [reflexivity|]. split; [exact Hf|].
      apply find_some_filter in Hf. unfold count_rows in *. lia.
    - eexists (RawRow (next_id c0) search_query_id source1 _), _, _.
      split; [reflexivity|]. unfold with_row. cbn [rows]. split.
      + assert (∀ l : list raw_row, find (row_matches search_query_id h) l = None →
                  ∀ x, row_matches search_query_id h x = true →
                       find (row_matches search_query_id h) (l ++ [x]) = Some x)
          as Hgen.
        { induction l as [|a l IH]; simpl; intros Hl x Hx.
          - rewrite Hx. reflexivity.
          - destruct (row_matches search_query_id h a); [discriminate|auto]. }
        apply Hgen; [exact Hf|apply new_row_matches].
      + unfold count_rows. cbn [rows].
        rewrite List.filter_app, length_app, (find_none_filter _ _ Hf).
        cbn [List.filter]. rewrite new_row_matches. reflexivity. }
  destruct (run_calls_keep_match between search_query_id h r c1 Hf1) as [Hf2 Hn2].
  exists (row_id r), d1', (dict_set "_hash" (PStr h) d2), c1,
    (run_calls sha256_hex between c1).
  split; [exact Hc1|]. split.
  - rewrite call_insert_cases, Hd2. cbn zeta. fold h. rewrite Hj2.
    cbn [select_fault insert_fault no_faults]. rewrite Hf2. reflexivity.
  - congruence.
Qed.


End Facts.

Lemma insert_search_result_raw_idempotent_witness :
  let doc := [("title", PStr "x")] in
  let text := default "" (JsonFrag.dumps_with true false (PDict doc)) in
  ∃ (id : Z) (d1' d2' : pydict) (c1 c3 : db),
    call_insert (H := JsonFrag.codec) Examples.toy_hash no_faults 5 "SERPER"
      doc empty_db = (Ok id, d1', c1)
    ∧ call_insert (H := JsonFrag.codec) Examples.toy_hash no_faults 5 "USPTO"
        doc (run_calls (H := JsonFrag.codec) Examples.toy_hash [] c1)
      = (Ok id, d2', c3)
    ∧ count_rows 5 (Examples.toy_hash text) c3 = 1%nat.
Proof.
  intros doc text.
  exact (insert_search_result_raw_idempotent (H := JsonFrag.codec)
           Examples.toy_hash 5 "SERPER" "USPTO" doc doc text [] empty_db
           eq_refl eq_refl
           ltac:(vm_compute; eexists; reflexivity)
           ltac:(vm_compute; eexists; reflexivity)
           ltac:(vm_compute; lia)).
Defined.

(** C3 (counterexample).  The lookup fails on a table that holds the row
    the first call wrote: the second insert of the same content returns
    -1, not the row's id. *)
Lemma insert_search_result_raw_second_lookup_fails :
  let doc := [("title", PStr "x")] in
  let lookup_fails :=
    Faults (Some (Exn "DataError" "unsupported Unicode escape sequence"))
      None None in
  let first := call_insert (H := JsonFrag.codec) Examples.toy_hash no_faults
                 5 "SERPER" doc empty_db in
  let second := call_insert (H := JsonFrag.codec) Examples.toy_hash lookup_fails
                  5 "SERPER" doc (snd first) in
  fst (fst first) = Ok 1%Z
  ∧ fst (fst second) = Ok (-1)%Z
  ∧ fst (fst second) ≠ fst (fst first)
  ∧ length (rows (snd second)) = 1%nat.
Proof. vm_compute. repeat split. discriminate. Qed.



End PersistFacts.

(** ** The pipeline flow *)

Module FlowFacts.

Import Tasks Flow.

Ltac monad_unfold :=
  unfold Py.bind, Py.try_, Py.ret, Py.raise, Py.gets, Py.modify, Py.lift,
    Py.when in *.

Ltac finish_post :=
  repeat split; try reflexivity; try discriminate; try (intros; congruence).

Section Facts.
Context `{Codec} `{PdfWorker.Env}.
Variable agents : IPAgents.

Lemma log_if_id_run (log_msg : string) (w : world) :
  log_if_id log_msg w =
  (Ok tt,
   if truthy_int (search_query_id (state w))
   then World (state w) (search_log w ++ [(search_query_id (state w), log_msg)])%list
          (query_status w) (job_store w)
   else w).
Proof.
  unfold log_if_id, insert_search_log. monad_unfold.
  destruct (truthy_int _); reflexivity.
Qed.

Lemma handle_error_run (step_name : string) (e : exn) (w : world) :
  ∃ w', _handle_error step_name e w = (Ok (error_text step_name e), w')
        ∧ state w' = with_error (Some (error_text step_name e)) (state w)
        ∧ job_store w' = job_store w.
Proof.
  unfold _handle_error. unfold Py.bind at 1. cbn [modify].
  unfold Py.bind at 1. rewrite log_if_id_run. cbn [ret].
  eexists. split; [reflexivity|].
  destruct (truthy_int _); split; reflexivity.
Qed.

Lemma iniciar_post (w : world) :
  ∃ o w', iniciar_pesquisa w = (Ok o, w') ∧ payloads w' = payloads w
          ∧ search_criteria (state w') = search_criteria (state w)
          ∧ search_query_id (state w') = search_query_id (state w).
Proof.
  unfold iniciar_pesquisa. unfold Py.bind at 1. cbn [gets].
  destruct (_ || _).
  - destruct (handle_error_run "iniciar_pesquisa"
                (Exn "ValueError"
                   "Critério de busca ou ID da busca não foram definidos no estado inicial.") w)
      as (w' & -> & Hs & _).
    eexists _, _. split; [reflexivity|]. unfold payloads. rewrite Hs. auto.
  - eexists _, _. split; [reflexivity|]. auto.
Qed.

Lemma coletar_post (prev : string) (w : world) :
  ∃ o w', coletar_dados agents prev w = (Ok o, w')
          ∧ classified_data_json (state w') = classified_data_json (state w)
          ∧ analysis_results_json (state w') = analysis_results_json (state w)
          ∧ (has_error w = true → w' = w ∧ o = prev)
          ∧ (has_error w' = true →
             raw_data_json (state w') = raw_data_json (state w)).
Proof.
  unfold coletar_dados, has_error. unfold Py.bind at 1. cbn [gets].
  destruct (truthy_str (error_message (state w))) eqn:He.
  { eexists _, _. split; [reflexivity|]. auto. }
  unfold try_ at 1. unfold Py.bind at 1. unfold Persist.dumps_or_raise.
  destruct (json_dumps_ascii _) as [task_input|].
  2:{ cbn [raise].
      destruct (handle_error_run "coletar_dados"
                  (Exn "TypeError" "Object is not JSON serializable") w)
        as (w' & -> & Hs & _).
      eexists _, _. split; [reflexivity|]. rewrite Hs.
      repeat split; try discriminate. }
  cbn [ret]. unfold Py.bind at 1. unfold try_ at 1, run_task, lift.
  destruct (fst (execute_task _ _ _ _ _)) as [out|e].
  - eexists _, _. split; [reflexivity|]. cbn.
    rewrite He. repeat split; discriminate.
  - cbn [raise].
    match goal with
    | |- context [_handle_error ?st ?ex ?ww] =>
        destruct (handle_error_run st ex ww) as (w' & -> & Hs & _)
    end.
    eexists _, _. split; [reflexivity|]. rewrite Hs.
    repeat split; try discriminate.
Qed.


Lemma classificar_post (prev : string) (w : world) :
  ∃ o w', classificar_dados agents prev w = (Ok o, w')
          ∧ raw_data_json (state w') = raw_data_json (state w)
          ∧ analysis_results_json (state w') = analysis_results_json (state w)
          ∧ error_message (state w') = error_message (state w)
          ∧ (truthy_str (raw_data_json (state w)) = false → w' = w ∧ o = prev).
Proof.
  unfold classificar_dados. unfold Py.bind at 1. cbn [gets].
  destruct (truthy_str (raw_data_json (state w))) eqn:Hr; cbn [negb].
  2:{ eexists _, _. split; [reflexivity|]. auto. }
  unfold try_ at 1. unfold Py.bind at 1. unfold try_ at 1, run_task, lift.
  destruct (fst (execute_task _ _ _ _ _)) as [out|e].
  - unfold Py.bind at 1. cbn [modify]. unfold Py.bind at 1.
    rewrite log_if_id_run. cbn [ret].
    eexists _, _. split; [reflexivity|].
    destruct (truthy_int _); cbn; finish_post.
  - unfold Py.bind at 1. rewrite log_if_id_run. cbn [raise].
    unfold Py.bind at 1. rewrite log_if_id_run. cbn [ret].
    eexists _, _. split; [reflexivity|].
    destruct (truthy_int (search_query_id (state w))) eqn:Hi; cbn;
      rewrite ?Hi; cbn; finish_post.
Qed.

Lemma analisar_post (prev : string) (w : world) :
  ∃ o w', analisar_dados agents prev w = (Ok o, w')
          ∧ raw_data_json (state w') = raw_data_json (state w)
          ∧ classified_data_json (state w') = classified_data_json (state w)
          ∧ (truthy_str (classified_data_json (state w)) = false →
             w' = w ∧ o = prev)
          ∧ (has_error w = false → has_error w' = true →
             analysis_results_json (state w') = analysis_results_json (state w)).
Proof.
  unfold analisar_dados, has_error. unfold Py.bind at 1. cbn [gets].
  destruct (truthy_str (classified_data_json (state w))) eqn:Hc; cbn [negb].
  2:{ eexists _, _. split; [reflexivity|]. auto. }
  unfold try_ at 1. unfold Py.bind at 1. unfold try_ at 1, run_task, lift.
  destruct (fst (execute_task _ _ _ _ _)) as [out|e].
  - eexists _, _. split; [reflexivity|]. cbn. finish_post.
  - cbn [raise].
    match goal with
    | |- context [_handle_error ?st ?ex ?ww] =>
        destruct (handle_error_run st ex ww) as (w' & -> & Hs & _)
    end.
    eexists _, _. split; [reflexivity|]. rewrite Hs. finish_post.
Qed.

Lemma gerar_post (prev : string) (w : world) :
  ∃ o w', gerar_visualizacoes agents prev w = (Ok o, w')
          ∧ raw_data_json (state w') = raw_data_json (state w)
          ∧ classified_data_json (state w') = classified_data_json (state w)
          ∧ analysis_results_json (state w') = analysis_results_json (state w)
          ∧ (truthy_str (analysis_results_json (state w)) = false →
             w' = w ∧ o = prev).
Proof.
  unfold gerar_visualizacoes. unfold Py.bind at 1. cbn [gets].
  destruct (truthy_str (analysis_results_json (state w))) eqn:Ha; cbn [negb].
  2:{ eexists _, _. split; [reflexivity|]. auto. }
  unfold try_ at 1. unfold Py.bind at 1. unfold try_ at 1, run_task, lift.
  destruct (fst (execute_task _ _ _ _ _)) as [out|e].
  - eexists _, _. split; [reflexivity|]. cbn. finish_post.
  - unfold Py.bind at 1. rewrite log_if_id_run. cbn [raise].
    unfold Py.bind at 1. rewrite log_if_id_run.
    match goal with
    | |- context [_handle_error ?st ?ex ?ww] =>
        destruct (handle_error_run st ex ww) as (w' & -> & Hs & _)
    end.
    eexists _, _. split; [reflexivity|]. rewrite Hs.
    destruct (truthy_int (search_query_id (state w))) eqn:Hi; cbn;
      rewrite ?Hi; cbn; finish_post.
Qed.


Lemma coletar_skip (prev : string) (w : world) :
  has_error w = true → coletar_dados agents prev w = (Ok prev, w).
Proof.
  intros He. destruct (coletar_post prev w) as (o & w' & -> & _ & _ & Hsk & _).
  destruct (Hsk He) as [-> ->]. reflexivity.
Qed.

Lemma classificar_skip (prev : string) (w : world) :
  truthy_str (raw_data_json (state w)) = false →
  classificar_dados agents prev w = (Ok prev, w).
Proof.
  intros Hr. destruct (classificar_post prev w) as (o & w' & -> & _ & _ & _ & Hsk).
  destruct (Hsk Hr) as [-> ->]. reflexivity.
Qed.

Lemma analisar_skip (prev : string) (w : world) :
  truthy_str (classified_data_json (state w)) = false →
  analisar_dados agents prev w = (Ok prev, w).
Proof.
  intros Hc. destruct (analisar_post prev w) as (o & w' & -> & _ & _ & Hsk & _).
  destruct (Hsk Hc) as [-> ->]. reflexivity.
Qed.

Lemma gerar_skip (prev : string) (w : world) :
  truthy_str (analysis_results_json (state w)) = false →
  gerar_visualizacoes agents prev w = (Ok prev, w).
Proof.
  intros Ha. destruct (gerar_post prev w) as (o & w' & -> & _ & _ & _ & Hsk).
  destruct (Hsk Ha) as [-> ->]. reflexivity.
Qed.

(** With all three inputs absent the last three listeners do nothing. *)
Lemma chain_skips_without_inputs (prev : string) (w : world) :
  truthy_str (raw_data_json (state w)) = false →
  truthy_str (classified_data_json (state w)) = false →
  truthy_str (analysis_results_json (state w)) = false →
  run_chain [classificar_dados agents; analisar_dados agents;
             gerar_visualizacoes agents] prev w = (Ok prev, w).
Proof.
  intros Hr Hc Ha. cbn [run_chain]. unfold Py.bind.
  rewrite (classificar_skip _ _ Hr), (analisar_skip _ _ Hc), (gerar_skip _ _ Ha).
  reflexivity.
Qed.

(** C2 (amended).  In a run whose initial state has no raw, classified or
    analysis payload, as the service creates it, once [error_message] is
    set after the start method or after any listener, the remaining
    listeners return the previous output and leave the whole world, the
    payload fields included, as it was: [coletar_dados] because it tests
    [error_message], the later ones because the payload they read is
    absent. *)
Theorem error_short_circuits_fresh_run (k : nat) (w0 w1 : world) (o : string) :
  truthy_str (raw_data_json (state w0)) = false →
  truthy_str (classified_data_json (state w0)) = false →
  truthy_str (analysis_results_json (state w0)) = false →
  run_prefix agents k w0 = (Ok o, w1) →
  has_error w1 = true →
  run_chain (drop k (listeners agents)) o w1 = (Ok o, w1)
  ∧ payloads (snd (run_chain (drop k (listeners agents)) o w1)) = payloads w1.
Proof.
  intros Hr0 Hc0 Ha0 Hrun He.
  cut (run_chain (drop k (listeners agents)) o w1 = (Ok o, w1)).
  { intros ->. auto. }
  unfold run_prefix in Hrun. unfold Py.bind at 1 in Hrun.
  destruct (iniciar_post w0) as (oi & wi & Hi & Hp & _).
  rewrite Hi in Hrun. unfold payloads in Hp.
  injection Hp as Hri Hci Hai _.
  rewrite <- Hri in Hr0. rewrite <- Hci in Hc0. rewrite <- Hai in Ha0.
  clear Hi Hri Hci Hai w0.
  unfold listeners in *.
  destruct k as [|k].
  { cbn [take run_chain ret] in Hrun. injection Hrun as -> ->.
    cbn [drop]. cbn [run_chain]. unfold Py.bind at 1.
    rewrite (coletar_skip _ _ He).
    apply chain_skips_without_inputs; assumption. }
  cbn [take run_chain] in Hrun. unfold Py.bind at 1 in Hrun.
  destruct (coletar_post oi wi) as (oc & wc & Hcol & Hcc & Hca & _ & Hcr).
  rewrite Hcol in Hrun. rewrite <- Hcc in Hc0. rewrite <- Hca in Ha0.
  clear Hcol Hcc Hca.
  destruct k as [|k].
  { cbn [take run_chain ret] in Hrun. injection Hrun as -> ->.
    cbn [drop]. apply chain_skips_without_inputs; try assumption.
    rewrite (Hcr He). exact Hr0. }
  cbn [take run_chain] in Hrun. unfold Py.bind at 1 in Hrun.
  destruct (classificar_post oc wc) as (ol & wl & Hcl & Hlr & Hla & Hle & Hlsk).
  rewrite Hcl in Hrun. clear Hcl.
  assert (has_error wl = has_error wc) as Hel
    by (unfold has_error; rewrite Hle; reflexivity).
  destruct k as [|k].
  { cbn [take run_chain ret] in Hrun. injection Hrun as -> ->.
    cbn [drop run_chain]. unfold Py.bind.
    rewrite Hel in He. rewrite (Hcr He) in Hlsk.
    destruct (Hlsk Hr0) as [-> ->].
    rewrite (analisar_skip _ _ Hc0), (gerar_skip _ _ Ha0). reflexivity. }
  cbn [take run_chain] in Hrun. unfold Py.bind at 1 in Hrun.
  destruct (analisar_post ol wl) as (oa & wa & Han & _ & _ & Hask & Haerr).
  rewrite Han in Hrun. clear Han.
  destruct k as [|k].
  { cbn [take run_chain ret] in Hrun. injection Hrun as -> ->.
    cbn [drop run_chain]. unfold Py.bind.
    assert (truthy_str (analysis_results_json (state w1)) = false) as Ha1.
    { destruct (has_error wc) eqn:Hewc.
      - rewrite (Hcr eq_refl) in Hlsk. destruct (Hlsk Hr0) as [-> _].
        destruct (Hask Hc0) as [-> _]. exact Ha0.
      - rewrite (Haerr Hel He), Hla. exact Ha0. }
    rewrite (gerar_skip _ _ Ha1). reflexivity. }
  cbn [take run_chain] in Hrun. unfold Py.bind at 1 in Hrun.
  destruct (gerar_post oa wa) as (og & wg & Hg & _).
  rewrite Hg in Hrun.
  replace (take k []) with (@nil (string → M world string)) in Hrun
    by (destruct k; reflexivity).
  cbn [run_chain ret] in Hrun. injection Hrun as -> ->.
  cbn [drop]. replace (drop k []) with (@nil (string → M world string))
    by (destruct k; reflexivity).
  reflexivity.
Qed.

Lemma in_jobs_enqueue (results : pyval) (id : option Z) (w : world) :
  in_jobs (PdfWorker.enqueue_pdf_job results None id PdfWorker.title_prefix_default) w
  = (fst (PdfWorker.enqueue_pdf_job results None id PdfWorker.title_prefix_default
            (job_store w)),
     World (state w) (search_log w) (query_status w)
       (snd (PdfWorker.enqueue_pdf_job results None id
               PdfWorker.title_prefix_default (job_store w)))).
Proof. unfold in_jobs. destruct (PdfWorker.enqueue_pdf_job _ _ _ _ _). reflexivity. Qed.

(** The steps behind [report_inputs]. *)
Lemma report_inputs_ok (s : PropriedadeIntelectualState) (parts : report_parts) :
  report_inputs s = Ok parts →
  _safe_json_load (classified_data_json s) (PList []) = Ok (part_classified parts)
  ∧ _safe_json_load (analysis_results_json s) (PDict []) = Ok (part_analysis parts)
  ∧ _safe_json_load (visualizations_json s) (PDict [])
    = Ok (part_visualizations parts)
  ∧ (∃ raw_data, _safe_json_load (raw_data_json s) (PList []) = Ok raw_data
                 ∧ py_len raw_data = Ok (part_collected parts))
  ∧ py_get (part_analysis parts) "insights" no_insight = Ok (part_insights parts).
Proof.
  unfold report_inputs, and_then.
  destruct (_safe_json_load (classified_data_json s) _) as [c|]; [|discriminate].
  destruct (_safe_json_load (analysis_results_json s) _) as [a|]; [|discriminate].
  destruct (_safe_json_load (visualizations_json s) _) as [v|]; [|discriminate].
  destruct (_safe_json_load (raw_data_json s) _) as [r|]; [|discriminate].
  destruct (py_len r) as [n|] eqn:Hn; [|discriminate].
  destruct (py_get a "insights" no_insight) as [i|] eqn:Hi; [|discriminate].
  intros [= <-]. cbn. eauto 10.
Qed.

(** Report generation when the payloads decode and [len(raw_data)] and
    [analysis_results.get] are defined. *)
Lemma generate_final_report_ok (w : world) (parts : report_parts) :
  report_inputs (state w) = Ok parts →
  let s := state w in
  let base := report_fields agents s (part_collected parts)
                (part_classified parts) (part_analysis parts)
                (part_visualizations parts) (part_insights parts) in
  let js := job_store w in
  let meta := PdfWorker.initial_meta (PdfWorker.uuid4_str (PdfWorker.uuids js))
                (PdfWorker.default_output_path PdfWorker.title_prefix_default
                   (PdfWorker.utcnow_stamp (PdfWorker.clock js)))
                (PdfWorker.utcnow_iso (S (PdfWorker.clock js)))
                (of_opt_int (search_query_id s))
                (PdfWorker.llm_model_of (PDict base)) in
  let report := dict_set "pdf_job" (pdf_job_ref meta) base in
  ∃ w', _generate_final_report agents w = (Ok (PDict report), w')
        ∧ state w' = with_final_report report s
        ∧ job_store w' =
            snd (PdfWorker.enqueue_pdf_job (PDict base) None (search_query_id s)
                   PdfWorker.title_prefix_default js)
        ∧ ∃ more, search_log w' = (search_log w ++ more)%list.
Proof.
  intros Hparts s base js meta report.
  destruct (report_inputs_ok _ _ Hparts)
    as (Hc & Ha & Hv & (raw_data & Hr & Hn) & Hins).
  fold s in Hc, Ha, Hv, Hr.
  unfold _generate_final_report. unfold try_ at 1.
  unfold Py.bind at 1. cbn [gets]. fold s.
  unfold Py.bind at 1. unfold lift at 1. rewrite Hc.
  unfold Py.bind at 1. unfold lift at 1. rewrite Ha.
  unfold Py.bind at 1. unfold lift at 1. rewrite Hv.
  unfold Py.bind at 1. unfold lift at 1. rewrite Hr.
  unfold Py.bind at 1. unfold lift at 1. rewrite Hn.
  unfold Py.bind at 1. unfold lift at 1. rewrite Hins.
  unfold Py.bind at 1. cbn [modify]. fold base.
  unfold Py.bind at 1.
  set (w1 := set_state (with_final_report base) w).
  assert (∃ w2, when (truthy_int (search_query_id s))
                  (try_ (do! update_search_query_status (search_query_id s) "completed"
                         in insert_search_log (search_query_id s)
                              "Fluxo concluído e relatório final gerado.")
                     (fun _ => ret tt)) w1 = (Ok tt, w2)
                ∧ state w2 = state w1 ∧ job_store w2 = job_store w1
                ∧ ∃ more, search_log w2 = (search_log w1 ++ more)%list)
    as (w2 & -> & Hs2 & Hj2 & more2 & Hl2).
  { unfold when. destruct (truthy_int _).
    - eexists. split; [reflexivity|]. cbn. repeat split. eexists. reflexivity.
    - eexists. split; [reflexivity|]. repeat split. exists []. rewrite app_nil_r. reflexivity. }
  unfold Py.bind at 1. unfold try_ at 1.
  unfold Py.bind at 1. cbn [gets]. rewrite Hs2. cbn [w1 set_state state with_final_report final_report].
  unfold Py.bind at 1. rewrite in_jobs_enqueue.
  rewrite Hj2. cbn [w1 set_state job_store]. fold js.
  rewrite (PdfWorkerFacts.enqueue_pdf_job_run (PDict base) None (search_query_id s)
             PdfWorker.title_prefix_default js).
  cbn zeta. cbn [fst snd default from_option id]. fold meta.
  unfold Py.bind at 1. cbn [modify].
  rewrite log_if_id_run.
  unfold Py.bind at 1. cbn [gets ret].
  cbn [state set_state search_query_id with_final_report final_report
       job_store search_log].
  rewrite ?Hs2.
  cbn [w1 state set_state search_query_id with_final_report final_report
       job_store search_log].
  fold s. fold report.
  destruct (truthy_int (search_query_id s));
    cbn [state set_state search_query_id with_final_report final_report
         job_store search_log];
    (eexists; split; [reflexivity|]);
    cbn [state set_state search_query_id with_final_report final_report
         job_store search_log raw_data_json classified_data_json
         analysis_results_json visualizations_json error_message
         search_criteria];
    rewrite ?Hl2; cbn [w1 search_log set_state];
    (split; [reflexivity|]); (split; [reflexivity|]).
  - eexists. rewrite <- app_assoc. reflexivity.
  - eexists. reflexivity.
Qed.

(** Report generation when a decoding, [len(raw_data)] or
    [analysis_results.get] raises: the handler records the error and the
    report is not assigned. *)
Lemma generate_final_report_fails (w : world) (e : exn) :
  report_inputs (state w) = Raise e →
  ∃ w', _generate_final_report agents w
          = (Ok (PStr (error_text "generate_final_report" e)), w')
        ∧ state w' =
            with_error (Some (error_text "generate_final_report" e)) (state w)
        ∧ job_store w' = job_store w.
Proof.
  intros Hcase.
  assert (∀ w0 : world, state w0 = state w → job_store w0 = job_store w →
            ∃ w', (do! log_if_id ("Erro ao gerar relatório final: " +:+ exn_str e)
                   in let! msg := _handle_error "generate_final_report" e
                      in ret (PStr msg)) w0
                  = (Ok (PStr (error_text "generate_final_report" e)), w')
                  ∧ state w' =
                      with_error (Some (error_text "generate_final_report" e))
                        (state w)
                  ∧ job_store w' = job_store w) as Hhandler.
  { intros w0 Hs0 Hj0. unfold Py.bind at 1. rewrite log_if_id_run.
    unfold Py.bind at 1.
    match goal with
    | |- context [_handle_error ?st ?ex ?ww] =>
        destruct (handle_error_run st ex ww) as (w' & -> & Hs & Hj)
    end.
    cbn [ret]. eexists. split; [reflexivity|]. rewrite Hs, Hj.
    destruct (truthy_int _); cbn [state job_store]; rewrite <- ?Hs0, <- ?Hj0; auto. }
  unfold report_inputs, and_then in Hcase.
  unfold _generate_final_report. unfold try_ at 1.
  unfold Py.bind at 1. cbn [gets].
  unfold Py.bind at 1. unfold lift at 1.
  destruct (_safe_json_load (classified_data_json (state w)) _) as [c|e1];
    [|injection Hcase as ->; apply Hhandler; reflexivity].
  unfold Py.bind at 1. unfold lift at 1.
  destruct (_safe_json_load (analysis_results_json (state w)) _) as [a|e1];
    [|injection Hcase as ->; apply Hhandler; reflexivity].
  unfold Py.bind at 1. unfold lift at 1.
  destruct (_safe_json_load (visualizations_json (state w)) _) as [v|e1];
    [|injection Hcase as ->; apply Hhandler; reflexivity].
  unfold Py.bind at 1. unfold lift at 1.
  destruct (_safe_json_load (raw_data_json (state w)) _) as [r|e1];
    [|injection Hcase as ->; apply Hhandler; reflexivity].
  unfold Py.bind at 1. unfold lift at 1.
  destruct (py_len r) as [n|e1];
    [|injection Hcase as ->; apply Hhandler; reflexivity].
  unfold Py.bind at 1. unfold lift at 1.
  destruct (py_get a "insights" no_insight) as [i|e1];
    [discriminate|injection Hcase as ->; apply Hhandler; reflexivity].
Qed.

Lemma run_stages_ok (w : world) :
  ∃ o w', run_stages agents w = (Ok o, w').
Proof.
  unfold run_stages, listeners. cbn [run_chain]. unfold Py.bind.
  destruct (iniciar_post w) as (o0 & w0 & -> & _).
  destruct (coletar_post o0 w0) as (o1 & w1 & -> & _).
  destruct (classificar_post o1 w1) as (o2 & w2 & -> & _).
  destruct (analisar_post o2 w2) as (o3 & w3 & -> & _).
  destruct (gerar_post o3 w3) as (o4 & w4 & -> & _).
  eexists _, _. reflexivity.
Qed.

Lemma kickoff_run (initial : option PropriedadeIntelectualState)
    (w0 w1 w2 : world) (o : string) (r : pyval) :
  run_stages agents (start_world initial w0) = (Ok o, w1) →
  _generate_final_report agents w1 = (Ok r, w2) →
  kickoff agents initial w0 = (Ok (final_report (state w2)), w2).
Proof.
  intros Hst Hrep. unfold kickoff, Py.bind.
  destruct initial as [s0|]; cbn [modify ret start_world] in *;
    rewrite Hst, Hrep; reflexivity.
Qed.

(** The helper returns the default for an absent payload and for one
    whose decoding raises one of the two classes it catches, the decoded
    value when there is one, and lets any other exception through. *)
Lemma safe_json_load_cases (j : option string) (dflt : pyval) :
  (truthy_str j = false → _safe_json_load j dflt = Ok dflt)
  ∧ (∀ v, truthy_str j = true → json_loads (default "" j) = Some v →
          _safe_json_load j dflt = Ok v)
  ∧ (truthy_str j = true → json_loads (default "" j) = None →
     caught_by_safe_load (json_loads_error (default "" j)) = true →
     _safe_json_load j dflt = Ok dflt)
  ∧ (truthy_str j = true → json_loads (default "" j) = None →
     caught_by_safe_load (json_loads_error (default "" j)) = false →
     _safe_json_load j dflt = Raise (json_loads_error (default "" j))).
Proof.
  unfold _safe_json_load. repeat split.
  - intros ->. reflexivity.
  - intros v -> ->. reflexivity.
  - intros -> -> ->. reflexivity.
  - intros -> -> ->. reflexivity.
Qed.

(** X28.  A run never raises and returns the dict held in
    [final_report].  Whenever the payloads of the final state decode and
    the decoded raw data has a length and the decoded analysis is an
    object, that dict contains [search_criteria], [data_collected] (the
    length of the decoded raw data) and the decoded [classified_data],
    [analysis_results] and [visualizations]. *)
Theorem kickoff_returns_report
    (initial : option PropriedadeIntelectualState) (w0 : world) :
  ∃ (report : pydict) (w' : world),
    kickoff agents initial w0 = (Ok report, w')
    ∧ report = final_report (state w')
    ∧ (∀ parts,
         report_inputs (state w') = Ok parts →
         dict_get "search_criteria" report
           = Some (PStr (search_criteria (state w')))
         ∧ dict_get "data_collected" report = Some (PInt (part_collected parts))
         ∧ dict_get "classified_data" report = Some (part_classified parts)
         ∧ dict_get "analysis_results" report = Some (part_analysis parts)
         ∧ dict_get "visualizations" report = Some (part_visualizations parts)).
Proof.
  destruct (run_stages_ok (start_world initial w0)) as (o & w1 & Hst).
  destruct (report_inputs (state w1)) as [parts1|e] eqn:Hin.
  2:{ destruct (generate_final_report_fails w1 e Hin) as (w2 & Hrep & Hs2 & _).
      eexists _, w2. split; [exact (kickoff_run _ _ _ _ _ _ Hst Hrep)|].
      split; [reflexivity|].
      intros parts Hp. rewrite Hs2 in Hp. unfold report_inputs in *.
      cbn [raw_data_json analysis_results_json classified_data_json
           visualizations_json with_error] in Hp. congruence. }
  destruct (generate_final_report_ok w1 parts1 Hin) as (w2 & Hrep & Hs2 & _).
  eexists _, w2. split; [exact (kickoff_run _ _ _ _ _ _ Hst Hrep)|].
  split; [reflexivity|].
  intros parts Hp. rewrite Hs2 in *. unfold report_inputs in *.
  cbn [raw_data_json analysis_results_json classified_data_json
       visualizations_json search_criteria final_report with_final_report] in *.
  rewrite Hin in Hp. injection Hp as <-.
  unfold report_fields. rewrite !PyFacts.dict_get_set. cbn. auto.
Qed.






End Facts.

(** C2 (counterexample).  [kickoff] accepts a state whose payload fields
    are already filled in.  With an empty criteria the start method
    records an error, [classified_data_json] being unset; the
    classification listener, which tests the raw payload and not the error,
    then runs its tool and sets the field. *)
Lemma error_does_not_stop_classification :
  let w0 := World Examples.prefilled_invalid [] [] PdfWorker.empty_store in
  let r1 := iniciar_pesquisa w0 in
  let w1 := snd r1 in
  let o1 := match fst r1 with Ok o => o | Raise _ => "" end in
  let w2 := snd (run_chain (listeners (H := JsonFrag.codec) Examples.agents_ok)
                   o1 w1) in
  is_ok (fst r1) = true
  ∧ has_error w1 = true
  ∧ classified_data_json (state w1) = None
  ∧ classified_data_json (state w2) = Some "[]"
  ∧ payloads w2 ≠ payloads w1.
Proof. vm_compute. repeat split; discriminate. Qed.

Lemma error_short_circuits_fresh_run_witness :
  let w0 := World (service_state 7 "patentes") [] [] PdfWorker.empty_store in
  let r := run_prefix (H := JsonFrag.codec) Examples.agents_collector_down 1 w0 in
  ∃ o, fst r = Ok o
       ∧ has_error (snd r) = true
       ∧ run_chain (drop 1 (listeners (H := JsonFrag.codec)
                              Examples.agents_collector_down)) o (snd r)
         = (Ok o, snd r).
Proof.
  intros w0 r.
  exists "Erro no passo 'coletar_dados': Falha ao executar task de coleta: Falha ao executar a task após 2 tentativas: boom".
  split; [vm_compute; reflexivity|]. split; [vm_compute; reflexivity|].
  refine (proj1 (error_short_circuits_fresh_run (H := JsonFrag.codec)
                   Examples.agents_collector_down 1 w0 (snd r) _
                   eq_refl eq_refl eq_refl _ _)).
  - vm_compute. reflexivity.
  - vm_compute. reflexivity.
Defined.

(** C1.  When the analysis capability answers with a JSON array, the
    payload decodes, [analysis_results.get] raises, the handler of
    [_generate_final_report] records the error, and [kickoff] returns the
    empty dict [final_report] still holds: no [search_criteria], no
    [data_collected], although the raw payload of the run holds two
    items. *)
Lemma kickoff_empty_report_on_array_analysis :
  let r := kickoff (H := JsonFrag.codec) (H0 := Examples.env)
             Examples.agents_analysis_array
             (Some (service_state 7 "patentes")) init_world in
  fst r = Ok []
  ∧ dict_get "search_criteria" [] = None
  ∧ dict_get "data_collected" [] = None
  ∧ raw_data_json (state (snd r)) = Some "[1, 2]"
  ∧ analysis_results_json (state (snd r)) = Some "[]"
  ∧ error_message (state (snd r))
    = Some "Erro no passo 'generate_final_report': 'list' object has no attribute 'get'".
Proof. vm_compute. repeat split. Qed.

Lemma kickoff_returns_report_witness :
  ∃ report,
    fst (kickoff (H := JsonFrag.codec) (H0 := Examples.env) Examples.agents_ok
           (Some (service_state 7 "patentes")) init_world) = Ok report
    ∧ dict_get "search_criteria" report = Some (PStr "patentes")
    ∧ dict_get "data_collected" report = Some (PInt 2).
Proof.
  destruct (kickoff_returns_report (H := JsonFrag.codec) (H0 := Examples.env)
              Examples.agents_ok (Some (service_state 7 "patentes")) init_world)
    as (report & w' & Hk & _ & Hkeys).
  exists report. rewrite Hk. split; [reflexivity|].
  assert (state w' = state (snd (kickoff (H := JsonFrag.codec) (H0 := Examples.env)
                                   Examples.agents_ok
                                   (Some (service_state 7 "patentes")) init_world)))
    as Hs by (rewrite Hk; reflexivity).
  destruct (Hkeys (Parts (PList []) (PDict []) (PDict []) 2 no_insight))
    as (Hc & Hn & _).
  - rewrite Hs. vm_compute. reflexivity.
  - split; [|exact Hn]. rewrite Hc, Hs. vm_compute. reflexivity.
Defined.



End FlowFacts.

(** ** More on the stage executor *)

Module TasksMore.

Import Tasks.

Section Facts.
Context `{Codec}.

Lemma find_split {A} (p : A → bool) (l : list A) (x : A) :
  find p l = Some x →
  p x = true ∧ ∃ l1 l2, l = (l1 ++ x :: l2)%list ∧ ∀ y, y ∈ l1 → p y = false.
Proof.
  induction l as [|a l IH]; simpl; [discriminate|].
  destruct (p a) eqn:Hpa.
  - intros [= <-]. split; [exact Hpa|]. exists [], l. split; [reflexivity|].
    intros y Hy. inversion Hy.
  - intros Hf. destruct (IH Hf) as (Hpx & l1 & l2 & -> & Hl1).
    split; [exact Hpx|]. exists (a :: l1), l2. split; [reflexivity|].
    intros y Hy. apply elem_of_cons in Hy as [->|Hy]; auto.
Qed.

Lemma choose_tool_in (tools : list tool) (cls name : option string) (c : tool) :
  choose_tool tools cls name = Some c → c ∈ tools.
Proof.
  unfold choose_tool. intros Hc.
  assert (∀ p, find p tools = Some c → c ∈ tools) as Hfind.
  { intros p Hf. destruct (find_split p tools c Hf) as (_ & l1 & l2 & -> & _).
    apply elem_of_app. right. apply elem_of_cons. left. reflexivity. }
  assert (head tools = Some c → c ∈ tools) as Hhead.
  { destruct tools; [discriminate|]. intros [= <-].
    apply elem_of_cons. left. reflexivity. }
  repeat case_match; simplify_eq; eauto.
Qed.

Lemma choose_tool_nonempty (tools : list tool) (cls name : option string) :
  tools ≠ [] → ∃ c, choose_tool tools cls name = Some c.
Proof.
  intros Hne. unfold choose_tool.
  destruct cls as [k|]; [destruct (find (λ t, isinstance t k) tools); [eauto|]|];
    (destruct (truthy_str name); [destruct (find _ tools); [eauto|]|]);
    destruct tools; try congruence; eauto.
Qed.

Lemma attempt_loop_first_event (c : tool) (input_str : string) (a n : nat)
    (last : option exn) :
  ∃ tr, snd (attempt_loop c input_str a (S n) last) = EvRun a input_str :: tr.
Proof.
  simpl. destruct (tool_run c a input_str); [eauto|].
  destruct (attempt_loop c input_str (S a) n (Some e)). eauto.
Qed.

(** X1.  A task without an agent, or whose agent has no tools, makes the
    executor raise its [RuntimeError] before anything is invoked; with at
    least one tool the executor always invokes one of the agent's own
    tools, at least once. *)
Theorem execute_task_needs_a_tool
    (t : task) (input_str : string) (cls name : option string) (retries : Z) :
  (task_agent t = None →
   execute_task t input_str cls name retries
   = (Raise (Exn "RuntimeError" "Task não possui agent associado"), []))
  ∧ (∀ ag, task_agent t = Some ag → default [] (agent_tools ag) = [] →
     execute_task t input_str cls name retries
     = (Raise (Exn "RuntimeError" "Agent não possui ferramenta executável"), []))
  ∧ (∀ ag, task_agent t = Some ag → default [] (agent_tools ag) ≠ [] →
     ∃ c tr, c ∈ default [] (agent_tools ag)
             ∧ choose_tool (default [] (agent_tools ag)) cls name = Some c
             ∧ snd (execute_task t input_str cls name retries)
               = EvRun 0 input_str :: tr).
Proof.
  split; [|split].
  - intros Hag. unfold execute_task. rewrite Hag. reflexivity.
  - intros ag Hag Hnil. unfold execute_task. rewrite Hag, Hnil.
    assert (choose_tool [] cls name = None) as ->; [|reflexivity].
    unfold choose_tool. destruct cls; destruct (truthy_str name); reflexivity.
  - intros ag Hag Hne.
    destruct (choose_tool_nonempty _ cls name Hne) as [c Hc].
    destruct (TasksFacts.attempts_of_pos retries) as [m Hm].
    destruct (attempt_loop_first_event c input_str 0 m None) as [tr Htr].
    exists c. unfold execute_task. rewrite Hag, Hc, Hm.
    destruct (attempt_loop c input_str 0 (S m) None) as [[out|last] tr'];
      cbn [snd] in *; subst tr'; exists tr;
      (split; [eapply choose_tool_in; exact Hc|split; reflexivity]).
Qed.

(** X2.  When some tool is an instance of the preferred class, the
    executor chooses the first such tool in the agent's list, whatever the
    preferred name; when none is and no name is preferred, it falls back to
    the first tool of the list. *)
Theorem choose_tool_prefers_class
    (tools : list tool) (cls : string) (name : option string) :
  (∀ t, t ∈ tools → isinstance t cls = true →
        ∃ c l1 l2, choose_tool tools (Some cls) name = Some c
                   ∧ isinstance c cls = true
                   ∧ tools = (l1 ++ c :: l2)%list
                   ∧ ∀ y, y ∈ l1 → isinstance y cls = false)
  ∧ ((∀ t, t ∈ tools → isinstance t cls = false) →
     choose_tool tools (Some cls) None = head tools).
Proof.
  split.
  - intros t Hin Hinst. unfold choose_tool.
    destruct (find (λ t, isinstance t cls) tools) as [c|] eqn:Hf.
    + destruct (find_split _ _ _ Hf) as (Hc & l1 & l2 & Hl & Hl1).
      exists c, l1, l2. auto.
    + exfalso. apply list_elem_of_In in Hin.
      pose proof (find_none _ _ Hf t Hin) as Hn. cbn in Hn. congruence.
  - intros Hnone. unfold choose_tool.
    destruct (find (λ t, isinstance t cls) tools) as [c|] eqn:Hf.
    + destruct (find_split _ _ _ Hf) as (Hc & l1 & l2 & -> & _).
      rewrite Hnone in Hc; [discriminate|].
      apply elem_of_app. right. apply elem_of_cons. left. reflexivity.
    + cbn [truthy_str]. destruct tools; reflexivity.
Qed.




Lemma attempt_loop_bounds (c : tool) (input_str : string) :
  ∀ n a last,
    (count_events is_run (snd (attempt_loop c input_str a n last)) ≤ n)%nat
    ∧ (count_events is_sleep (snd (attempt_loop c input_str a n last))
       ≤ count_events is_run (snd (attempt_loop c input_str a n last)))%nat.
Proof.
  induction n as [|n IH]; intros a last; simpl; [lia|].
  destruct (tool_run c a input_str) as [o|e]; [simpl; lia|].
  specialize (IH (S a) (Some e)).
  destruct (attempt_loop c input_str (S a) n (Some e)) as [r tr].
  cbn [snd] in *. simpl. lia.
Qed.

(** X4.  Whatever the tools do, one call of the executor invokes a tool
    at most [max(1, retries)] times, so at most once when [retries] is 1,
    0 or negative, and never sleeps more often than it invokes. *)
Theorem execute_task_bounded_attempts
    (t : task) (input_str : string) (cls name : option string) (retries : Z) :
  let tr := snd (execute_task t input_str cls name retries) in
  (count_events is_run tr ≤ Z.to_nat (Z.max 1 retries))%nat
  ∧ (count_events is_sleep tr ≤ count_events is_run tr)%nat
  ∧ ((retries ≤ 1)%Z → (count_events is_run tr ≤ 1)%nat).
Proof.
  intros tr.
  assert ((count_events is_run tr ≤ attempts_of retries)%nat
          ∧ (count_events is_sleep tr ≤ count_events is_run tr)%nat) as [Hr Hs].
  { subst tr. unfold execute_task.
    destruct (task_agent t) as [ag|]; [|simpl; lia].
    destruct (choose_tool _ cls name) as [c|]; [|simpl; lia].
    pose proof (attempt_loop_bounds c input_str (attempts_of retries) 0 None) as Hb.
    destruct (attempt_loop c input_str 0 (attempts_of retries) None) as [[o|l] tr'];
      exact Hb. }
  unfold attempts_of in Hr. repeat split; try assumption. lia.
Qed.

End Facts.

Lemma execute_task_needs_a_tool_witness :
  ∃ tr, snd (execute_task (H := JsonFrag.codec)
               (Flow.visualization_task Examples.agents_ok) "{}"
               (Some "VisualizationTool") None 1) = EvRun 0 "{}" :: tr.
Proof.
  destruct (execute_task_needs_a_tool (H := JsonFrag.codec)
              (Flow.visualization_task Examples.agents_ok) "{}"
              (Some "VisualizationTool") None 1) as (_ & _ & Hne).
  destruct (Hne _ eq_refl ltac:(discriminate)) as (c & tr & _ & _ & Htr).
  exists tr. exact Htr.
Defined.

Lemma choose_tool_prefers_class_witness :
  choose_tool (H := JsonFrag.codec)
    [Examples.analysis_ok; Examples.visualization_ok]
    (Some "VisualizationTool") (Some "Data Analysis Tool")
  = Some Examples.visualization_ok.
Proof.
  destruct (proj1 (choose_tool_prefers_class (H := JsonFrag.codec)
                     [Examples.analysis_ok; Examples.visualization_ok]
                     "VisualizationTool" (Some "Data Analysis Tool"))
              Examples.visualization_ok
              ltac:(apply elem_of_cons; right; apply elem_of_cons; left; reflexivity)
              eq_refl) as (c & l1 & l2 & Hc & _).
  rewrite Hc. vm_compute in Hc. injection Hc as <-. reflexivity.
Defined.


End TasksMore.

(** ** More on the report-job queue *)

Module PdfWorkerMore.

Import PdfWorker PdfWorkerOps.
Import PdfWorkerFacts.

Lemma dict_get_update_other (k : string) (u d : pydict) :
  has_key k u = false → dict_get k (dict_update u d) = dict_get k d.
Proof.
  revert d. induction u as [|[k' v] u IH]; intros d Hk; [reflexivity|].
  rewrite PyFacts.dict_update_cons. unfold has_key in *. cbn [dict_get] in Hk.
  destruct (String.eqb k k') eqn:Hkk'; [discriminate|].
  rewrite IH by exact Hk. rewrite PyFacts.dict_get_set, Hkk'. reflexivity.
Qed.

Lemma dict_get_notin (k : string) (u : pydict) :
  k ∉ u.*1 → dict_get k u = None.
Proof.
  induction u as [|[k' v] u IH]; [reflexivity|]. cbn. intros Hn.
  apply not_elem_of_cons in Hn as [Hne Hn].
  destruct (String.eqb_spec k k'); [congruence|auto].
Qed.

(** [d.update(u)] binds every key of [u] to its value in [u]. *)
Lemma dict_get_update_in (u d : pydict) (k : string) (v : pyval) :
  NoDup u.*1 → dict_get k u = Some v → dict_get k (dict_update u d) = Some v.
Proof.
  revert d. induction u as [|[k1 v1] u IH]; intros d Hnd Hget; [discriminate|].
  rewrite PyFacts.dict_update_cons. cbn in Hnd, Hget.
  apply NoDup_cons in Hnd as [Hk1 Hnd].
  destruct (String.eqb_spec k k1) as [->|Hne].
  - injection Hget as <-. rewrite dict_get_update_other.
    + apply PyFacts.dict_get_set_eq.
    + unfold has_key. rewrite dict_get_notin by exact Hk1. reflexivity.
  - apply IH; assumption.
Qed.

Lemma not_worker_key (k : string) :
  k ∉ worker_keys ↔ existsb (String.eqb k) worker_keys = false.
Proof.
  rewrite <- not_true_iff_false, existsb_exists. split.
  - intros Hn (x & Hin & Hx). apply String.eqb_eq in Hx as <-.
    apply Hn, list_elem_of_In, Hin.
  - intros Hn Hin. apply Hn. exists k. split; [apply list_elem_of_In, Hin|].
    apply String.eqb_refl.
Qed.

Section Facts.
Context `{Codec} `{Env}.

Lemma try_log_eq (extra_meta : option pydict) (msg : string) (s : store) :
  try_log extra_meta msg s =
  (Ok tt,
   let sqid :=
     if truthy_extra extra_meta
     then dict_get_default "search_query_id" PNone (default [] extra_meta)
     else PNone in
   if truthy sqid && worker_db_up then add_log (sqid, msg) s else s).
Proof.
  unfold try_log, try_, when. cbn zeta.
  destruct (truthy _); [|reflexivity].
  destruct worker_db_up; reflexivity.
Qed.

(** What the body of the worker's [try] and its [except] clause do to the
    store, besides the status they leave. *)
Lemma render_attempt_effects (job_id : string) (results : pyval)
    (output_path : string) (extra_meta : option pydict) (s s' : store)
    (r : res unit) :
  try_ (render_body job_id results output_path extra_meta)
    (fun e =>
       let! t := now_iso in
       meta_update job_id [("status", PStr "failed");
                           ("error", PStr (exn_str e));
                           ("completed_at", PStr t)]) s = (r, s') →
  files s' = files s ∧ queue s' = queue s ∧ uuids s' = uuids s
  ∧ clock s' = S (clock s)
  ∧ history s' =
      (history s ++ match render_payload job_id results output_path with
                    | Some _ => [JRender job_id]
                    | None => []
                    end)%list
  ∧ db_log s' =
      (db_log s ++ worker_log job_id results output_path extra_meta)%list
  ∧ (∀ j, j ≠ job_id → jobs s' !! j = jobs s !! j)
  ∧ (∀ k, k ∉ worker_keys →
          dict_get k (meta_of job_id s') = dict_get k (meta_of job_id s))
  ∧ is_Some (jobs s' !! job_id).
Proof.
  assert (∀ k, k ∉ worker_keys →
               String.eqb k "status" = false ∧ String.eqb k "output_path" = false
               ∧ String.eqb k "error" = false
               ∧ String.eqb k "completed_at" = false) as Hkeys.
  { intros k Hk. unfold worker_keys in Hk.
    repeat split; apply String.eqb_neq; intros ->; apply Hk;
      repeat (first [apply list_elem_of_here | apply list_elem_of_further]). }
  assert (∀ (u : pydict) (s0 : store),
            (∀ k, k ∉ worker_keys → has_key k u = false) →
            (∀ j, j ≠ job_id →
               (<[job_id := dict_update u (default [] (jobs s0 !! job_id))]>
                  (jobs s0)) !! j = jobs s0 !! j)
            ∧ (∀ k, k ∉ worker_keys →
                 dict_get k (dict_update u (meta_of job_id s0))
                 = dict_get k (meta_of job_id s0)))
    as Hupd.
  { intros u s0 Hu. split.
    - intros j Hj. rewrite lookup_insert_ne by congruence. reflexivity.
    - intros k Hk. apply dict_get_update_other. auto. }
  assert (∀ e t, ∀ k, k ∉ worker_keys →
            has_key k [("status", PStr "failed"); ("error", PStr (exn_str e));
                       ("completed_at", PStr t)] = false) as Hfail.
  { intros e t k Hk. destruct (Hkeys k Hk) as (H1 & H2 & H3 & H4).
    unfold has_key. cbn [dict_get]. rewrite H1, H3, H4. reflexivity. }
  assert (∀ (u : pydict) (s0 : store) (l1 : list jevent) (l2 : list (pyval * string)),
            (∀ k, k ∉ worker_keys → has_key k u = false) →
            files s0 = files s → queue s0 = queue s → uuids s0 = uuids s →
            clock s0 = S (clock s) → history s0 = (history s ++ l1)%list →
            db_log s0 = db_log s → jobs s0 = jobs s →
            ∀ s1,
              s1 = (let s2 := set_jobs (insert job_id
                                (dict_update u (default [] (jobs s0 !! job_id)))) s0 in
                    match l2 with [] => s2 | e :: _ => add_log e s2 end) →
              files s1 = files s ∧ queue s1 = queue s ∧ uuids s1 = uuids s
              ∧ clock s1 = S (clock s)
              ∧ history s1 = (history s ++ l1)%list
              ∧ db_log s1 = (db_log s ++ match l2 with [] => [] | e :: _ => [e] end)%list
              ∧ (∀ j, j ≠ job_id → jobs s1 !! j = jobs s !! j)
              ∧ (∀ k, k ∉ worker_keys →
                      dict_get k (meta_of job_id s1) = dict_get k (meta_of job_id s))
              ∧ is_Some (jobs s1 !! job_id))
    as Hend.
  { intros u s0 l1 l2 Hu Hf Hq Huu Hc Hh Hd Hj s1 ->.
    destruct (Hupd u s0 Hu) as [Hother Hk]. cbn zeta.
    destruct l2 as [|e l2]; store_simpl; rewrite ?Hf, ?Hq, ?Huu, ?Hc, ?Hh, ?Hd,
      ?app_nil_r; (repeat split; try reflexivity).
    - intros j Hne. rewrite Hother, Hj by exact Hne. reflexivity.
    - intros k Hkk. unfold meta_of at 1. store_simpl. rewrite lookup_insert_eq.
      cbn [default from_option id]. fold (meta_of job_id s0).
      rewrite Hk by exact Hkk. unfold meta_of. rewrite Hj. reflexivity.
    - rewrite lookup_insert_eq. eauto.
    - intros j Hne. rewrite Hother, Hj by exact Hne. reflexivity.
    - intros k Hkk. unfold meta_of at 1. store_simpl. rewrite lookup_insert_eq.
      cbn [default from_option id]. fold (meta_of job_id s0).
      rewrite Hk by exact Hkk. unfold meta_of. rewrite Hj. reflexivity.
    - rewrite lookup_insert_eq. eauto. }
  unfold render_payload, worker_log, render_reply, render_body, try_.
  destruct (json_dumps _) as [payload|].
  2:{ cbn [raise]. unfold Py.bind, now_iso. rewrite meta_update_run.
      intros E; apply pair_equal_spec in E as [_ <-].
      eapply Hend with (s0 := tick_clock s) (l1 := []) (l2 := []); try reflexivity.
      - apply Hfail.
      - store_simpl. rewrite app_nil_r. reflexivity. }
  unfold Py.bind at 1. cbn [modify].
  unfold Py.bind at 1. unfold lift at 1.
  destruct (pdf_tool_run payload) as [resp|e0].
  2:{ unfold Py.bind, now_iso. rewrite meta_update_run.
      intros E; apply pair_equal_spec in E as [_ <-].
      eapply Hend with (s0 := tick_clock (record (JRender job_id) s))
        (l1 := [JRender job_id]) (l2 := []);
        try reflexivity.
      apply Hfail. }
  set (parsed := match json_loads resp with
                 | Some v => v
                 | None => PDict [("error", PStr "invalid_response"); ("raw", PStr resp)]
                 end).
  unfold Py.bind at 1. unfold lift at 1.
  destruct parsed as [| | | | |d|] eqn:Hparsed;
    try (cbn [py_get type_name]; unfold Py.bind, now_iso; rewrite meta_update_run;
         intros E; apply pair_equal_spec in E as [_ <-];
         eapply Hend with (s0 := tick_clock (record (JRender job_id) s))
        (l1 := [JRender job_id]) (l2 := []);
         try reflexivity; apply Hfail).
  cbn [py_get]. fold (dict_get_default "path" PNone d).
  destruct (truthy (dict_get_default "path" PNone d)) eqn:Htp.
  - unfold Py.bind, now_iso. rewrite meta_update_run, try_log_eq. cbn zeta.
    intros E; apply pair_equal_spec in E as [_ <-].
    destruct (truthy _ && worker_db_up) eqn:Hlog.
    + eapply Hend with (s0 := tick_clock (record (JRender job_id) s))
        (l1 := [JRender job_id]) (l2 := [_]);
        try reflexivity.
      intros k Hk. destruct (Hkeys k Hk) as (H1 & H2 & H3 & H4).
      unfold has_key. cbn [dict_get]. rewrite H1, H2, H4. reflexivity.
    + eapply Hend with (s0 := tick_clock (record (JRender job_id) s))
        (l1 := [JRender job_id]) (l2 := []);
        try reflexivity.
      intros k Hk. destruct (Hkeys k Hk) as (H1 & H2 & H3 & H4).
      unfold has_key. cbn [dict_get]. rewrite H1, H2, H4. reflexivity.
  - unfold Py.bind, now_iso, lift. cbn [py_get]. rewrite meta_update_run, try_log_eq.
    cbn zeta. intros E; apply pair_equal_spec in E as [_ <-]. fold (dict_get_default "error" PNone d).
    destruct (truthy _ && worker_db_up) eqn:Hlog.
    + eapply Hend with (s0 := tick_clock (record (JRender job_id) s))
        (l1 := [JRender job_id]) (l2 := [_]);
        try reflexivity.
      intros k Hk. destruct (Hkeys k Hk) as (H1 & H2 & H3 & H4).
      unfold has_key. cbn [dict_get]. rewrite H1, H3, H4. reflexivity.
    + eapply Hend with (s0 := tick_clock (record (JRender job_id) s))
        (l1 := [JRender job_id]) (l2 := []);
        try reflexivity.
      intros k Hk. destruct (Hkeys k Hk) as (H1 & H2 & H3 & H4).
      unfold has_key. cbn [dict_get]. rewrite H1, H3, H4. reflexivity.
Qed.

Lemma run_pdf_job_effects (job_id : string) (results : pyval)
    (output_path : string) (extra_meta : option pydict) (s s' : store)
    (r : res unit) :
  _run_pdf_job job_id results output_path extra_meta s = (r, s') →
  queue s' = queue s ∧ uuids s' = uuids s ∧ clock s' = S (S (clock s))
  ∧ history s' =
      (history s ++ JWrite job_id ::
         match render_payload job_id results output_path with
         | Some _ => [JRender job_id]
         | None => []
         end ++ [JWrite job_id])%list
  ∧ db_log s' =
      (db_log s ++ worker_log job_id results output_path extra_meta)%list
  ∧ (∀ j, j ≠ job_id →
          jobs s' !! j = jobs s !! j ∧ files s' !! j = files s !! j)
  ∧ (∀ k, k ∉ worker_keys → has_key k (default [] extra_meta) = false →
          dict_get k (meta_of job_id s') = dict_get k (meta_of job_id s))
  ∧ jobs s' !! job_id = Some (meta_of job_id s')
  ∧ files s' !! job_id = Some (json_dump_default (PDict (meta_of job_id s'))).
Proof.
  unfold _run_pdf_job.
  unfold Py.bind at 1. unfold now_iso at 1.
  unfold Py.bind at 1. rewrite meta_update_run.
  unfold Py.bind at 1. unfold current_meta at 1, gets at 1.
  unfold Py.bind at 1. rewrite persist_run.
  unfold finally.
  match goal with
  | |- context [try_ ?b ?h ?s1] =>
      destruct (try_ b h s1) as [r0 s2] eqn:E;
      pose proof (render_attempt_effects job_id results output_path extra_meta
                    s1 s2 r0 E) as (Hf & Hq & Hu & Hc & Hh & Hd & Hj & Hk & Hsome)
  end.
  cbn [files queue uuids clock history db_log jobs set_jobs set_files record
       tick_clock] in Hf, Hq, Hu, Hc, Hh, Hd, Hj.
  assert (∀ k, k ∉ worker_keys →
               dict_get k (meta_of job_id s2) = dict_get k (meta_of job_id s))
    as Hk2.
  { intros k Hkk. rewrite (Hk k Hkk). unfold meta_of. store_simpl.
    rewrite lookup_insert_eq. cbn [default from_option id].
    apply dict_get_update_other. unfold has_key. cbn [dict_get].
    assert (String.eqb k "status" = false ∧ String.eqb k "started_at" = false)
      as [-> ->]; [|reflexivity].
    unfold worker_keys in Hkk. split; apply String.eqb_neq; intros ->; apply Hkk;
      repeat (first [apply list_elem_of_here | apply list_elem_of_further]). }
  clear Hk E.
  set (s3 := if truthy_extra extra_meta
             then set_jobs (insert job_id
                    (dict_update (default [] extra_meta)
                       (default [] (jobs s2 !! job_id)))) s2
             else s2).
  assert ((do! when (truthy_extra extra_meta)
                 (meta_update job_id (default [] extra_meta))
           in let! meta := current_meta job_id in _persist_job_meta job_id meta) s2
          = (Ok tt, record (JWrite job_id)
                      (set_files (insert job_id
                         (json_dump_default (PDict (meta_of job_id s3)))) s3)))
    as ->.
  { unfold Py.bind, when, current_meta, gets, s3.
    destruct (truthy_extra extra_meta); reflexivity. }
  assert (queue s3 = queue s2 ∧ uuids s3 = uuids s2 ∧ clock s3 = clock s2
          ∧ history s3 = history s2 ∧ db_log s3 = db_log s2
          ∧ files s3 = files s2
          ∧ (∀ j, j ≠ job_id → jobs s3 !! j = jobs s2 !! j)
          ∧ (∀ k, has_key k (default [] extra_meta) = false →
                  dict_get k (meta_of job_id s3) = dict_get k (meta_of job_id s2))
          ∧ jobs s3 !! job_id = Some (meta_of job_id s3))
    as (Hq3 & Hu3 & Hc3 & Hh3 & Hd3 & Hf3 & Hj3 & Hk3 & Hsome3).
  { unfold s3. destruct (truthy_extra extra_meta); store_simpl.
    - repeat split; try reflexivity.
      + intros j Hne. rewrite lookup_insert_ne by congruence. reflexivity.
      + intros k Hkk. unfold meta_of at 1. store_simpl. rewrite lookup_insert_eq.
        cbn [default from_option id].
        rewrite dict_get_update_other by exact Hkk. reflexivity.
      + unfold meta_of. store_simpl. rewrite lookup_insert_eq. reflexivity.
    - repeat split; try reflexivity.
      unfold meta_of. destruct Hsome as [m ->]. reflexivity. }
  assert (meta_of job_id
            (record (JWrite job_id)
               (set_files (insert job_id
                  (json_dump_default (PDict (meta_of job_id s3)))) s3))
          = meta_of job_id s3) as Hmeta by reflexivity.
  intros Hrun.
  assert (s' = record (JWrite job_id)
                 (set_files (insert job_id
                    (json_dump_default (PDict (meta_of job_id s3)))) s3)) as ->.
  { destruct r0; apply pair_equal_spec in Hrun as [_ <-]; reflexivity. }
  rewrite Hmeta; store_simpl;
    rewrite Hq3, Hu3, Hc3, Hh3, Hd3, Hq, Hu, Hc, Hh, Hd;
    (split; [reflexivity|]); (split; [reflexivity|]); (split; [reflexivity|]);
    (split; [rewrite <- !app_assoc; reflexivity|]); (split; [reflexivity|]);
    (split; [intros j Hne; rewrite lookup_insert_ne by congruence;
             rewrite Hj3, Hj, Hf3, Hf by exact Hne;
             rewrite !lookup_insert_ne by congruence; split; reflexivity|]);
    (split; [intros k Hk1 Hk4; rewrite (Hk3 k Hk4); apply Hk2; exact Hk1|]);
    (split; [exact Hsome3|apply lookup_insert_eq]).
Qed.


(** The worker never raises; the status it leaves and what the caller's
    [extra_meta] does to the record. *)
Lemma run_pdf_job_status (job_id : string) (results : pyval)
    (output_path : string) (extra_meta : option pydict) (s : store) :
  ∃ (s' : store) (meta : pydict),
    _run_pdf_job job_id results output_path extra_meta s = (Ok tt, s')
    ∧ jobs s' !! job_id = Some meta
    ∧ (has_key "status" (default [] extra_meta) = false →
       dict_get "status" meta
       = Some (PStr match rendered_path job_id results output_path with
                    | Some _ => "completed"
                    | None => "failed"
                    end))
    ∧ (NoDup (default [] extra_meta).*1 →
       ∀ k v, dict_get k (default [] extra_meta) = Some v →
              dict_get k meta = Some v).
Proof.
  unfold _run_pdf_job.
  unfold Py.bind at 1. unfold now_iso at 1.
  unfold Py.bind at 1. rewrite meta_update_run.
  unfold Py.bind at 1. unfold current_meta at 1, gets at 1.
  unfold Py.bind at 1. rewrite persist_run.
  unfold finally.
  match goal with
  | |- context [try_ ?b ?h ?s1] =>
      destruct (render_attempt_run job_id results output_path extra_meta s1)
        as (s2 & m2 & -> & Hj2 & _ & Hst & _)
  end.
  unfold Py.bind, when.
  destruct (truthy_extra extra_meta) eqn:Ht.
  - rewrite meta_update_run. unfold current_meta, gets. rewrite persist_run.
    eexists _, _. split; [reflexivity|]. store_simpl.
    rewrite lookup_insert_eq, Hj2. cbn [default from_option id].
    split; [reflexivity|]. split.
    + intros Hk. cbn [id] in *. rewrite dict_get_update_other by exact Hk.
      destruct (rendered_path job_id results output_path); apply Hst.
    + intros Hnd k v Hk. apply dict_get_update_in; assumption.
  - unfold Py.ret, current_meta, gets. rewrite persist_run.
    eexists _, _. split; [reflexivity|]. store_simpl. rewrite Hj2.
    split; [reflexivity|]. split.
    + intros _. destruct (rendered_path job_id results output_path); apply Hst.
    + intros _ k v Hk. destruct extra_meta as [[|kv em]|]; discriminate.
Qed.





(** X6.  One worker run writes the job's metadata file exactly twice,
    first with the processing record and last with the final one; between
    the two it invokes the rendering tool once when the payload can be
    serialised and not at all otherwise, never a second time.  It reads the
    clock twice, submits nothing and draws no job id. *)
Theorem run_pdf_job_writes_twice_renders_once
    (job_id : string) (results : pyval) (output_path : string)
    (extra_meta : option pydict) (s : store) :
  let s' := snd (_run_pdf_job job_id results output_path extra_meta s) in
  history s' =
    (history s ++ JWrite job_id ::
       match render_payload job_id results output_path with
       | Some _ => [JRender job_id]
       | None => []
       end ++ [JWrite job_id])%list
  ∧ clock s' = S (S (clock s))
  ∧ queue s' = queue s
  ∧ uuids s' = uuids s.
Proof.
  destruct (_run_pdf_job job_id results output_path extra_meta s)
    as [r s'] eqn:E.
  destruct (run_pdf_job_effects _ _ _ _ _ _ _ E)
    as (Hq & Hu & Hc & Hh & _).
  cbn [snd]. auto.
Qed.

(** X7.  The worker overwrites only its own keys ([status], [started_at],
    [output_path], [error], [completed_at]) and the keys of [extra_meta]:
    every other entry of the job's record, such as [job_id] and
    [queued_at], is after the run what it was before. *)
Theorem run_pdf_job_keeps_other_keys
    (job_id : string) (results : pyval) (output_path : string)
    (extra_meta : option pydict) (s : store) (k : string) :
  k ∉ worker_keys →
  has_key k (default [] extra_meta) = false →
  dict_get k (meta_of job_id
                (snd (_run_pdf_job job_id results output_path extra_meta s)))
  = dict_get k (meta_of job_id s).
Proof.
  intros Hk Hx.
  destruct (_run_pdf_job job_id results output_path extra_meta s)
    as [r s'] eqn:E.
  destruct (run_pdf_job_effects _ _ _ _ _ _ _ E)
    as (_ & _ & _ & _ & _ & _ & Hkeys & _).
  cbn [snd]. apply Hkeys; assumption.
Qed.

(** X8.  For every [extra_meta] the worker returns normally with a record
    for the job.  When [extra_meta] has no [status] entry the record's
    status is [completed] or [failed] according to the rendering tool's
    answer; every entry of [extra_meta] is in the record with the caller's
    value, so a [status] entry passed in [extra_meta] replaces the
    terminal status. *)
Theorem run_pdf_job_extra_meta_wins
    (job_id : string) (results : pyval) (output_path : string)
    (extra_meta : option pydict) (s : store) :
  ∃ (s' : store) (meta : pydict),
    _run_pdf_job job_id results output_path extra_meta s = (Ok tt, s')
    ∧ jobs s' !! job_id = Some meta
    ∧ (has_key "status" (default [] extra_meta) = false →
       dict_get "status" meta
       = Some (PStr match rendered_path job_id results output_path with
                    | Some _ => "completed"
                    | None => "failed"
                    end))
    ∧ (NoDup (default [] extra_meta).*1 →
       ∀ k v, dict_get k (default [] extra_meta) = Some v →
              dict_get k meta = Some v).
Proof. apply run_pdf_job_status. Qed.




Lemma render_items_spec (job_id : string) (all : pydict) :
  ∀ (viz acc : pydict),
    (∀ kv, kv ∈ viz → kv ∈ all) →
    (∀ name v, dict_get name acc = Some v →
       v = PStr (image_path name job_id)
       ∧ ∃ fig, (name, fig) ∈ all
                ∧ figure_written fig (image_path name job_id) = true) →
    ∀ name v, dict_get name (fold_left (render_item job_id) viz acc) = Some v →
      v = PStr (image_path name job_id)
      ∧ ∃ fig, (name, fig) ∈ all
               ∧ figure_written fig (image_path name job_id) = true.
Proof.
  induction viz as [|[k x] viz IH]; intros acc Hin Hacc; [exact Hacc|].
  cbn [fold_left]. apply IH.
  - intros kv Hkv. apply Hin. apply elem_of_cons. right. exact Hkv.
  - assert ((k, x) ∈ all) as Hkx.
    { apply Hin. apply elem_of_cons. left. reflexivity. }
    unfold render_item. cbn [fst snd].
    assert (∀ name v,
              dict_get name
                (if figure_written x (image_path k job_id)
                 then dict_set k (PStr (image_path k job_id)) acc else acc)
              = Some v →
              v = PStr (image_path name job_id)
              ∧ ∃ fig, (name, fig) ∈ all
                       ∧ figure_written fig (image_path name job_id) = true)
      as Hset.
    { intros name v. destruct (figure_written x (image_path k job_id)) eqn:Hw;
        [|apply Hacc].
      rewrite PyFacts.dict_get_set.
      destruct (String.eqb_spec name k) as [->|Hne]; [|apply Hacc].
      intros [= <-]. split; [reflexivity|]. exists x. auto. }
    destruct x; first [exact Hacc | exact Hset].
Qed.

(** The image of a figure whose name, like the job id, has no separator
    is a file of [static/temp_images]. *)
Lemma image_path_plain (name job_id : string) :
  PosixPath.has_sep name = false → PosixPath.has_sep job_id = false →
  image_path name job_id
  = "static/temp_images/" +:+ name +:+ "_" +:+ job_id +:+ ".png".
Proof.
  intros Hn Hj. unfold image_path.
  set (file := name +:+ "_" +:+ job_id +:+ ".png").
  assert (PosixPath.has_sep file = false) as Hs.
  { unfold file. rewrite !PosixPathFacts.has_sep_append, Hn, Hj. reflexivity. }
  assert (2 ≤ String.length file)%nat as Hl.
  { unfold file. rewrite !PosixPathFacts.length_append. cbn. lia. }
  destruct (PosixPathFacts.components_plain file Hs Hl) as [Hc Hr].
  change (PosixPath.join "static" "temp_images") with "static/temp_images".
  rewrite PosixPathFacts.join_relative by (assumption || reflexivity || discriminate).
  rewrite Hc. reflexivity.
Qed.

(** X12.  Preparing the visualisations returns a value that is not a dict
    unchanged, and changes no entry of a dict other than
    [visualizations].  That entry is replaced only when it is a dict and
    at least one image could be written, and then by a dict that maps
    names of the original figures whose image was written to the path
    [str(Path('static') / 'temp_images' / f"{name}_{job_id}.png")] of the
    image, which is [static/temp_images/<name>_<job_id>.png] when neither
    the name nor the job id contains a separator. *)
Theorem prepare_visualizations_replaces_only_figures
    (job_id : string) (results : pyval) :
  let results' := prepare_visualizations job_id results in
  ((∀ d, results ≠ PDict d) → results' = results)
  ∧ (∀ name, PosixPath.has_sep name = false →
             PosixPath.has_sep job_id = false →
             image_path name job_id
             = "static/temp_images/" +:+ name +:+ "_" +:+ job_id +:+ ".png")
  ∧ ∀ d, results = PDict d →
      ∃ d', results' = PDict d'
        ∧ (∀ k, k ≠ "visualizations" → dict_get k d' = dict_get k d)
        ∧ (d' = d
           ∨ ∃ viz imgs,
               dict_get "visualizations" d = Some (PDict viz)
               ∧ dict_get "visualizations" d' = Some (PDict imgs)
               ∧ imgs ≠ []
               ∧ ∀ name v, dict_get name imgs = Some v →
                   v = PStr (image_path name job_id)
                   ∧ ∃ fig, (name, fig) ∈ viz
                            ∧ figure_written fig (image_path name job_id) = true).
Proof.
  cbn zeta. split; [|split].
  - intros Hnd. destruct results; try reflexivity. exfalso. eapply Hnd. reflexivity.
  - intros name Hn Hj. apply image_path_plain; assumption.
  - intros d ->. cbn [prepare_visualizations].
    destruct (dict_get "visualizations" d) as [[| | | | |viz|]|] eqn:Hviz;
      try (exists d; split; [reflexivity|]; split; [reflexivity|left; reflexivity]).
    destruct (fold_left (render_item job_id) viz []) as [|kv imgs] eqn:Hfold;
      cbn [truthy].
    + exists d. split; [reflexivity|]. split; [reflexivity|left; reflexivity].
    + eexists. split; [reflexivity|]. split.
      * intros k Hk. rewrite PyFacts.dict_get_set.
        destruct (String.eqb_spec k "visualizations"); [congruence|reflexivity].
      * right. exists viz, (kv :: imgs). split; [reflexivity|].
        split; [apply PyFacts.dict_get_set_eq|]. split; [discriminate|].
        rewrite <- Hfold. apply render_items_spec; [auto|].
        intros name v Hn. discriminate.
Qed.

(** X13.  Submit, run, look up: after the queued work item of a
    submission has been run, [get_job_meta] answers with a record that
    still carries the job id the submission returned, its [queued_at] time,
    its search id and its model name, and whose status is [completed] or
    [failed]. *)
Theorem submitted_job_keeps_identity
    (results : pyval) (output_path : option string)
    (search_query_id : option Z) (title_prefix : string) (s : store) :
  ∃ (meta0 : pydict) (s1 : store) (sub : submission) (meta : pydict) (s2 : store),
    enqueue_pdf_job results output_path search_query_id title_prefix s
      = (Ok meta0, s1)
    ∧ queue s1 = (queue s ++ [sub])%list
    ∧ run_submission sub s1 = (Ok tt, s2)
    ∧ get_job_meta (sub_job_id sub) s2 = Ok (PDict meta)
    ∧ dict_get "job_id" meta0 = Some (PStr (sub_job_id sub))
    ∧ dict_get "job_id" meta = Some (PStr (sub_job_id sub))
    ∧ dict_get "queued_at" meta = dict_get "queued_at" meta0
    ∧ dict_get "search_query_id" meta = Some (of_opt_int search_query_id)
    ∧ dict_get "llm_model" meta = Some (llm_model_of results)
    ∧ (dict_get "status" meta = Some (PStr "completed")
       ∨ dict_get "status" meta = Some (PStr "failed")).
Proof.
  pose proof (enqueue_pdf_job_run results output_path search_query_id
                title_prefix s) as E.
  cbn zeta in E.
  set (job_id := uuid4_str (uuids s)) in *.
  set (path := default (default_output_path title_prefix (utcnow_stamp (clock s)))
                 output_path) in *.
  set (meta0 := initial_meta job_id path (utcnow_iso (S (clock s)))
                  (of_opt_int search_query_id) (llm_model_of results)) in *.
  match type of E with _ = (_, ?st) => set (s1 := st) in * end.
  set (extra := enqueue_extra (of_opt_int search_query_id) (llm_model_of results)).
  destruct (run_pdf_job_status job_id results path extra s1)
    as (s2 & meta & Hrun & Hj & Hst & Hwin).
  destruct (run_pdf_job_effects _ _ _ _ _ _ _ Hrun)
    as (_ & _ & _ & _ & _ & _ & Hkeys & _).
  assert (meta_of job_id s2 = meta) as Hm2.
  { unfold meta_of. rewrite Hj. reflexivity. }
  assert (meta_of job_id s1 = meta0) as Hm1.
  { unfold meta_of, s1. cbn [jobs]. rewrite lookup_insert_eq. reflexivity. }
  rewrite Hm1, Hm2 in Hkeys.
  assert (NoDup (default [] extra).*1) as Hnd.
  { cbn. apply NoDup_cons. split; [|apply NoDup_singleton].
    intros Hin. apply list_elem_of_singleton in Hin. discriminate. }
  exists meta0, s1, (Submission job_id results path extra), meta, s2.
  split; [exact E|]. split; [reflexivity|]. split; [exact Hrun|].
  split; [unfold get_job_meta; cbn [sub_job_id]; rewrite Hj; reflexivity|].
  cbn [sub_job_id].
  split; [reflexivity|].
  split.
  { rewrite Hkeys; [reflexivity| |reflexivity].
    apply not_worker_key. reflexivity. }
  split.
  { apply Hkeys; [|reflexivity]. apply not_worker_key. reflexivity. }
  split; [apply (Hwin Hnd); reflexivity|].
  split; [apply (Hwin Hnd); reflexivity|].
  rewrite (Hst eq_refl).
  destruct (rendered_path job_id results path); [left|right]; reflexivity.
Qed.

End Facts.


Lemma run_pdf_job_keeps_other_keys_witness :
  let s1 := snd (enqueue_pdf_job (H := JsonFrag.codec) (H0 := Examples.env)
                   (PDict []) None (Some 3%Z) "r" empty_store) in
  dict_get "queued_at"
    (meta_of "job-0"
       (snd (_run_pdf_job (H := JsonFrag.codec) (H0 := Examples.env)
               "job-0" (PDict []) "static/r.pdf" None s1)))
  = dict_get "queued_at" (meta_of "job-0" s1).
Proof.
  intros s1.
  apply (run_pdf_job_keeps_other_keys (H := JsonFrag.codec) (H0 := Examples.env)
           "job-0" (PDict []) "static/r.pdf" None s1 "queued_at").
  - apply not_worker_key. reflexivity.
  - reflexivity.
Defined.



End PdfWorkerMore.

(** ** Submitting a job *)

Module PdfSubmission.

Import PdfWorker PdfWorkerOps.
Import PdfWorkerFacts PdfWorkerMore.

Section Facts.
Context `{Codec} `{Env}.




End Facts.



End PdfSubmission.

(** ** More on the raw-result table and the collector's persistence *)

Module PersistMore.

Import Persist Collector.
Import PersistFacts.

Section Facts.
Context `{Codec}.
Variable sha256_hex : string → string.

(** What one call does to the connection. *)
Lemma run_call_step (k : call) (c : db) :
  ∃ l, rows (run_call sha256_hex c k) = (rows c ++ l)%list
       ∧ (length l ≤ 1)%nat
       ∧ next_id (run_call sha256_hex c k) = (next_id c + Z.of_nat (length l))%Z
       ∧ commits (run_call sha256_hex c k) = (commits c + length l)%nat
       ∧ (rollbacks (run_call sha256_hex c k) + length l = S (rollbacks c)
          ∨ (rollbacks (run_call sha256_hex c k) = rollbacks c ∧ l = []))%nat
       ∧ (rollbacks c ≤ rollbacks (run_call sha256_hex c k))%nat
       ∧ (∀ q h, (∀ q' h', count_rows q' h' c ≤ 1)%nat →
                 (count_rows q h (run_call sha256_hex c k) ≤ 1)%nat).
Proof.
  unfold run_call. rewrite call_insert_cases.
  assert (∃ l, rows (rolled_back c) = (rows c ++ l)%list
               ∧ (length l ≤ 1)%nat
               ∧ next_id (rolled_back c) = (next_id c + Z.of_nat (length l))%Z
               ∧ commits (rolled_back c) = (commits c + length l)%nat
               ∧ (rollbacks (rolled_back c) + length l = S (rollbacks c)
                  ∨ (rollbacks (rolled_back c) = rollbacks c ∧ l = []))%nat
               ∧ (rollbacks c ≤ rollbacks (rolled_back c))%nat
               ∧ (∀ q h, (∀ q' h', count_rows q' h' c ≤ 1)%nat →
                         (count_rows q h (rolled_back c) ≤ 1)%nat)) as Hrb.
  { exists []. cbn [rolled_back rows next_id commits rollbacks length].
    rewrite app_nil_r. repeat split; try lia. intros q h Hc. apply Hc. }
  assert (∃ l, rows c = (rows c ++ l)%list
               ∧ (length l ≤ 1)%nat
               ∧ next_id c = (next_id c + Z.of_nat (length l))%Z
               ∧ commits c = (commits c + length l)%nat
               ∧ (rollbacks c + length l = S (rollbacks c)
                  ∨ (rollbacks c = rollbacks c ∧ l = []))%nat
               ∧ (rollbacks c ≤ rollbacks c)%nat
               ∧ (∀ q h, (∀ q' h', count_rows q' h' c ≤ 1)%nat →
                         (count_rows q h c ≤ 1)%nat)) as Hsame.
  { exists []. cbn [length]. rewrite app_nil_r. repeat split; try lia; auto. }
  assert (∀ d, ∃ l,
            rows (snd (failed_call (call_faults k) d c)) = (rows c ++ l)%list
            ∧ (length l ≤ 1)%nat
            ∧ next_id (snd (failed_call (call_faults k) d c))
              = (next_id c + Z.of_nat (length l))%Z
            ∧ commits (snd (failed_call (call_faults k) d c))
              = (commits c + length l)%nat
            ∧ (rollbacks (snd (failed_call (call_faults k) d c)) + length l
               = S (rollbacks c)
               ∨ (rollbacks (snd (failed_call (call_faults k) d c))
                  = rollbacks c ∧ l = []))%nat
            ∧ (rollbacks c ≤ rollbacks (snd (failed_call (call_faults k) d c)))%nat
            ∧ (∀ q h, (∀ q' h', count_rows q' h' c ≤ 1)%nat →
                      (count_rows q h (snd (failed_call (call_faults k) d c))
                       ≤ 1)%nat)) as Hfail.
  { intros d. unfold failed_call.
    destruct (rollback_fault (call_faults k)); [exact Hsame|exact Hrb]. }
  destruct (json_dumps_sorted _) as [text|]; [|apply Hfail].
  cbn zeta. destruct (json_dumps _); [|apply Hfail].
  destruct (select_fault _); [apply Hfail|].
  destruct (find _ (rows c)) as [r|] eqn:Hf; [exact Hsame|].
  destruct (insert_fault _); [apply Hfail|].
  cbn [snd]. eexists [_]. cbn [with_row rows next_id commits rollbacks length].
  split; [reflexivity|]. repeat split; try lia.
  intros q h Hc. unfold count_rows, with_row. cbn [rows].
  rewrite List.filter_app, length_app. cbn [List.filter].
  destruct (row_matches q h _) eqn:Hm; cbn [length].
  - apply new_row_matches_inv in Hm as [Hq Hh]. rewrite Hq, Hh in Hf.
    rewrite (find_none_filter _ _ Hf). cbn. lia.
  - specialize (Hc q h). unfold count_rows in Hc. lia.
Qed.

Lemma run_calls_steps (ks : list call) :
  ∀ c, ∃ l, rows (run_calls sha256_hex ks c) = (rows c ++ l)%list
            ∧ (length l + (rollbacks (run_calls sha256_hex ks c) - rollbacks c)
               ≤ length ks)%nat
            ∧ next_id (run_calls sha256_hex ks c)
              = (next_id c + Z.of_nat (length l))%Z
            ∧ commits (run_calls sha256_hex ks c) = (commits c + length l)%nat
            ∧ (rollbacks c ≤ rollbacks (run_calls sha256_hex ks c))%nat
            ∧ ((∀ q h, count_rows q h c ≤ 1)%nat →
               ∀ q h, (count_rows q h (run_calls sha256_hex ks c) ≤ 1)%nat).
Proof.
  induction ks as [|k ks IH]; intros c.
  - exists []. cbn. rewrite app_nil_r. repeat split; try lia. auto.
  - cbn [run_calls fold_left].
    destruct (run_call_step k c) as (l1 & Hr1 & Hl1 & Hn1 & Hc1 & Hb1 & Hm1 & Hu1).
    destruct (IH (run_call sha256_hex c k)) as (l2 & Hr2 & Hl2 & Hn2 & Hc2 & Hm2 & Hu2).
    fold (run_calls sha256_hex ks (run_call sha256_hex c k)).
    exists (l1 ++ l2)%list. rewrite Hr2, Hr1, Hn2, Hn1, Hc2, Hc1, length_app.
    split; [rewrite app_assoc; reflexivity|].
    split; [cbn [length]; destruct Hb1 as [Hb1|[Hb1 ->]]; cbn [length] in *; lia|].
    split; [lia|]. split; [lia|]. split; [lia|].
    intros Hall. apply Hu2. intros q h. apply Hu1. exact Hall.
Qed.

(** X14.  Whatever the calls and however the datastore answers them, the
    method only ever appends to the table: after any sequence of calls the
    old rows are an unchanged prefix, each call has added at most one row
    or rolled back, every added row was committed exactly once, and the id
    sequence advanced by the number of added rows. *)
Theorem insert_search_result_raw_append_only (ks : list call) (c : db) :
  ∃ added,
    rows (run_calls sha256_hex ks c) = (rows c ++ added)%list
    ∧ (length added + (rollbacks (run_calls sha256_hex ks c) - rollbacks c)
       ≤ length ks)%nat
    ∧ next_id (run_calls sha256_hex ks c)
      = (next_id c + Z.of_nat (length added))%Z
    ∧ commits (run_calls sha256_hex ks c) = (commits c + length added)%nat
    ∧ (rollbacks c ≤ rollbacks (run_calls sha256_hex ks c))%nat.
Proof.
  destruct (run_calls_steps ks c) as (l & Hr & Hl & Hn & Hc & Hb & _).
  exists l. auto.
Qed.

(** X15.  Uniqueness is an invariant of the table under the method: if no
    search id and content hash has more than one row, then after any
    sequence of calls, failing ones included, none has. *)
Theorem insert_search_result_raw_keeps_rows_unique (ks : list call) (c : db) :
  (∀ q h, count_rows q h c ≤ 1)%nat →
  ∀ q h, (count_rows q h (run_calls sha256_hex ks c) ≤ 1)%nat.
Proof.
  destruct (run_calls_steps ks c) as (l & _ & _ & _ & _ & _ & Hu). exact Hu.
Qed.

Lemma find_snoc {A} (p : A → bool) (l : list A) (x : A) :
  find p (l ++ [x]) =
  match find p l with
  | Some y => Some y
  | None => if p x then Some x else None
  end.
Proof.
  induction l as [|a l IH]; simpl; [reflexivity|].
  destruct (p a); [reflexivity|exact IH].
Qed.

(** X16.  The method hashes the dict it is given, [_hash] entry included.
    Called a second time with the dict object the first call has marked,
    it computes another hash; when that hash differs from the first, it
    does not find the row just written and inserts a second row for the
    same content, under the next id. *)
Theorem insert_search_result_raw_reinserts_marked_dict
    (search_query_id : Z) (source : string) (d : pydict) (t1 t2 : string)
    (c : db) :
  let h1 := sha256_hex t1 in
  let h2 := sha256_hex t2 in
  let d1 := dict_set "_hash" (PStr h1) d in
  let d2 := dict_set "_hash" (PStr h2) d1 in
  json_dumps_sorted (PDict d) = Some t1 →
  json_dumps_sorted (PDict d1) = Some t2 →
  is_Some (json_dumps (PDict d1)) →
  is_Some (json_dumps (PDict d2)) →
  h2 ≠ h1 →
  find (row_matches search_query_id h1) (rows c) = None →
  find (row_matches search_query_id h2) (rows c) = None →
  ∃ c1 c2,
    call_insert sha256_hex no_faults search_query_id source d c
      = (Ok (next_id c), d1, c1)
    ∧ call_insert sha256_hex no_faults search_query_id source d1 c1
      = (Ok (next_id c + 1)%Z, d2, c2)
    ∧ rows c2 = (rows c ++ [RawRow (next_id c) search_query_id source d1;
                            RawRow (next_id c + 1) search_query_id source d2])%list.
Proof.
  intros h1 h2 d1 d2 Ht1 Ht2 [j1 Hj1] [j2 Hj2] Hne Hf1 Hf2.
  eexists _, _. split; [|split].
  - rewrite call_insert_cases, Ht1. cbn zeta. fold h1 d1. rewrite Hj1.
    cbn [select_fault insert_fault no_faults]. rewrite Hf1. reflexivity.
  - rewrite call_insert_cases, Ht2. cbn zeta. fold h2 d2. rewrite Hj2.
    cbn [select_fault insert_fault no_faults with_row rows].
    rewrite find_snoc, Hf2.
    destruct (row_matches search_query_id h2 _) eqn:Hm.
    + apply new_row_matches_inv in Hm as [_ Hm]. congruence.
    + reflexivity.
  - cbn [with_row rows]. rewrite <- app_assoc. reflexivity.
Qed.

(** *** [_ensure_source] *)

Lemma dict_set_idem (k : string) (v : pyval) (d : pydict) :
  dict_set k v (dict_set k v d) = dict_set k v d.
Proof.
  induction d as [|[k0 v0] d IH]; cbn [dict_set].
  - rewrite String.eqb_refl. reflexivity.
  - destruct (String.eqb k k0) eqn:E; cbn [dict_set].
    + rewrite String.eqb_refl. reflexivity.
    + rewrite E, IH. reflexivity.
Qed.

(** X17.  Tagging an item with its provider sets [source] to the provider
    and leaves every entry other than [source] and [source_original] as it
    was.  A previous source that is true and differs from the provider is
    kept under [source_original]; otherwise - no previous source, a
    previous source that is false ([None], [''], [0], ...) or the provider
    itself - [source_original] is not touched.  Tagging twice with the
    same provider is the same as tagging once. *)
Theorem ensure_source_tags_and_keeps (item : pydict) (provider : string) :
  let item' := _ensure_source item provider in
  dict_get "source" item' = Some (PStr provider)
  ∧ (∀ k, k ≠ "source" → k ≠ "source_original" →
          dict_get k item' = dict_get k item)
  ∧ (∀ v, dict_get "source" item = Some v → truthy v = true →
          v ≠ PStr provider →
          dict_get "source_original" item' = Some v)
  ∧ ((dict_get "source" item = None
      ∨ dict_get "source" item = Some (PStr provider)
      ∨ ∃ v, dict_get "source" item = Some v ∧ truthy v = false) →
     dict_get "source_original" item' = dict_get "source_original" item)
  ∧ _ensure_source item' provider = item'.
Proof.
  cbn zeta. unfold _ensure_source, dict_get_default.
  split; [apply PyFacts.dict_get_set_eq|]. split; [|split; [|split]].
  - intros k Hk1 Hk2. rewrite PyFacts.dict_get_set.
    destruct (String.eqb_spec k "source"); [congruence|].
    destruct (_ && _); [|reflexivity].
    rewrite PyFacts.dict_get_set.
    destruct (String.eqb_spec k "source_original"); [congruence|reflexivity].
  - intros v Hv Ht Hne. rewrite Hv. cbn [default from_option id]. rewrite Ht.
    assert (differs_from_str v provider = true) as ->.
    { destruct v; try reflexivity. cbn.
      destruct (String.eqb_spec s provider); [congruence|reflexivity]. }
    cbn [andb]. rewrite PyFacts.dict_get_set. cbn [String.eqb Ascii.eqb Bool.eqb].
    apply PyFacts.dict_get_set_eq.
  - intros [Hn|[Hs|(v & Hv & Hf)]].
    + rewrite Hn. cbn. rewrite PyFacts.dict_get_set. reflexivity.
    + rewrite Hs. cbn [default from_option id differs_from_str].
      rewrite String.eqb_refl. cbn [negb]. rewrite andb_false_r.
      rewrite PyFacts.dict_get_set. reflexivity.
    + rewrite Hv. cbn [default from_option id]. rewrite Hf. cbn [andb].
      rewrite PyFacts.dict_get_set. reflexivity.
  - rewrite PyFacts.dict_get_set_eq. cbn [default from_option id differs_from_str].
    rewrite String.eqb_refl. cbn [negb]. rewrite andb_false_r.
    apply dict_set_idem.
Qed.

(** *** [_persist_many] *)









End Facts.

Lemma insert_search_result_raw_keeps_rows_unique_witness :
  let doc := [("title", PStr "x")] in
  let h := Examples.toy_hash
             (default "" (JsonFrag.dumps_with true false (PDict doc))) in
  let c := run_calls (H := JsonFrag.codec) Examples.toy_hash
             [Call no_faults 5 "SERPER" doc] empty_db in
  let lost := Faults None (Some (Exn "OperationalError" "connection lost")) None in
  let c' := run_calls (H := JsonFrag.codec) Examples.toy_hash
              [Call no_faults 5 "USPTO" doc;
               Call lost 5 "USPTO" [("title", PStr "y")];
               Call no_faults 6 "USPTO" doc] c in
  count_rows 5 h c = 1%nat
  ∧ (count_rows 5 h c' ≤ 1)%nat
  ∧ length (rows c') = 2%nat.
Proof.
  intros doc h c lost c'. split; [vm_compute; reflexivity|].
  split; [|vm_compute; reflexivity].
  apply (insert_search_result_raw_keeps_rows_unique (H := JsonFrag.codec)
           Examples.toy_hash).
  intros q h'. subst c. unfold count_rows.
  match goal with
  | |- context [rows ?x] =>
      let r := eval vm_compute in (rows x) in change (rows x) with r
  end.
  cbn [List.filter]. destruct (row_matches q h' _); cbn [length]; lia.
Defined.

Lemma insert_search_result_raw_reinserts_marked_dict_witness :
  ∃ d1 d2 c1 c2,
    call_insert (H := JsonFrag.codec) Examples.toy_hash no_faults 5 "SERPER"
      [("title", PStr "x")] empty_db = (Ok 1%Z, d1, c1)
    ∧ call_insert (H := JsonFrag.codec) Examples.toy_hash no_faults 5 "SERPER"
        d1 c1 = (Ok 2%Z, d2, c2)
    ∧ length (rows c2) = 2%nat.
Proof.
  destruct (insert_search_result_raw_reinserts_marked_dict (H := JsonFrag.codec)
              Examples.toy_hash 5 "SERPER" [("title", PStr "x")]
              (default "" (JsonFrag.dumps_with true false
                             (PDict [("title", PStr "x")])))
              (default "" (JsonFrag.dumps_with true false
                 (PDict (dict_set "_hash"
                    (PStr (Examples.toy_hash
                       (default "" (JsonFrag.dumps_with true false
                                      (PDict [("title", PStr "x")])))))
                    [("title", PStr "x")]))))
              empty_db
              eq_refl eq_refl
              ltac:(vm_compute; eexists; reflexivity)
              ltac:(vm_compute; eexists; reflexivity)
              ltac:(vm_compute; discriminate)
              eq_refl eq_refl) as (c1 & c2 & H1 & H2 & H3).
  eexists _, _, c1, c2. split; [exact H1|]. split; [exact H2|].
  rewrite H3. reflexivity.
Defined.



End PersistMore.

(** ** More on the pipeline flow *)

Module FlowMore.

Import Tasks Flow FlowOps.
Import FlowFacts.

Ltac world_simpl :=
  cbn [state search_log query_status job_store set_state add_logs
       with_error with_raw with_classified with_analysis with_visualizations
       with_final_report search_query_id search_criteria final_report
       raw_data_json classified_data_json analysis_results_json
       visualizations_json error_message].

Ltac frame_solve :=
  unfold stage_frame, add_logs, set_state; world_simpl;
  repeat (split; [reflexivity|]);
  first [ exists []; split; [rewrite app_nil_r; reflexivity|constructor]
        | eexists [_]; split; [reflexivity|repeat constructor]
        | eexists [_; _]; split;
          [rewrite <- ?app_assoc; reflexivity|repeat constructor] ].

Section Facts.
Context `{Codec} `{PdfWorker.Env}.
Variable agents : IPAgents.

Lemma handle_error_exact (step_name : string) (e : exn) (w : world) :
  _handle_error step_name e w =
  (Ok (error_text step_name e),
   add_logs (log_entries_if (search_query_id (state w)) [error_text step_name e])
     (set_state (with_error (Some (error_text step_name e))) w)).
Proof.
  unfold _handle_error. unfold Py.bind at 1. cbn [modify].
  unfold Py.bind at 1. rewrite log_if_id_run. cbn [ret].
  unfold log_entries_if, error_text, add_logs, set_state, Py.ret. world_simpl.
  destruct (truthy_int _); world_simpl; cbn [map]; rewrite ?app_nil_r; reflexivity.
Qed.

Lemma frame_refl (w : world) : stage_frame w w.
Proof. frame_solve. Qed.

Lemma frame_trans (w1 w2 w3 : world) :
  stage_frame w1 w2 → stage_frame w2 w3 → stage_frame w1 w3.
Proof.
  intros (Hi1 & Hc1 & Hf1 & Hq1 & Hj1 & l1 & Hl1 & Ha1)
         (Hi2 & Hc2 & Hf2 & Hq2 & Hj2 & l2 & Hl2 & Ha2).
  unfold stage_frame. rewrite Hi2, Hc2, Hf2, Hq2, Hj2, Hl2, Hl1.
  repeat (split; [assumption|]).
  exists (l1 ++ l2)%list. split; [rewrite app_assoc; reflexivity|].
  apply Forall_app. split; [exact Ha1|]. rewrite <- Hi1. exact Ha2.
Qed.

Lemma handle_error_frame (step_name : string) (e : exn) (w : world) :
  stage_frame w (snd (_handle_error step_name e w)).
Proof.
  rewrite handle_error_exact. cbn [snd]. unfold log_entries_if.
  destruct (truthy_int _); cbn [map]; frame_solve.
Qed.

Lemma iniciar_frame (w : world) :
  ∃ o w', iniciar_pesquisa w = (Ok o, w') ∧ stage_frame w w'.
Proof.
  unfold iniciar_pesquisa. unfold Py.bind at 1. cbn [gets].
  destruct (_ || _).
  - pose proof (handle_error_frame "iniciar_pesquisa"
                  (Exn "ValueError"
                     "Critério de busca ou ID da busca não foram definidos no estado inicial.") w)
      as Hf.
    rewrite handle_error_exact in Hf |- *. eexists _, _. split; [reflexivity|exact Hf].
  - eexists _, _. split; [reflexivity|]. cbn [snd]. frame_solve.
Qed.

Lemma coletar_frame (prev : string) (w : world) :
  ∃ o w', coletar_dados agents prev w = (Ok o, w') ∧ stage_frame w w'.
Proof.
  unfold coletar_dados. unfold Py.bind at 1. cbn [gets].
  destruct (truthy_str (error_message (state w))).
  { eexists _, _. split; [reflexivity|apply frame_refl]. }
  unfold try_ at 1. unfold Py.bind at 1. unfold Persist.dumps_or_raise.
  destruct (json_dumps_ascii _) as [task_input|].
  2:{ cbn [raise].
      match goal with
      | |- context [_handle_error ?st ?ex ?ww] =>
          pose proof (handle_error_frame st ex ww) as Hf;
          rewrite handle_error_exact in Hf |- *
      end.
      eexists _, _. split; [reflexivity|exact Hf]. }
  cbn [ret]. unfold Py.bind at 1. unfold try_ at 1, run_task, lift.
  destruct (fst (execute_task _ _ _ _ _)) as [out|e].
  - eexists _, _. split; [reflexivity|]. frame_solve.
  - cbn [raise].
    match goal with
    | |- context [_handle_error ?st ?ex ?ww] =>
        pose proof (handle_error_frame st ex ww) as Hf;
        rewrite handle_error_exact in Hf |- *
    end.
    eexists _, _. split; [reflexivity|exact Hf].
Qed.

Lemma classificar_frame (prev : string) (w : world) :
  ∃ o w', classificar_dados agents prev w = (Ok o, w') ∧ stage_frame w w'.
Proof.
  unfold classificar_dados. unfold Py.bind at 1. cbn [gets].
  destruct (truthy_str (raw_data_json (state w))); cbn [negb].
  2:{ eexists _, _. split; [reflexivity|apply frame_refl]. }
  unfold try_ at 1. unfold Py.bind at 1. unfold try_ at 1, run_task, lift.
  destruct (fst (execute_task _ _ _ _ _)) as [out|e].
  - unfold Py.bind at 1. cbn [modify]. unfold Py.bind at 1.
    rewrite log_if_id_run. cbn [ret].
    eexists _, _. split; [reflexivity|]. world_simpl.
    destruct (truthy_int _); frame_solve.
  - unfold Py.bind at 1. rewrite log_if_id_run. cbn [raise].
    unfold Py.bind at 1. rewrite log_if_id_run. cbn [ret].
    eexists _, _. split; [reflexivity|].
    destruct (truthy_int (search_query_id (state w))) eqn:Hi; world_simpl;
      rewrite ?Hi; frame_solve.
Qed.

Lemma analisar_frame (prev : string) (w : world) :
  ∃ o w', analisar_dados agents prev w = (Ok o, w') ∧ stage_frame w w'.
Proof.
  unfold analisar_dados. unfold Py.bind at 1. cbn [gets].
  destruct (truthy_str (classified_data_json (state w))); cbn [negb].
  2:{ eexists _, _. split; [reflexivity|apply frame_refl]. }
  unfold try_ at 1. unfold Py.bind at 1. unfold try_ at 1, run_task, lift.
  destruct (fst (execute_task _ _ _ _ _)) as [out|e].
  - eexists _, _. split; [reflexivity|]. frame_solve.
  - cbn [raise].
    match goal with
    | |- context [_handle_error ?st ?ex ?ww] =>
        pose proof (handle_error_frame st ex ww) as Hf;
        rewrite handle_error_exact in Hf |- *
    end.
    eexists _, _. split; [reflexivity|exact Hf].
Qed.

Lemma gerar_frame (prev : string) (w : world) :
  ∃ o w', gerar_visualizacoes agents prev w = (Ok o, w') ∧ stage_frame w w'.
Proof.
  unfold gerar_visualizacoes. unfold Py.bind at 1. cbn [gets].
  destruct (truthy_str (analysis_results_json (state w))); cbn [negb].
  2:{ eexists _, _. split; [reflexivity|apply frame_refl]. }
  unfold try_ at 1. unfold Py.bind at 1. unfold try_ at 1, run_task, lift.
  destruct (fst (execute_task _ _ _ _ _)) as [out|e].
  - eexists _, _. split; [reflexivity|]. frame_solve.
  - unfold Py.bind at 1. rewrite log_if_id_run. cbn [raise].
    unfold Py.bind at 1. rewrite log_if_id_run.
    match goal with
    | |- context [_handle_error ?st ?ex ?ww] =>
        pose proof (handle_error_frame st ex ww) as Hf;
        rewrite handle_error_exact in Hf |- *
    end.
    eexists _, _. split; [reflexivity|]. cbn [snd] in Hf.
    eapply frame_trans; [|exact Hf].
    destruct (truthy_int (search_query_id (state w))) eqn:Hi; world_simpl;
      rewrite ?Hi; frame_solve.
Qed.

Lemma run_stages_frame (w : world) :
  ∃ o w', run_stages agents w = (Ok o, w') ∧ stage_frame w w'.
Proof.
  unfold run_stages, listeners. cbn [run_chain]. unfold Py.bind.
  destruct (iniciar_frame w) as (o0 & w0 & -> & F0).
  destruct (coletar_frame o0 w0) as (o1 & w1 & -> & F1).
  destruct (classificar_frame o1 w1) as (o2 & w2 & -> & F2).
  destruct (analisar_frame o2 w2) as (o3 & w3 & -> & F3).
  destruct (gerar_frame o3 w3) as (o4 & w4 & -> & F4).
  eexists _, _. split; [reflexivity|].
  repeat (eapply frame_trans; [eassumption|]). apply frame_refl.
Qed.


(** *** The stages, path by path *)

Lemma iniciar_valid_exact (w : world) (z : Z) :
  search_criteria (state w) ≠ "" →
  search_query_id (state w) = Some z →
  iniciar_pesquisa w =
  (Ok "Início da coleta de dados.",
   add_logs [(Some z, start_msg (Some z) (search_criteria (state w)))] w).
Proof.
  intros Hc Hid. unfold iniciar_pesquisa. unfold Py.bind at 1. cbn [gets].
  rewrite Hid. apply String.eqb_neq in Hc. rewrite Hc. cbn [orb].
  reflexivity.
Qed.


Lemma coletar_ok_exact (prev : string) (w : world) (task_input out : string) :
  has_error w = false →
  json_dumps_ascii
    (PDict [("query", PStr (search_criteria (state w)));
            ("search_query_id", of_opt_int (search_query_id (state w)))])
    = Some task_input →
  fst (execute_task (collection_task agents) task_input None None 2) = Ok out →
  coletar_dados agents prev w =
  (Ok "Coleta de dados finalizada.",
   add_logs [(search_query_id (state w), collected_msg (num_results (Some out)))]
     (set_state (with_raw (Some out)) w)).
Proof.
  unfold has_error. intros He Hd Hex.
  unfold coletar_dados. unfold Py.bind at 1. cbn [gets]. rewrite He.
  unfold try_ at 1. unfold Py.bind at 1. rewrite Hd.
  cbn [Persist.dumps_or_raise ret].
  unfold Py.bind at 1. unfold try_ at 1, run_task, lift. rewrite Hex.
  reflexivity.
Qed.

Lemma coletar_fail_exact (prev : string) (w : world) (task_input : string)
    (e : exn) :
  has_error w = false →
  json_dumps_ascii
    (PDict [("query", PStr (search_criteria (state w)));
            ("search_query_id", of_opt_int (search_query_id (state w)))])
    = Some task_input →
  fst (execute_task (collection_task agents) task_input None None 2) = Raise e →
  coletar_dados agents prev w =
  (Ok (error_text "coletar_dados" (collection_error e)),
   add_logs (log_entries_if (search_query_id (state w))
               [error_text "coletar_dados" (collection_error e)])
     (set_state
        (with_error (Some (error_text "coletar_dados" (collection_error e)))) w)).
Proof.
  unfold has_error. intros He Hd Hex.
  unfold coletar_dados. unfold Py.bind at 1. cbn [gets]. rewrite He.
  unfold try_ at 1. unfold Py.bind at 1. rewrite Hd.
  cbn [Persist.dumps_or_raise ret].
  unfold Py.bind at 1. unfold try_ at 1, run_task, lift. rewrite Hex.
  cbn [raise]. apply handle_error_exact.
Qed.

Lemma classificar_ok_exact (prev : string) (w : world) (out : string) :
  truthy_str (raw_data_json (state w)) = true →
  fst (execute_task (classification_task agents)
         (default "" (raw_data_json (state w))) None None 2) = Ok out →
  classificar_dados agents prev w =
  (Ok ("Classificação concluída: " +:+ pretty (classified_count (Some out))
       +:+ " registros válidos"),
   add_logs (log_entries_if (search_query_id (state w))
               [classified_msg (classified_count (Some out))])
     (set_state (with_classified (Some out)) w)).
Proof.
  intros Hr Hex. unfold classificar_dados. unfold Py.bind at 1. cbn [gets].
  rewrite Hr. cbn [negb].
  unfold try_ at 1. unfold Py.bind at 1. unfold try_ at 1, run_task, lift.
  rewrite Hex.
  unfold Py.bind at 1. cbn [modify]. unfold Py.bind at 1.
  rewrite log_if_id_run. cbn [ret].
  unfold log_entries_if, add_logs, set_state, classified_msg. world_simpl.
  destruct (truthy_int _); cbn [map]; rewrite ?app_nil_r; reflexivity.
Qed.

Lemma analisar_ok_exact (prev : string) (w : world) (out : string) :
  truthy_str (classified_data_json (state w)) = true →
  fst (execute_task (analysis_task agents)
         (default "" (classified_data_json (state w)))
         (Some "DataAnalysisTool") None 2) = Ok out →
  analisar_dados agents prev w =
  (Ok "Análise de dados finalizada.",
   add_logs [(search_query_id (state w), analysed_msg)]
     (set_state (with_analysis (Some out)) w)).
Proof.
  intros Hr Hex. unfold analisar_dados. unfold Py.bind at 1. cbn [gets].
  rewrite Hr. cbn [negb].
  unfold try_ at 1. unfold Py.bind at 1. unfold try_ at 1, run_task, lift.
  rewrite Hex. reflexivity.
Qed.

Lemma gerar_ok_exact (prev : string) (w : world) (out : string) :
  truthy_str (analysis_results_json (state w)) = true →
  fst (execute_task (visualization_task agents)
         (default "" (analysis_results_json (state w)))
         (Some "VisualizationTool") None 1) = Ok out →
  gerar_visualizacoes agents prev w =
  (Ok "Visualizações geradas", set_state (with_visualizations (Some out)) w).
Proof.
  intros Hr Hex. unfold gerar_visualizacoes. unfold Py.bind at 1. cbn [gets].
  rewrite Hr. cbn [negb].
  unfold try_ at 1. unfold Py.bind at 1. unfold try_ at 1, run_task, lift.
  rewrite Hex. reflexivity.
Qed.

(** *** The report step *)

Lemma generate_final_report_ok_exact (w : world) (parts : report_parts) :
  report_inputs (state w) = Ok parts →
  let s := state w in
  let qid := search_query_id s in
  let base := report_fields agents s (part_collected parts)
                (part_classified parts) (part_analysis parts)
                (part_visualizations parts) (part_insights parts) in
  let js := job_store w in
  let job_id := PdfWorker.uuid4_str (PdfWorker.uuids js) in
  let meta := PdfWorker.initial_meta job_id
                (PdfWorker.default_output_path PdfWorker.title_prefix_default
                   (PdfWorker.utcnow_stamp (PdfWorker.clock js)))
                (PdfWorker.utcnow_iso (S (PdfWorker.clock js)))
                (of_opt_int qid)
                (PdfWorker.llm_model_of (PDict base)) in
  let report := dict_set "pdf_job" (pdf_job_ref meta) base in
  _generate_final_report agents w =
  (Ok (PDict report),
   World (with_final_report report s)
     (search_log w ++
        log_entries_if qid
          [report_done_msg;
           "PDF generation enqueued: job_id=" +:+ py_str (PStr job_id)])%list
     (query_status w ++ if truthy_int qid then [(qid, "completed")] else [])%list
     (snd (PdfWorker.enqueue_pdf_job (PDict base) None qid
             PdfWorker.title_prefix_default js))).
Proof.
  intros Hparts s qid base js job_id meta report.
  destruct (report_inputs_ok _ _ Hparts)
    as (Hc & Ha & Hv & (raw_data & Hr & Hn) & Hins).
  fold s in Hc, Ha, Hv, Hr.
  unfold _generate_final_report. unfold try_ at 1.
  unfold Py.bind at 1. cbn [gets]. fold s.
  unfold Py.bind at 1. unfold lift at 1. rewrite Hc.
  unfold Py.bind at 1. unfold lift at 1. rewrite Ha.
  unfold Py.bind at 1. unfold lift at 1. rewrite Hv.
  unfold Py.bind at 1. unfold lift at 1. rewrite Hr.
  unfold Py.bind at 1. unfold lift at 1. rewrite Hn.
  unfold Py.bind at 1. unfold lift at 1. rewrite Hins.
  unfold Py.bind at 1. cbn [modify]. fold base.
  unfold Py.bind at 1. fold qid.
  set (w1 := set_state (with_final_report base) w).
  assert (when (truthy_int qid)
            (try_ (do! update_search_query_status qid "completed"
                   in insert_search_log qid
                        "Fluxo concluído e relatório final gerado.")
               (fun _ => ret tt)) w1
          = (Ok tt,
             World (state w1)
               (search_log w1 ++ log_entries_if qid [report_done_msg])%list
               (query_status w1 ++
                  if truthy_int qid then [(qid, "completed")] else [])%list
               (job_store w1))) as ->.
  { unfold when, log_entries_if. destruct (truthy_int qid); [reflexivity|].
    cbn [map]. rewrite !app_nil_r. reflexivity. }
  unfold Py.bind at 1. unfold try_ at 1.
  unfold Py.bind at 1. cbn [gets].
  cbn [w1 set_state state with_final_report final_report].
  unfold Py.bind at 1. rewrite in_jobs_enqueue.
  cbn [w1 set_state job_store state search_log query_status]. fold js.
  rewrite (PdfWorkerFacts.enqueue_pdf_job_run (PDict base) None qid
             PdfWorker.title_prefix_default js).
  cbn zeta. cbn [fst snd default from_option id]. fold job_id. fold meta.
  unfold Py.bind at 1. cbn [modify].
  rewrite log_if_id_run.
  unfold Py.bind at 1. cbn [gets ret].
  cbn [state set_state search_query_id with_final_report final_report
       job_store search_log query_status].
  fold s. fold qid. fold report. unfold log_entries_if.
  destruct (truthy_int qid);
    cbn [state set_state search_query_id with_final_report final_report
         job_store search_log query_status map];
    rewrite ?app_nil_r, <- ?app_assoc; reflexivity.
Qed.

Lemma generate_final_report_fail_exact (w : world) (e : exn) :
  report_inputs (state w) = Raise e →
  _generate_final_report agents w =
  (Ok (PStr (error_text "generate_final_report" e)),
   add_logs (log_entries_if (search_query_id (state w))
               ["Erro ao gerar relatório final: " +:+ exn_str e;
                error_text "generate_final_report" e])
     (set_state
        (with_error (Some (error_text "generate_final_report" e))) w)).
Proof.
  intros Hcase.
  assert ((do! log_if_id ("Erro ao gerar relatório final: " +:+ exn_str e)
           in let! msg := _handle_error "generate_final_report" e
              in ret (PStr msg)) w
          = (Ok (PStr (error_text "generate_final_report" e)),
             add_logs (log_entries_if (search_query_id (state w))
                         ["Erro ao gerar relatório final: " +:+ exn_str e;
                          error_text "generate_final_report" e])
               (set_state
                  (with_error (Some (error_text "generate_final_report" e))) w)))
    as Hhandler.
  { unfold Py.bind at 1. rewrite log_if_id_run.
    unfold Py.bind at 1. rewrite handle_error_exact. cbn [ret].
    unfold log_entries_if, add_logs, set_state.
    destruct (truthy_int (search_query_id (state w))) eqn:Hi; world_simpl;
      rewrite ?Hi; cbn [map]; rewrite ?app_nil_r, <- ?app_assoc; reflexivity. }
  unfold report_inputs, and_then in Hcase.
  unfold _generate_final_report. unfold try_ at 1.
  unfold Py.bind at 1. cbn [gets].
  unfold Py.bind at 1. unfold lift at 1.
  destruct (_safe_json_load (classified_data_json (state w)) _) as [c|e1];
    [|injection Hcase as ->; exact Hhandler].
  unfold Py.bind at 1. unfold lift at 1.
  destruct (_safe_json_load (analysis_results_json (state w)) _) as [a|e1];
    [|injection Hcase as ->; exact Hhandler].
  unfold Py.bind at 1. unfold lift at 1.
  destruct (_safe_json_load (visualizations_json (state w)) _) as [v|e1];
    [|injection Hcase as ->; exact Hhandler].
  unfold Py.bind at 1. unfold lift at 1.
  destruct (_safe_json_load (raw_data_json (state w)) _) as [r|e1];
    [|injection Hcase as ->; exact Hhandler].
  unfold Py.bind at 1. unfold lift at 1.
  destruct (py_len r) as [n|e1];
    [|injection Hcase as ->; exact Hhandler].
  unfold Py.bind at 1. unfold lift at 1.
  destruct (py_get a "insights" no_insight) as [i|e1];
    [discriminate|injection Hcase as ->; exact Hhandler].
Qed.



Lemma log_entries_if_own (qid : option Z) (msgs : list string) :
  Forall (λ e : option Z * string, e.1 = qid) (log_entries_if qid msgs).
Proof.
  unfold log_entries_if. destruct (truthy_int qid); [|constructor].
  induction msgs as [|m msgs IH]; cbn [map]; constructor; auto.
Qed.

(** What the report step does to the world, whichever way it ends. *)
Lemma generate_final_report_effects (w : world) :
  let qid := search_query_id (state w) in
  let js := job_store w in
  let job_id := PdfWorker.uuid4_str (PdfWorker.uuids js) in
  ∃ r w',
    _generate_final_report agents w = (Ok r, w')
    ∧ search_query_id (state w') = qid
    ∧ search_criteria (state w') = search_criteria (state w)
    ∧ payloads w' = payloads w
    ∧ (∃ more, search_log w' = (search_log w ++ more)%list
               ∧ Forall (λ e, e.1 = qid) more)
    ∧ (query_status w' = query_status w
       ∨ truthy_int qid = true
         ∧ query_status w' = (query_status w ++ [(qid, "completed")])%list)
    ∧ (job_store w' = js
       ∨ PdfWorker.history (job_store w')
         = (PdfWorker.history js
            ++ [PdfWorker.JWrite job_id; PdfWorker.JSubmit job_id])%list
         ∧ length (PdfWorker.queue (job_store w'))
           = S (length (PdfWorker.queue js))
         ∧ PdfWorker.db_log (job_store w') = PdfWorker.db_log js).
Proof.
  intros qid js job_id.
  assert (∀ e,
            report_inputs (state w) = Raise e →
            ∃ r w',
              _generate_final_report agents w = (Ok r, w')
              ∧ search_query_id (state w') = qid
              ∧ search_criteria (state w') = search_criteria (state w)
              ∧ payloads w' = payloads w
              ∧ (∃ more, search_log w' = (search_log w ++ more)%list
                         ∧ Forall (λ e, e.1 = qid) more)
              ∧ (query_status w' = query_status w
                 ∨ truthy_int qid = true
                   ∧ query_status w'
                     = (query_status w ++ [(qid, "completed")])%list)
              ∧ (job_store w' = js
                 ∨ PdfWorker.history (job_store w')
                   = (PdfWorker.history js
                      ++ [PdfWorker.JWrite job_id; PdfWorker.JSubmit job_id])%list
                   ∧ length (PdfWorker.queue (job_store w'))
                     = S (length (PdfWorker.queue js))
                   ∧ PdfWorker.db_log (job_store w') = PdfWorker.db_log js))
    as Hfail.
  { intros e Hcase. rewrite (generate_final_report_fail_exact w e Hcase).
    eexists _, _. split; [reflexivity|].
    unfold add_logs, set_state, payloads. world_simpl.
    repeat (split; [reflexivity|]).
    split; [eexists; split; [reflexivity|apply log_entries_if_own]|].
    split; left; reflexivity. }
  destruct (report_inputs (state w)) as [parts|e] eqn:Hparts;
    [|apply (Hfail e); reflexivity].
  clear Hfail.
  pose proof (generate_final_report_ok_exact w parts Hparts) as Hok.
  cbn zeta in Hok. rewrite Hok. clear Hok.
  eexists _, _. split; [reflexivity|].
  unfold payloads. world_simpl. fold qid.
  repeat (split; [reflexivity|]).
  split; [eexists; split; [reflexivity|apply log_entries_if_own]|].
  split.
  { destruct (truthy_int qid); [right; split; reflexivity|left].
    apply app_nil_r. }
  right. fold js.
  rewrite (PdfWorkerFacts.enqueue_pdf_job_run _ None qid
             PdfWorker.title_prefix_default js).
  cbn zeta. cbn [snd PdfWorker.history PdfWorker.queue PdfWorker.db_log].
  fold job_id. rewrite <- app_assoc, length_app. cbn [length app].
  repeat split; lia.
Qed.

(** What a run does to the world outside its payloads. *)
Lemma kickoff_effects
    (initial : option PropriedadeIntelectualState) (w0 : world) :
  let ws := start_world initial w0 in
  let qid := search_query_id (state ws) in
  let js := job_store w0 in
  let job_id := PdfWorker.uuid4_str (PdfWorker.uuids js) in
  ∃ report w',
    kickoff agents initial w0 = (Ok report, w')
    ∧ search_query_id (state w') = qid
    ∧ search_criteria (state w') = search_criteria (state ws)
    ∧ (∃ more, search_log w' = (search_log w0 ++ more)%list
               ∧ Forall (λ e, e.1 = qid) more)
    ∧ (query_status w' = query_status w0
       ∨ truthy_int qid = true
         ∧ query_status w' = (query_status w0 ++ [(qid, "completed")])%list)
    ∧ (job_store w' = js
       ∨ PdfWorker.history (job_store w')
         = (PdfWorker.history js
            ++ [PdfWorker.JWrite job_id; PdfWorker.JSubmit job_id])%list
         ∧ length (PdfWorker.queue (job_store w'))
           = S (length (PdfWorker.queue js))
         ∧ PdfWorker.db_log (job_store w') = PdfWorker.db_log js).
Proof.
  intros ws qid js job_id.
  destruct (run_stages_frame ws) as (o & w1 & Hst & Hi1 & Hc1 & _ & Hq1 & Hj1 & l1 & Hl1 & Ha1).
  destruct (generate_final_report_effects w1)
    as (r & w2 & Hrep & Hi2 & Hc2 & _ & (l2 & Hl2 & Ha2) & Hq2 & Hj2).
  assert (search_log ws = search_log w0 ∧ query_status ws = query_status w0
          ∧ job_store ws = job_store w0) as (Hls & Hqs & Hjs).
  { unfold ws. destruct initial; repeat split; reflexivity. }
  exists (final_report (state w2)), w2.
  split; [exact (kickoff_run _ _ _ _ _ _ _ Hst Hrep)|].
  rewrite Hi2, Hc2, Hi1, Hc1. fold qid.
  split; [reflexivity|]. split; [reflexivity|].
  split.
  { exists (l1 ++ l2)%list. rewrite Hl2, Hl1, Hls, app_assoc.
    split; [reflexivity|]. apply Forall_app. split; [exact Ha1|].
    rewrite Hi1 in Ha2. exact Ha2. }
  cbn zeta in Hq2, Hj2. rewrite Hi1, Hq1, Hqs in Hq2. rewrite Hj1, Hjs in Hj2.
  split; [exact Hq2|exact Hj2].
Qed.


Lemma run_chain_cons (l : string → M world string)
    (ls : list (string → M world string)) (prev : string) (w : world) :
  run_chain (l :: ls) prev w =
  match l prev w with
  | (Ok o, w') => run_chain ls o w'
  | (Raise e, w') => (Raise e, w')
  end.
Proof. reflexivity. Qed.


(** A report on a state without payloads. *)
Lemma report_without_payloads (w : world) :
  payloads w = (None, None, None, None) →
  let s := state w in
  let qid := search_query_id s in
  let js := job_store w in
  let job_id := PdfWorker.uuid4_str (PdfWorker.uuids js) in
  ∃ report w',
    _generate_final_report agents w = (Ok (PDict report), w')
    ∧ final_report (state w') = report
    ∧ error_message (state w') = error_message s
    ∧ payloads w' = (None, None, None, None)
    ∧ dict_get "success" report = Some (PBool true)
    ∧ dict_get "data_collected" report = Some (PInt 0)
    ∧ dict_get "classified_data" report = Some (PList [])
    ∧ dict_get "insights" report = Some no_insight
    ∧ (∃ job, dict_get "pdf_job" report = Some (PDict job)
              ∧ dict_get "job_id" job = Some (PStr job_id)
              ∧ dict_get "status" job = Some (PStr "pending"))
    ∧ search_log w' =
        (search_log w ++
           log_entries_if qid
             [report_done_msg;
              "PDF generation enqueued: job_id=" +:+ py_str (PStr job_id)])%list
    ∧ query_status w' =
        (query_status w ++ if truthy_int qid then [(qid, "completed")] else [])%list.
Proof.
  intros Hp s qid js job_id. subst s. unfold payloads in Hp.
  injection Hp as Hr Hc Ha Hv.
  pose proof (generate_final_report_ok_exact w
                (Parts (PList []) (PDict []) (PDict []) 0 no_insight)) as Hok.
  cbn zeta in Hok. rewrite Hok; clear Hok.
  2:{ unfold report_inputs. rewrite Hr, Hc, Ha, Hv. reflexivity. }
  eexists _, _. split; [reflexivity|].
  unfold payloads. world_simpl. rewrite Hr, Hc, Ha, Hv.
  split; [reflexivity|]. split; [reflexivity|]. split; [reflexivity|].
  unfold report_fields, pdf_job_ref, PdfWorker.initial_meta.
  cbn [part_collected part_classified part_analysis part_visualizations
       part_insights].
  split; [dict_simpl; reflexivity|]. split; [dict_simpl; reflexivity|].
  split; [dict_simpl; reflexivity|]. split; [dict_simpl; reflexivity|].
  split.
  { eexists. split; [dict_simpl; reflexivity|]. split; reflexivity. }
  split; reflexivity.
Qed.


(** X22.  When the collection task fails, the run records
    ['coletar_dados'] with the wrapped failure in [error_message], leaves
    every payload unset and runs no later stage, and still produces a
    report with [success] true and [data_collected] 0; the log holds the
    start entry and, for a true search id, the error, the completion and
    the render job, and the search is marked completed. *)
Theorem collection_failure_still_reports
    (z : Z) (criteria task_input : string) (e : exn) (w0 : world) :
  criteria ≠ "" →
  json_dumps_ascii
    (PDict [("query", PStr criteria); ("search_query_id", PInt z)])
    = Some task_input →
  fst (execute_task (collection_task agents) task_input None None 2) = Raise e →
  let msg := error_text "coletar_dados" (collection_error e) in
  let job_id := PdfWorker.uuid4_str (PdfWorker.uuids (job_store w0)) in
  ∃ report w',
    kickoff agents (Some (service_state z criteria)) w0 = (Ok report, w')
    ∧ error_message (state w') = Some msg
    ∧ payloads w' = (None, None, None, None)
    ∧ dict_get "success" report = Some (PBool true)
    ∧ dict_get "data_collected" report = Some (PInt 0)
    ∧ search_log w' =
        (search_log w0 ++
           (Some z, start_msg (Some z) criteria) ::
           log_entries_if (Some z)
             [msg; report_done_msg;
              "PDF generation enqueued: job_id=" +:+ py_str (PStr job_id)])%list
    ∧ query_status w' =
        (query_status w0 ++
           if truthy_int (Some z) then [(Some z, "completed")] else [])%list.
Proof.
  intros Hcrit Hdump Hcol msg job_id.
  set (ws := start_world (Some (service_state z criteria)) w0).
  set (wa := add_logs [(Some z, start_msg (Some z) criteria)] ws).
  set (w1 := add_logs (log_entries_if (Some z) [msg])
               (set_state (with_error (Some msg)) wa)).
  assert (run_stages agents ws = (Ok msg, w1)) as Hst.
  { unfold run_stages. unfold Py.bind at 1.
    rewrite (iniciar_valid_exact ws z Hcrit eq_refl).
    change (add_logs [(Some z, start_msg (Some z) (search_criteria (state ws)))] ws)
      with wa.
    unfold listeners. rewrite run_chain_cons.
    rewrite (coletar_fail_exact _ wa task_input e eq_refl Hdump Hcol).
    fold msg.
    change (add_logs (log_entries_if (search_query_id (state wa)) [msg])
              (set_state (with_error (Some msg)) wa)) with w1.
    apply chain_skips_without_inputs; reflexivity. }
  destruct (report_without_payloads w1 eq_refl)
    as (report & w2 & Hrep & Hfr & Hem & Hp & Hsu & Hdc & _ & _ & _ & Hlog & Hqs).
  exists report, w2. rewrite <- Hfr at 1.
  split; [exact (kickoff_run _ _ _ _ _ _ _ Hst Hrep)|].
  split; [exact Hem|]. split; [exact Hp|]. split; [exact Hsu|].
  split; [exact Hdc|].
  rewrite Hlog, Hqs.
  unfold w1, wa, ws, add_logs, set_state, start_world, log_entries_if.
  world_simpl. cbn [service_state search_query_id]. fold job_id.
  destruct (truthy_int (Some z)); cbn [map]; rewrite ?app_nil_r, <- ?app_assoc;
    split; reflexivity.
Qed.

(** X23.  The stages feed one another.  When every task answers with a
    non-empty text, the classification task is run on the collector's
    text, the analysis task on the classifier's, preferring the
    [DataAnalysisTool], and the visualisation task on the analysis's,
    preferring the [VisualizationTool] and with a single attempt; the run
    ends with the four texts in the state, and the log holds, in order,
    the start, the collected count, the classified count (for a true
    search id) and the analysis entry, followed by what the report step
    adds. *)
Theorem kickoff_stages_feed_one_another
    (z : Z) (criteria task_input raw cls ana viz : string) (w0 : world) :
  criteria ≠ "" →
  json_dumps_ascii
    (PDict [("query", PStr criteria); ("search_query_id", PInt z)])
    = Some task_input →
  fst (execute_task (collection_task agents) task_input None None 2) = Ok raw →
  raw ≠ "" →
  fst (execute_task (classification_task agents) raw None None 2) = Ok cls →
  cls ≠ "" →
  fst (execute_task (analysis_task agents) cls (Some "DataAnalysisTool") None 2)
    = Ok ana →
  ana ≠ "" →
  fst (execute_task (visualization_task agents) ana (Some "VisualizationTool")
         None 1) = Ok viz →
  ∃ report w',
    kickoff agents (Some (service_state z criteria)) w0 = (Ok report, w')
    ∧ payloads w' = (Some raw, Some cls, Some ana, Some viz)
    ∧ ∃ more,
        search_log w' =
          (search_log w0 ++
             [(Some z, start_msg (Some z) criteria);
              (Some z, collected_msg (num_results (Some raw)))] ++
             log_entries_if (Some z) [classified_msg (classified_count (Some cls))] ++
             [(Some z, analysed_msg)] ++ more)%list
        ∧ Forall (λ e, e.1 = Some z) more.
Proof.
  intros Hcrit Hdump Hcol Hraw Hcls Hclsne Hana Hanane Hviz.
  set (ws := start_world (Some (service_state z criteria)) w0).
  set (wa := add_logs [(Some z, start_msg (Some z) criteria)] ws).
  set (wb := add_logs [(Some z, collected_msg (num_results (Some raw)))]
               (set_state (with_raw (Some raw)) wa)).
  set (wc := add_logs (log_entries_if (Some z)
                         [classified_msg (classified_count (Some cls))])
               (set_state (with_classified (Some cls)) wb)).
  set (wd := add_logs [(Some z, analysed_msg)]
               (set_state (with_analysis (Some ana)) wc)).
  set (we := set_state (with_visualizations (Some viz)) wd).
  assert (∀ x : string, x ≠ "" → truthy_str (Some x) = true) as Htruthy.
  { intros x Hx. cbn. apply String.eqb_neq in Hx. rewrite Hx. reflexivity. }
  assert (run_stages agents ws = (Ok "Visualizações geradas", we)) as Hst.
  { unfold run_stages. unfold Py.bind at 1.
    rewrite (iniciar_valid_exact ws z Hcrit eq_refl).
    change (add_logs [(Some z, start_msg (Some z) (search_criteria (state ws)))] ws)
      with wa.
    unfold listeners. rewrite run_chain_cons.
    rewrite (coletar_ok_exact _ wa task_input raw eq_refl Hdump Hcol).
    change (add_logs _ (set_state (with_raw (Some raw)) wa)) with wb.
    rewrite run_chain_cons.
    rewrite (classificar_ok_exact _ wb cls (Htruthy raw Hraw) Hcls).
    change (add_logs _ (set_state (with_classified (Some cls)) wb)) with wc.
    rewrite run_chain_cons.
    rewrite (analisar_ok_exact _ wc ana (Htruthy cls Hclsne) Hana).
    change (add_logs _ (set_state (with_analysis (Some ana)) wc)) with wd.
    rewrite run_chain_cons.
    rewrite (gerar_ok_exact _ wd viz (Htruthy ana Hanane) Hviz).
    reflexivity. }
  destruct (generate_final_report_effects we)
    as (r & w2 & Hrep & _ & _ & Hp & (more & Hlog & Hall) & _).
  exists (final_report (state w2)), w2.
  split; [exact (kickoff_run _ _ _ _ _ _ _ Hst Hrep)|].
  split; [rewrite Hp; reflexivity|].
  exists more. split; [|exact Hall].
  rewrite Hlog. unfold we, wd, wc, wb, wa, ws, add_logs, set_state, start_world.
  world_simpl. cbn [service_state search_query_id].
  rewrite <- !app_assoc. reflexivity.
Qed.

End Facts.


Lemma collection_failure_still_reports_witness :
  ∃ report w',
    kickoff (H := JsonFrag.codec) (H0 := Examples.env)
      Examples.agents_collector_down
      (Some (service_state 7 "patentes")) init_world = (Ok report, w')
    ∧ error_message (state w')
      = Some "Erro no passo 'coletar_dados': Falha ao executar task de coleta: Falha ao executar a task após 2 tentativas: boom"
    ∧ dict_get "success" report = Some (PBool true)
    ∧ query_status w' = [(Some 7%Z, "completed")].
Proof.
  destruct (collection_failure_still_reports
              (H := JsonFrag.codec) (H0 := Examples.env)
              Examples.agents_collector_down 7 "patentes"
              (default "" (JsonFrag.dumps_ascii
                 (PDict [("query", PStr "patentes");
                         ("search_query_id", PInt 7)])))
              (Exn "RuntimeError" (exhausted_msg 2 (Some Examples.boom)))
              init_world
              ltac:(discriminate) eq_refl eq_refl)
    as (report & w' & Hk & He & _ & Hs & _ & _ & Hq).
  exists report, w'. split; [exact Hk|]. split; [exact He|].
  split; [exact Hs|exact Hq].
Defined.

Lemma kickoff_stages_feed_one_another_witness :
  ∃ report w',
    kickoff (H := JsonFrag.codec) (H0 := Examples.env) Examples.agents_ok
      (Some (service_state 7 "patentes")) init_world = (Ok report, w')
    ∧ payloads w' = (Some "[1, 2]", Some "[]", Some "{}", Some "{}").
Proof.
  destruct (kickoff_stages_feed_one_another
              (H := JsonFrag.codec) (H0 := Examples.env) Examples.agents_ok
              7 "patentes"
              (default "" (JsonFrag.dumps_ascii
                 (PDict [("query", PStr "patentes");
                         ("search_query_id", PInt 7)])))
              "[1, 2]" "[]" "{}" "{}" init_world
              ltac:(discriminate) eq_refl eq_refl ltac:(discriminate)
              eq_refl ltac:(discriminate) eq_refl ltac:(discriminate) eq_refl)
    as (report & w' & Hk & Hp & _).
  exists report, w'. split; [exact Hk|exact Hp].
Defined.


End FlowMore.

(** ** The worker's record in closed form, and the worker with its tool *)

Module PdfToolFacts.

Import PdfWorker PdfWorkerOps.
Import PdfWorkerFacts PdfWorkerMore.

Section Facts.
Context `{Codec} `{Env}.

Lemma render_attempt_closed (job_id : string) (results : pyval)
    (output_path : string) (extra_meta : option pydict) (s : store) :
  ∃ s',
    try_ (render_body job_id results output_path extra_meta)
      (fun e =>
         let! t := now_iso in
         meta_update job_id [("status", PStr "failed");
                             ("error", PStr (exn_str e));
                             ("completed_at", PStr t)]) s = (Ok tt, s')
    ∧ jobs s' =
        <[job_id :=
            dict_update
              (outcome_update (render_reply job_id results output_path)
                 (utcnow_iso (clock s)))
              (default [] (jobs s !! job_id))]> (jobs s).
Proof.
  unfold render_reply, render_body, try_.
  destruct (json_dumps _) as [payload|].
  2:{ eexists. split; reflexivity. }
  unfold Py.bind at 1. cbn [modify].
  unfold Py.bind at 1. unfold lift at 1.
  destruct (pdf_tool_run payload) as [resp|e0].
  2:{ eexists. split; reflexivity. }
  set (parsed := match json_loads resp with
                 | Some v => v
                 | None => PDict [("error", PStr "invalid_response"); ("raw", PStr resp)]
                 end).
  unfold Py.bind at 1. unfold lift at 1. cbn [outcome_update].
  destruct (py_get parsed "path" PNone) as [path|e] eqn:Hpath.
  2:{ eexists. split; reflexivity. }
  destruct (truthy path) eqn:Htp.
  - unfold Py.bind, now_iso. rewrite meta_update_run, try_log_eq.
    eexists. split; [reflexivity|].
    cbn zeta.
    match goal with
    | |- context [if ?b then add_log _ _ else _] => destruct b
    end; reflexivity.
  - unfold Py.bind at 1. unfold lift at 1.
    destruct parsed as [| | | | |d|]; try discriminate.
    cbn [py_get]. unfold Py.bind, now_iso. rewrite meta_update_run, try_log_eq.
    eexists. split; [reflexivity|].
    cbn zeta.
    match goal with
    | |- context [if ?b then add_log _ _ else _] => destruct b
    end; reflexivity.
Qed.

(** The worker returns normally, and the record it leaves is the old
    record updated with the processing entries, the outcome and
    [extra_meta], in this order. *)
Lemma run_pdf_job_closed_form (job_id : string) (results : pyval)
    (output_path : string) (extra_meta : option pydict) (s : store) :
  ∃ s',
    _run_pdf_job job_id results output_path extra_meta s = (Ok tt, s')
    ∧ jobs s' !! job_id =
        Some (final_record (render_reply job_id results output_path)
                (utcnow_iso (clock s)) (utcnow_iso (S (clock s)))
                extra_meta (meta_of job_id s)).
Proof.
  unfold _run_pdf_job.
  unfold Py.bind at 1. unfold now_iso at 1.
  unfold Py.bind at 1. rewrite meta_update_run.
  unfold Py.bind at 1. unfold current_meta at 1, gets at 1.
  unfold Py.bind at 1. rewrite persist_run.
  unfold finally.
  match goal with
  | |- context [try_ ?b ?h ?s1] =>
      destruct (render_attempt_closed job_id results output_path extra_meta s1)
        as (s2 & -> & Hj2)
  end.
  cbn [jobs clock set_jobs set_files record tick_clock] in Hj2.
  rewrite lookup_insert_eq in Hj2. cbn [default from_option id] in Hj2.
  unfold Py.bind, when, final_record, meta_of.
  destruct (truthy_extra extra_meta).
  - rewrite meta_update_run. unfold current_meta, gets. rewrite persist_run.
    eexists. split; [reflexivity|]. store_simpl.
    rewrite lookup_insert_eq, Hj2, lookup_insert_eq. reflexivity.
  - unfold Py.ret, current_meta, gets. rewrite persist_run.
    eexists. split; [reflexivity|]. store_simpl.
    rewrite Hj2, lookup_insert_eq. reflexivity.
Qed.

End Facts.

Section WithTool.
Context `{Codec}.
Variable generate_report : pyval → pyval → res unit.
Variable base : Env.

(** The answer of the tool on the payload the worker builds for it. *)
Lemma tool_reply (job_id : string) (results : pyval) (output_path text : string) :
  let results' := prepare_visualizations (H0 := base) job_id results in
  json_dumps (PDict [("results", results'); ("output_path", PStr output_path)])
    = Some text →
  json_loads text
    = Some (PDict [("results", results'); ("output_path", PStr output_path)]) →
  pdf_tool_run (Env := PDFReportTool.with_tool generate_report base) text =
  if negb (truthy results') || String.eqb output_path ""
  then PDFReportTool.error_reply "Faltando 'results' ou 'output_path' na entrada"
  else
    match generate_report results' (PStr output_path) with
    | Ok _ =>
        match json_dumps_ascii (PDict [("path", PStr output_path)]) with
        | Some t => Ok t
        | None =>
            PDFReportTool.error_reply
              ("Falha ao gerar PDF: " +:+ "Object is not JSON serializable")
        end
    | Raise e => PDFReportTool.error_reply ("Falha ao gerar PDF: " +:+ exn_str e)
    end.
Proof.
  intros results' Hd Hl. cbn [pdf_tool_run PDFReportTool.with_tool].
  unfold PDFReportTool._run. rewrite Hl. cbn [py_get].
  unfold dict_get_default. cbn [dict_get String.eqb Ascii.eqb Bool.eqb default
                                from_option id truthy].
  destruct (String.eqb output_path ""); reflexivity.
Qed.

(** X24.  The worker with the report tool as its renderer, when the
    payload survives the trip through JSON: if the prepared results are
    true, the output path is not empty and the generator succeeds, the job
    ends [completed] and its [output_path] is the path that was asked
    for. *)
Theorem job_completes_with_requested_path
    (job_id : string) (results : pyval) (output_path text reply : string)
    (extra_meta : option pydict) (s : store) :
  let results' := prepare_visualizations (H0 := base) job_id results in
  json_dumps (PDict [("results", results'); ("output_path", PStr output_path)])
    = Some text →
  json_loads text
    = Some (PDict [("results", results'); ("output_path", PStr output_path)]) →
  truthy results' = true →
  output_path ≠ "" →
  is_ok (generate_report results' (PStr output_path)) = true →
  json_dumps_ascii (PDict [("path", PStr output_path)]) = Some reply →
  json_loads reply = Some (PDict [("path", PStr output_path)]) →
  has_key "status" (default [] extra_meta) = false →
  has_key "output_path" (default [] extra_meta) = false →
  ∃ s' meta,
    _run_pdf_job (H0 := PDFReportTool.with_tool generate_report base)
        job_id results output_path extra_meta s
      = (Ok tt, s')
    ∧ jobs s' !! job_id = Some meta
    ∧ dict_get "status" meta = Some (PStr "completed")
    ∧ dict_get "output_path" meta = Some (PStr output_path).
Proof.
  intros results' Hd Hl Hres Hpath Hgen Hrd Hrl Hks Hko.
  destruct (run_pdf_job_closed_form (H0 := PDFReportTool.with_tool generate_report base)
      job_id results output_path
              extra_meta s) as (s' & Hrun & Hj).
  exists s'. eexists. split; [exact Hrun|]. split; [exact Hj|].
  assert (render_reply (H0 := PDFReportTool.with_tool generate_report base)
      job_id results output_path
          = Ok (PDict [("path", PStr output_path)])) as ->.
  { unfold render_reply.
    change (prepare_visualizations (H0 := PDFReportTool.with_tool generate_report base)
        job_id results) with results'.
    rewrite Hd, (tool_reply job_id results output_path text Hd Hl).
    fold results'. rewrite Hres. apply String.eqb_neq in Hpath. rewrite Hpath.
    cbn [negb orb].
    destruct (generate_report results' (PStr output_path)); [|discriminate].
    rewrite Hrd, Hrl. reflexivity. }
  unfold final_record, outcome_update. cbn [py_get].
  unfold dict_get_default. cbn [dict_get String.eqb Ascii.eqb Bool.eqb default
                                from_option id truthy].
  apply String.eqb_neq in Hpath. rewrite Hpath. cbn [negb].
  destruct (truthy_extra extra_meta);
    rewrite ?(dict_get_update_other _ _ _ Hks), ?(dict_get_update_other _ _ _ Hko);
    dict_simpl; split; reflexivity.
Qed.

(** X25.  The same worker, when the job cannot be rendered: if the
    prepared results are false (an empty dict, for one) or the output path
    is empty, the job ends [failed] with the tool's message about the
    missing input, whatever the generator would do; if the generator
    raises, the job ends [failed] with the generator's message after
    ["Falha ao gerar PDF: "]. *)
Theorem job_fails_with_tool_message
    (job_id : string) (results : pyval) (output_path text : string)
    (extra_meta : option pydict) (s : store) :
  let results' := prepare_visualizations (H0 := base) job_id results in
  let missing := "Faltando 'results' ou 'output_path' na entrada" in
  json_dumps (PDict [("results", results'); ("output_path", PStr output_path)])
    = Some text →
  json_loads text
    = Some (PDict [("results", results'); ("output_path", PStr output_path)]) →
  has_key "status" (default [] extra_meta) = false →
  has_key "error" (default [] extra_meta) = false →
  ∃ s' meta,
    _run_pdf_job (H0 := PDFReportTool.with_tool generate_report base)
        job_id results output_path extra_meta s
      = (Ok tt, s')
    ∧ jobs s' !! job_id = Some meta
    ∧ (∀ reply,
         truthy results' = false ∨ output_path = "" →
         json_dumps_ascii (PDict [("error", PStr missing)]) = Some reply →
         json_loads reply = Some (PDict [("error", PStr missing)]) →
         dict_get "status" meta = Some (PStr "failed")
         ∧ dict_get "error" meta = Some (PStr missing))
    ∧ (∀ e reply,
         truthy results' = true → output_path ≠ "" →
         generate_report results' (PStr output_path) = Raise e →
         json_dumps_ascii
           (PDict [("error", PStr ("Falha ao gerar PDF: " +:+ exn_str e))])
           = Some reply →
         json_loads reply
           = Some (PDict [("error", PStr ("Falha ao gerar PDF: " +:+ exn_str e))]) →
         dict_get "status" meta = Some (PStr "failed")
         ∧ dict_get "error" meta
           = Some (PStr ("Falha ao gerar PDF: " +:+ exn_str e))).
Proof.
  intros results' missing Hd Hl Hks Hke.
  destruct (run_pdf_job_closed_form (H0 := PDFReportTool.with_tool generate_report base)
      job_id results output_path
              extra_meta s) as (s' & Hrun & Hj).
  exists s'. eexists. split; [exact Hrun|]. split; [exact Hj|].
  assert (∀ msg reply,
            pdf_tool_run (Env := PDFReportTool.with_tool generate_report base)
                text = Ok reply →
            json_loads reply = Some (PDict [("error", PStr msg)]) →
            String.eqb msg "" = false →
            let meta := final_record
                          (render_reply (H0 := PDFReportTool.with_tool generate_report base)
                              job_id results output_path)
                          (utcnow_iso (Env := PDFReportTool.with_tool generate_report base)
                              (clock s))
                          (utcnow_iso (Env := PDFReportTool.with_tool generate_report base)
                              (S (clock s)))
                          extra_meta (meta_of job_id s) in
            dict_get "status" meta = Some (PStr "failed")
            ∧ dict_get "error" meta = Some (PStr msg)) as Herr.
  { intros msg reply Ht Hrl Hne meta. subst meta.
    assert (render_reply (H0 := PDFReportTool.with_tool generate_report base)
        job_id results output_path
            = Ok (PDict [("error", PStr msg)])) as ->.
    { unfold render_reply.
      change (prepare_visualizations (H0 := PDFReportTool.with_tool generate_report base)
          job_id results) with results'.
      rewrite Hd, Ht, Hrl. reflexivity. }
    unfold final_record, outcome_update. cbn [py_get].
    unfold dict_get_default. cbn [dict_get String.eqb Ascii.eqb Bool.eqb default
                                  from_option id truthy].
    rewrite Hne. cbn [negb].
    destruct (truthy_extra extra_meta);
      rewrite ?(dict_get_update_other _ _ _ Hks), ?(dict_get_update_other _ _ _ Hke);
      dict_simpl; split; reflexivity. }
  pose proof (tool_reply job_id results output_path text Hd Hl) as Htool.
  cbn zeta in Htool. fold results' in Htool.
  split.
  - intros reply Hcase Hrd Hrl.
    apply (Herr missing reply); [|exact Hrl|reflexivity].
    rewrite Htool.
    assert (negb (truthy results') || String.eqb output_path "" = true) as ->.
    { destruct Hcase as [-> | ->]; [reflexivity|apply orb_true_r]. }
    unfold PDFReportTool.error_reply. fold missing. rewrite Hrd. reflexivity.
  - intros e reply Hres Hpath Hgen Hrd Hrl.
    apply (Herr _ reply); [|exact Hrl|reflexivity].
    rewrite Htool, Hres, Hgen.
    apply String.eqb_neq in Hpath. rewrite Hpath. cbn [negb orb].
    unfold PDFReportTool.error_reply. rewrite Hrd. reflexivity.
Qed.

End WithTool.

Lemma job_completes_with_requested_path_witness :
  ∃ s' meta,
    _run_pdf_job (H := JsonFrag.codec)
      (H0 := PDFReportTool.with_tool (H := JsonFrag.codec) (λ _ _, Ok tt)
               Examples.env)
      "job-0" (PDict [("success", PBool true)]) "static/r.pdf" None empty_store
      = (Ok tt, s')
    ∧ jobs s' !! "job-0" = Some meta
    ∧ dict_get "status" meta = Some (PStr "completed")
    ∧ dict_get "output_path" meta = Some (PStr "static/r.pdf").
Proof.
  apply (job_completes_with_requested_path (H := JsonFrag.codec) (λ _ _, Ok tt)
           Examples.env "job-0" (PDict [("success", PBool true)]) "static/r.pdf"
           (default "" (JsonFrag.dumps_with false false
              (PDict [("results", PDict [("success", PBool true)]);
                      ("output_path", PStr "static/r.pdf")])))
           (default "" (JsonFrag.dumps_ascii (PDict [("path", PStr "static/r.pdf")])))
           None empty_store);
    first [reflexivity | discriminate | vm_compute; reflexivity].
Defined.

Lemma job_fails_with_tool_message_witness :
  ∃ s' meta,
    _run_pdf_job (H := JsonFrag.codec)
      (H0 := PDFReportTool.with_tool (H := JsonFrag.codec) (λ _ _, Ok tt)
               Examples.env)
      "job-0" (PDict []) "static/r.pdf" None empty_store = (Ok tt, s')
    ∧ jobs s' !! "job-0" = Some meta
    ∧ dict_get "status" meta = Some (PStr "failed")
    ∧ dict_get "error" meta
      = Some (PStr "Faltando 'results' ou 'output_path' na entrada").
Proof.
  destruct (job_fails_with_tool_message (H := JsonFrag.codec) (λ _ _, Ok tt)
              Examples.env "job-0" (PDict []) "static/r.pdf"
              (default "" (JsonFrag.dumps_with false false
                 (PDict [("results", PDict []);
                         ("output_path", PStr "static/r.pdf")])))
              None empty_store eq_refl
              ltac:(vm_compute; reflexivity) eq_refl eq_refl)
    as (s' & meta & Hrun & Hj & Hmiss & _).
  exists s', meta. split; [exact Hrun|]. split; [exact Hj|].
  apply (Hmiss (default "" (JsonFrag.dumps_ascii
                  (PDict [("error",
                           PStr "Faltando 'results' ou 'output_path' na entrada")])))).
  - left. reflexivity.
  - vm_compute. reflexivity.
  - vm_compute. reflexivity.
Defined.

End PdfToolFacts.

(** ** The analysis service *)

Module ServiceFacts.

Import Tasks Flow FlowOps Service.
Import FlowFacts FlowMore.

Lemma updates_of_app (query_id : Z) (st : PropriedadeIntelectualState)
    (l : list (option Z * string)) (qs more : list (option Z * string))
    (js : PdfWorker.store) :
  updates_of query_id (World st l (qs ++ more) js)
  = (updates_of query_id (World st l qs js)
     ++ updates_of query_id (World st l more js))%list.
Proof.
  unfold updates_of. cbn [query_status].
  rewrite List.filter_app, map_app. reflexivity.
Qed.

Lemma find_none_all {A} (p : A → bool) (l : list A) :
  (∀ x, x ∈ l → p x = false) → find p l = None.
Proof.
  induction l as [|a l IH]; intros Hall; [reflexivity|]. cbn.
  rewrite (Hall a) by (apply elem_of_cons; left; reflexivity).
  apply IH. intros x Hx. apply Hall. apply elem_of_cons. right. exact Hx.
Qed.

Section Facts.
Context `{Codec} `{PdfWorker.Env}.

(** The service on a known id with a flow that could be constructed. *)
Lemma execute_known (agents : IPAgents) (search_query_id : Z) (sw : sworld)
    (row : query_row) :
  find (fun r => Z.eqb (q_id r) search_query_id) (search_query sw) = Some row →
  let w := flow_world sw in
  let wp := World (state w) (search_log w)
              (query_status w ++ [(Some search_query_id, "processing")])%list
              (job_store w) in
  ∃ report w2,
    kickoff agents (Some (service_state search_query_id (q_criteria row))) wp
      = (Ok report, w2)
    ∧ execute_analysis (Ok agents) search_query_id sw
      = (Ok (PDict report), SWorld w2 (search_query sw) (next_query_id sw)).
Proof.
  intros Hf w wp.
  destruct (kickoff_effects agents
              (Some (service_state search_query_id (q_criteria row))) wp)
    as (report & w2 & Hk & _).
  exists report, w2. split; [exact Hk|].
  unfold execute_analysis, try_, get_search_query_by_id.
  unfold Py.bind at 1. cbn [gets]. rewrite Hf.
  unfold Py.bind at 1. unfold in_flow at 1, update_search_query_status.
  cbn [modify]. fold w. fold wp.
  unfold Py.bind at 1. cbn [lift].
  unfold Py.bind at 1. unfold in_flow at 1. cbn [flow_world].
  rewrite Hk. reflexivity.
Qed.

(** X26.  The service's error paths.  For an id that is not in the
    table it returns the not-found error dict and changes nothing: no
    status, no log entry, no flow.  When the flow cannot be constructed,
    it has already set the status to [processing]; it then sets it to
    [error], logs the failure under the id and returns the error dict
    instead of raising. *)
Theorem execute_analysis_error_paths
    (new_flow : res IPAgents) (search_query_id : Z) (sw : sworld) :
  (find (fun r => Z.eqb (q_id r) search_query_id) (search_query sw) = None →
   execute_analysis new_flow search_query_id sw
   = (Ok (PDict [("error", PStr (not_found_msg search_query_id))]), sw))
  ∧ (∀ row e,
       find (fun r => Z.eqb (q_id r) search_query_id) (search_query sw)
         = Some row →
       new_flow = Raise e →
       ∃ sw',
         execute_analysis new_flow search_query_id sw
           = (Ok (PDict [("error", PStr (fatal_msg e))]), sw')
         ∧ query_status (flow_world sw')
           = (query_status (flow_world sw)
              ++ [(Some search_query_id, "processing");
                  (Some search_query_id, "error")])%list
         ∧ search_log (flow_world sw')
           = (search_log (flow_world sw)
              ++ [(Some search_query_id, fatal_msg e)])%list
         ∧ status_of search_query_id sw' = Some "error"
         ∧ search_query sw' = search_query sw
         ∧ job_store (flow_world sw') = job_store (flow_world sw)).
Proof.
  split.
  - intros Hf. unfold execute_analysis, try_, get_search_query_by_id.
    unfold Py.bind at 1. cbn [gets]. rewrite Hf. reflexivity.
  - intros row e Hf ->.
    unfold execute_analysis, try_, get_search_query_by_id.
    unfold Py.bind at 1. cbn [gets]. rewrite Hf.
    eexists. split; [reflexivity|].
    cbn [flow_world query_status search_log search_query job_store].
    split; [rewrite <- app_assoc; reflexivity|].
    split; [reflexivity|]. split; [|split; reflexivity].
    unfold status_of. cbn [flow_world].
    rewrite <- app_assoc. destruct (flow_world sw) as [st l qs js].
    cbn [query_status state search_log job_store].
    rewrite updates_of_app.
    assert (updates_of search_query_id
              (World st (l ++ [(Some search_query_id, fatal_msg e)]) 
                 ([(Some search_query_id, "processing")] ++
                  [(Some search_query_id, "error")]) js)
            = ["processing"; "error"]) as ->.
    { unfold updates_of. cbn. rewrite Z.eqb_refl. reflexivity. }
    rewrite (last_app _ ["processing"; "error"]). reflexivity.
Qed.

(** X27.  Start, then execute.  The id [start_analysis] returns is found
    by [execute_analysis], provided the id sequence is ahead of the table:
    the flow runs on the criteria that were submitted and under that id,
    the result is the flow's report and not an error dict, the log holds
    the creation entry followed only by entries of this search, and the
    search ends with status [processing] or [completed], never [pending]
    or [error]. *)
Theorem start_then_execute_runs_the_submitted_search
    (agents : IPAgents) (criteria : string) (sw : sworld) :
  (∀ r, r ∈ search_query sw → q_id r ≠ next_query_id sw) →
  let id := next_query_id sw in
  ∃ sw1 report sw2,
    start_analysis criteria sw = (Ok id, sw1)
    ∧ execute_analysis (Ok agents) id sw1 = (Ok (PDict report), sw2)
    ∧ report = final_report (state (flow_world sw2))
    ∧ search_criteria (state (flow_world sw2)) = criteria
    ∧ search_query_id (state (flow_world sw2)) = Some id
    ∧ (∃ more,
         search_log (flow_world sw2)
         = (search_log (flow_world sw)
            ++ (Some id, "Registro de busca criado. Aguardando execução do Flow.")
               :: more)%list
         ∧ Forall (λ e, e.1 = Some id) more)
    ∧ (status_of id sw2 = Some "processing"
       ∨ id ≠ 0%Z ∧ status_of id sw2 = Some "completed").
Proof.
  intros Hfresh id.
  set (w := flow_world sw).
  set (sw1 := SWorld
                (World (state w)
                   (search_log w ++
                      [(Some id,
                        "Registro de busca criado. Aguardando execução do Flow.")])
                   (query_status w) (job_store w))
                (search_query sw ++ [QueryRow id criteria "pending"])
                (id + 1)).
  assert (start_analysis criteria sw = (Ok id, sw1)) as Hstart
    by reflexivity.
  assert (find (fun r => Z.eqb (q_id r) id) (search_query sw1)
          = Some (QueryRow id criteria "pending")) as Hfind.
  { unfold sw1. cbn [search_query].
    assert (find (fun r => Z.eqb (q_id r) id) (search_query sw) = None) as Hnone.
    { apply find_none_all. intros r Hin. apply Z.eqb_neq. apply Hfresh, Hin. }
    rewrite PersistMore.find_snoc, Hnone. cbn [q_id]. rewrite Z.eqb_refl.
    reflexivity. }
  destruct (execute_known agents id sw1 _ Hfind) as (report & w2 & Hk & Hex).
  cbn zeta in Hk, Hex. cbn [q_criteria] in Hk.
  match type of Hk with
  | kickoff _ ?ini ?wp = _ =>
      destruct (kickoff_effects agents ini wp)
        as (report' & w2' & Hk' & Hid & Hcrit & (more & Hlog & Hall) & Hqs & _)
  end.
  rewrite Hk in Hk'. apply pair_equal_spec in Hk' as [Hr <-].
  injection Hr as <-.
  cbn zeta in Hid, Hcrit, Hall, Hqs.
  cbn [start_world set_state state search_query_id search_criteria
       service_state search_log query_status flow_world sw1] in Hid, Hcrit, Hlog,
    Hall, Hqs.
  exists sw1, report, (SWorld w2 (search_query sw1) (next_query_id sw1)).
  split; [exact Hstart|]. split; [exact Hex|]. cbn [flow_world].
  split.
  { unfold kickoff in Hk. revert Hk. unfold Py.bind.
    cbn [modify]. destruct (run_stages _ _) as [[o|e] wa]; [|discriminate].
    destruct (_generate_final_report _ _) as [[r|e] wb]; [|discriminate].
    cbn [gets]. intros E. apply pair_equal_spec in E as [E1 E2].
    injection E1 as <-. rewrite E2. reflexivity. }
  split; [exact Hcrit|]. split; [exact Hid|].
  split.
  { exists more. rewrite Hlog, <- app_assoc. split; [reflexivity|exact Hall]. }
  unfold status_of. cbn [flow_world].
  destruct w2 as [st2 l2 qs2 js2]. cbn [query_status] in Hqs.
  assert (updates_of id (World st2 l2 [(Some id, "processing")] js2)
          = ["processing"]) as Hup1.
  { unfold updates_of. cbn. rewrite Z.eqb_refl. reflexivity. }
  destruct Hqs as [-> | [Hid0 ->]].
  - left. rewrite updates_of_app, Hup1, last_snoc. reflexivity.
  - right. split.
    { cbn in Hid0. apply negb_true_iff, Z.eqb_neq in Hid0. exact Hid0. }
    rewrite updates_of_app.
    assert (updates_of id (World st2 l2 [(Some id, "completed")] js2)
            = ["completed"]) as ->.
    { unfold updates_of. cbn. rewrite Z.eqb_refl. reflexivity. }
    rewrite last_snoc. reflexivity.
Qed.

End Facts.

Lemma start_then_execute_runs_the_submitted_search_witness :
  ∃ sw1 report sw2,
    start_analysis "patentes" (SWorld init_world [] 7) = (Ok 7%Z, sw1)
    ∧ execute_analysis (H := JsonFrag.codec) (H0 := Examples.env)
        (Ok Examples.agents_ok) 7 sw1 = (Ok (PDict report), sw2)
    ∧ Flow.search_criteria (state (flow_world sw2)) = "patentes"
    ∧ (status_of 7 sw2 = Some "processing"
       ∨ 7%Z ≠ 0%Z ∧ status_of 7 sw2 = Some "completed").
Proof.
  destruct (start_then_execute_runs_the_submitted_search
              (H := JsonFrag.codec) (H0 := Examples.env) Examples.agents_ok
              "patentes" (SWorld init_world [] 7))
    as (sw1 & report & sw2 & Hs & He & _ & Hc & _ & _ & Hst).
  - intros r Hr. inversion Hr.
  - exists sw1, report, sw2. split; [exact Hs|]. split; [exact He|].
    split; [exact Hc|exact Hst].
Defined.

End ServiceFacts.
